(** * The data pipeline of the sales dashboard (app.py)

    A shallow embedding of the loading and aggregation pipeline of
    [app.py]: [read_csv_from_zip], [load_data], [build_transactions_table]
    and the module-level date filter that builds [df_f] and [df_tx_f],
    followed by the figures and tables that the four tabs of the dashboard
    compute from them.

    Modelling choices, fixed once for the whole development:
    - a DataFrame is a list of labelled rows; a row maps column names to
      cells.  Column-wise pandas calls ([df[c]], [df[c] = s]) are kept as
      the source writes them ([getitem], [setitem]) and related to their
      row-wise effect by lemmas;
    - a float64 value is the rational it stands for, or an infinity
      ([VInf]); NaN is the missing value.  An integer cell holds the value
      of an int64 or uint64 as a Z, and the conversions to int64 write out
      their range checks and their wrap-around.  A cell keeps the
      constructor its value was read with; the column-wide conversion of
      integers to floats that pandas performs changes the representation
      of a number and, up to 2^53, not its value, and cells are compared
      by value ([cell_eqb]).  float64 arithmetic rounds, and the order in
      which a library adds the values of a column is its own: the sums
      and means of the dashboard are fields of the class [Numpy];
    - every kind of missing value (NaN, NaT, pd.NA, an empty CSV field) is
      the single cell [NA];
    - the library entry points whose behaviour is fixed by pandas and
      not by this program (parsing a CSV payload, parsing a number,
      guessing the format of a timestamp and parsing one) are the fields
      of the class [Pandas]; theorems hold for every instance, and
      [RefPandas] is a small executable instance used to run the pipeline
      on the concrete archives of [Scenario];
    - the programs are first given on tables as values; [Store] runs
      [build_transactions_table] and the date filter over a store of table
      objects, where an assignment to a column changes its object in
      place. [st.cache_data] hands out copies of what it caches and is not
      modelled;
    - in the dashboard a widget is an input and a chart is the table handed
      to plotly.  Where pandas sorts by value with its default algorithm,
      the order of equal values is not fixed: the sorting permutation is
      the field of the class [Numpy], of which the theorems assume only
      that it sorts ([argsort_sorts]); [RefNumpy] is an executable
      instance.  Sums and means are taken over columns that the loader
      has made numeric; of a sum the theorems assume at most that it is
      exact on whole numbers that float64 holds ([sums_exact]). *)

From Stdlib Require Import ZArith QArith Qabs Lqa String Ascii List Lia.
From stdpp Require Import base option list strings gmap sorting.

(** ** Cells *)

Inductive cell :=
  | NA
  | VInt (z : Z)
  | VFloat (q : Q)
  | VStr (s : string)
  | VDate (ns : Z)
  | VInf (negative : bool).

(** The numeric value of a cell, when it has one. *)
Definition cell_number (c : cell) : option Q :=
  match c with
  | VInt z => Some (inject_Z z)
  | VFloat q => Some q
  | _ => None
  end.

(** Equality of two cells as pandas groups them when it looks for
    duplicates: numbers by value, missing values equal to each other. *)
Definition cell_eqb (a b : cell) : bool :=
  match a, b with
  | NA, NA => true
  | VStr s, VStr t => String.eqb s t
  | VDate s, VDate t => Z.eqb s t
  | VInf s, VInf t => Bool.eqb s t
  | (VInt _ | VFloat _), (VInt _ | VFloat _) =>
      match cell_number a, cell_number b with
      | Some x, Some y => Qeq_bool x y
      | _, _ => false
      end
  | _, _ => false
  end.

Definition key_eqb (k1 k2 : list cell) : bool :=
  (length k1 =? length k2)%nat && forallb (λ p, cell_eqb p.1 p.2) (zip k1 k2).

(** ** Outcomes

    A call returns, or stops the script the way [st.error(...); st.stop()]
    does, or raises a Python exception. *)

Inductive stop_reason :=
  | MissingFile      (* "No existe el archivo ..." *)
  | NoCsvEntry       (* "... NO contiene ningún .csv" *)
  | EmptyCsv.        (* "El CSV dentro de ... está vacío" *)

Inductive exn :=
  | KeyError (c : string)
  | TypeError
  | ValueError
  | AttributeError
  | OverflowError
  | BadZipFile
  | ParserError.

Inductive result (A : Type) :=
  | Ok (a : A)
  | Stop (s : stop_reason)
  | Raise (e : exn).
Arguments Ok {A} a.
Arguments Stop {A} s.
Arguments Raise {A} e.

#[global] Instance result_ret : MRet result := λ A a, Ok a.
#[global] Instance result_bind : MBind result := λ A B f m,
  match m with
  | Ok a => f a
  | Stop s => Stop s
  | Raise e => Raise e
  end.

(** [mapM] for [result]: the first failure, in list order, wins. *)
Fixpoint traverse {A B} (f : A → result B) (l : list A) : result (list B) :=
  match l with
  | [] => Ok []
  | x :: l' => y ← f x; ys ← traverse f l'; Ok (y :: ys)
  end.

(** ** DataFrames *)

Abbreviation row := (gmap string cell).

Record DataFrame := mkDataFrame {
  columns : list string;
  rows : list (Z * row)
}.

Definition index (df : DataFrame) : list Z := (rows df).*1.

(** The cell of a row under a column name. *)
Definition cell_at (r : row) (c : string) : cell := default NA (r !! c).

(** [df[c]]: the values of one column. *)
Definition getitem (df : DataFrame) (c : string) : result (list cell) :=
  if bool_decide (c ∈ columns df)
  then Ok ((λ lr, cell_at lr.2 c) <$> rows df)
  else Raise (KeyError c).

(** [df[c] = values], for values that carry the index of [df]. *)
Definition setitem (df : DataFrame) (c : string) (values : list cell)
  : result DataFrame :=
  if (length values =? length (rows df))%nat
  then Ok {| columns := if bool_decide (c ∈ columns df)
                        then columns df else columns df ++ [c];
             rows := zip_with (λ lr v, (lr.1, <[c := v]> lr.2))
                              (rows df) values |}
  else Raise ValueError.

(** [df.drop(columns=[c])] *)
Definition drop (df : DataFrame) (c : string) : DataFrame :=
  {| columns := filter (λ x, x ≠ c) (columns df);
     rows := (λ lr, (lr.1, delete c lr.2)) <$> rows df |}.

(** [df[cols]] for a list of column names. *)
Definition getitem_cols (df : DataFrame) (cols : list string)
  : result DataFrame :=
  match filter (λ c, c ∉ columns df) cols with
  | [] => Ok {| columns := cols;
                rows := (λ lr, (lr.1,
                          filter (λ kv, kv.1 ∈ cols) lr.2)) <$> rows df |}
  | c :: _ => Raise (KeyError c)
  end.

(** Boolean indexing: the entries of [l] whose mask bit is set. *)
Fixpoint mask_select {A} (mask : list bool) (l : list A) : list A :=
  match mask, l with
  | b :: mask', x :: l' =>
      if b then x :: mask_select mask' l' else mask_select mask' l'
  | _, _ => []
  end.

(** [df[mask]] for a boolean mask. *)
Definition getitem_mask (df : DataFrame) (mask : list bool)
  : result DataFrame :=
  if (length mask =? length (rows df))%nat
  then Ok {| columns := columns df; rows := mask_select mask (rows df) |}
  else Raise ValueError.

(** [df.copy()]: at the level of values, the same table. *)
Definition copy (df : DataFrame) : DataFrame := df.

(** [pd.concat([df1, df2], ignore_index=True)]: the union of the columns,
    a column absent from one side filled with missing values there, the
    rows of [df1] before those of [df2], and a fresh index 0, 1, 2, ... *)
Definition union_columns (a b : list string) : list string :=
  a ++ filter (λ c, c ∉ a) b.

Definition reindex (cols : list string) (r : row) : row :=
  foldr (λ c m, <[c := cell_at r c]> m) ∅ cols.

Definition concat (df1 df2 : DataFrame) : DataFrame :=
  let cols := union_columns (columns df1) (columns df2) in
  {| columns := cols;
     rows := imap (λ i lr, (Z.of_nat i, reindex cols lr.2))
                  (rows df1 ++ rows df2) |}.

(** [df.duplicated(subset)], keep="first": a row is a duplicate when an
    earlier row has the same key. *)
Fixpoint duplicated (seen keys : list (list cell)) : list bool :=
  match keys with
  | [] => []
  | k :: keys' =>
      if existsb (key_eqb k) seen
      then true :: duplicated seen keys'
      else false :: duplicated (k :: seen) keys'
  end.

Definition row_key (subset : list string) (r : row) : list cell :=
  cell_at r <$> subset.

(** [df.drop_duplicates(subset=subset)] *)
Definition drop_duplicates (df : DataFrame) (subset : list string)
  : result DataFrame :=
  match filter (λ c, c ∉ columns df) subset with
  | [] =>
      let keys := (λ lr, row_key subset lr.2) <$> rows df in
      getitem_mask df (negb <$> duplicated [] keys)
  | c :: _ => Raise (KeyError c)
  end.

(** ** Scalar conversions *)

(** A number as pandas reads it from a text. *)
Inductive number :=
  | Integer (z : Z)
  | Float (q : Q)
  | Infinity (negative : bool).

Definition number_cell (n : number) : cell :=
  match n with
  | Integer z => VInt z
  | Float q => VFloat q
  | Infinity b => VInf b
  end.

(** What pandas itself decides: how a CSV payload becomes a table, which
    texts are numbers, and how values become timestamps (nanoseconds
    since 1970-01-01T00:00:00).  For a column of texts [pd.to_datetime]
    guesses a format from one of them ([guess_datetime_format]) and reads
    every value with that format ([strptime]); where it has no format it
    parses each value on its own ([parse_datetime]).  [nat_string] tells
    the texts it passes over when it looks for a value to guess from: the
    empty text, the names of the missing timestamp, "now" and "today".
    [None] is a failure of the conversion. *)
Class Pandas := {
  read_csv : string → option DataFrame;
  parse_numeric : string → option number;
  nat_string : string → bool;
  guess_datetime_format : string → option string;
  strptime : string → cell → option Z;
  parse_datetime : cell → option Z
}.

Section conversions.
Context `{Pandas}.

(** [pd.to_numeric(_, errors="coerce")], cell by cell.  A timestamp cell
    never reaches it: the program applies it to columns as [read_csv]
    produced them. *)
Definition to_numeric (c : cell) : cell :=
  match c with
  | NA => NA
  | VInt z => VInt z
  | VFloat q => VFloat q
  | VInf b => VInf b
  | VStr s =>
      match parse_numeric s with
      | Some n => number_cell n
      | None => NA
      end
  | VDate ns => VInt ns
  end.

(** The first value of a column that [pd.to_datetime] does not pass
    over. *)
Definition null_datetimelike (c : cell) : bool :=
  match c with
  | NA => true
  | VStr s => nat_string s
  | _ => false
  end.

Fixpoint first_non_null (s : list cell) : option cell :=
  match s with
  | [] => None
  | c :: s' => if null_datetimelike c then first_non_null s' else Some c
  end.

(** The format that [pd.to_datetime] reads a column with: the one it
    guesses from the first value, when this is a text and the guess
    succeeds. *)
Definition guessed_format (s : list cell) : option string :=
  match first_non_null s with
  | Some (VStr x) => guess_datetime_format x
  | _ => None
  end.

(** One value of the column, read with the format of the column or, for
    want of one, on its own; what cannot be read is missing. *)
Definition to_datetime_cell (format : option string) (c : cell) : cell :=
  match c with
  | NA => NA
  | VDate ns => VDate ns
  | _ => match match format with
               | Some f => strptime f c
               | None => parse_datetime c
               end with
         | Some ns => VDate ns
         | None => NA
         end
  end.

(** [pd.to_datetime(s, errors="coerce")] *)
Definition to_datetime (s : list cell) : list cell :=
  to_datetime_cell (guessed_format s) <$> s.

End conversions.

(** [.fillna(v)] *)
Definition fillna (v c : cell) : cell :=
  match c with
  | NA => v
  | _ => c
  end.

(** The values of an int64. *)
Definition int64_min : Z := (- 2 ^ 63)%Z.
Definition int64_max : Z := (2 ^ 63 - 1)%Z.

Definition in_int64 (z : Z) : bool :=
  (int64_min <=? z)%Z && (z <=? int64_max)%Z.

(** An integer cast to int64 without a check: its value modulo 2^64. *)
Definition wrap_int64 (z : Z) : Z :=
  ((z - int64_min) mod 2 ^ 64 + int64_min)%Z.

(** A float64 cast to int64 without a check: the value is truncated
    towards zero; for a value outside int64 C leaves the result open, and
    the conversion instruction of x86-64 gives the least int64. *)
Definition trunc (q : Q) : Z := Z.quot (Qnum q) (Zpos (Qden q)).

Definition float_to_int64 (q : Q) : Z :=
  if in_int64 (trunc q) then trunc q else int64_min.

(** [.astype("Int64")] after [to_numeric]: the nullable integer type keeps
    missing values and refuses a number that the cast to int64 would
    change: one with a fractional part, one outside int64, an infinity. *)
Definition astype_Int64_cell (c : cell) : result cell :=
  match c with
  | NA => Ok NA
  | VInt z => if in_int64 z then Ok (VInt z) else Raise TypeError
  | VFloat q =>
      if (Qnum q mod Zpos (Qden q) =? 0)%Z
         && in_int64 (Qnum q / Zpos (Qden q))
      then Ok (VInt (Qnum q / Zpos (Qden q)))
      else Raise TypeError
  | _ => Raise TypeError
  end.

Definition astype_Int64 (s : list cell) : result (list cell) :=
  traverse astype_Int64_cell s.

(** [.astype(int)]: the cast to int64, made without a check of the
    range; a missing or an infinite value cannot be converted. *)
Definition astype_int_cell (c : cell) : result cell :=
  match c with
  | VInt z => Ok (VInt (wrap_int64 z))
  | VFloat q => Ok (VInt (float_to_int64 q))
  | _ => Raise ValueError
  end.

Definition astype_int (s : list cell) : result (list cell) :=
  traverse astype_int_cell s.

(** ** Calendar fields of a timestamp *)

Definition Timedelta_seconds (n : Z) : Z := (n * 1000000000)%Z.
Definition Timedelta_days (n : Z) : Z := (n * 86400 * 1000000000)%Z.

(** Midnight of the day numbered [d] (days since 1970-01-01): what
    [pd.to_datetime] gives for a [datetime.date]. *)
Definition to_datetime_date (d : Z) : Z := Timedelta_days d.

Definition day_of (ns : Z) : Z := (ns / Timedelta_days 1)%Z.

(** Proleptic Gregorian calendar: day number to (year, month, day). *)
Definition civil_from_days (d : Z) : Z * Z * Z :=
  (let z := d + 719468 in
   let era := z / 146097 in
   let doe := z - era * 146097 in
   let yoe := (doe - doe / 1460 + doe / 36524 - doe / 146096) / 365 in
   let doy := doe - (365 * yoe + yoe / 4 - yoe / 100) in
   let mp := (5 * doy + 2) / 153 in
   let dd := doy - (153 * mp + 2) / 5 + 1 in
   let m := if mp <? 10 then mp + 3 else mp - 9 in
   let y := yoe + era * 400 + (if m <=? 2 then 1 else 0) in
   (y, m, dd))%Z.

Definition days_from_civil (y m d : Z) : Z :=
  (let y' := if m <=? 2 then y - 1 else y in
   let era := y' / 400 in
   let yoe := y' - era * 400 in
   let doy := (153 * (if 2 <? m then m - 3 else m + 9) + 2) / 5 + d - 1 in
   let doe := yoe * 365 + yoe / 4 - yoe / 100 + doy in
   era * 146097 + doe - 719468)%Z.

Definition year_of (ns : Z) : Z := (civil_from_days (day_of ns)).1.1.
Definition month_of (ns : Z) : Z := (civil_from_days (day_of ns)).1.2.

(** Number of ISO weeks (52 or 53) of a year. *)
Definition iso_weeks_in_year (y : Z) : Z :=
  (let p := λ y, (y + y / 4 - y / 100 + y / 400) mod 7 in
   if (p y =? 4) || (p (y - 1) =? 3) then 53 else 52)%Z.

(** ISO 8601 week number of a timestamp. *)
Definition iso_week_of (ns : Z) : Z :=
  (let d := day_of ns in
   let y := year_of ns in
   let ordinal := d - days_from_civil y 1 1 + 1 in
   let weekday := (d + 3) mod 7 + 1 in
   let w := (ordinal - weekday + 10) / 7 in
   if w <? 1 then iso_weeks_in_year (y - 1)
   else if iso_weeks_in_year y <? w then 1
   else w)%Z.

(** A [.dt] field: defined on timestamps, missing on a missing timestamp,
    and not available on anything else. *)
Definition dt_cell (field : Z → Z) (c : cell) : result cell :=
  match c with
  | VDate ns => Ok (VInt (field ns))
  | NA => Ok NA
  | _ => Raise AttributeError
  end.

Definition dt (field : Z → Z) (s : list cell) : result (list cell) :=
  traverse (dt_cell field) s.

(** [s >= ts] and [s <= ts] against a timestamp: false on a missing value,
    a type error on a column that does not hold timestamps. *)
Definition cmp_timestamp_cell (cmp : Z → Z → bool) (ts : Z) (c : cell)
  : result bool :=
  match c with
  | VDate ns => Ok (cmp ns ts)
  | NA => Ok false
  | _ => Raise TypeError
  end.

Definition ge_timestamp (s : list cell) (ts : Z) : result (list bool) :=
  traverse (cmp_timestamp_cell Z.geb ts) s.

Definition le_timestamp (s : list cell) (ts : Z) : result (list bool) :=
  traverse (cmp_timestamp_cell Z.leb ts) s.

(** ** Archives *)

Record ZipInfo := mkZipInfo {
  filename : string;
  file_size : N;
  payload : string
}.

(** What sits at a path: a zip archive with its entries, or something that
    [zipfile.ZipFile] cannot open. *)
Inductive file :=
  | ZipArchive (infolist : list ZipInfo)
  | NotAnArchive.

Definition lower_ascii (a : ascii) : ascii :=
  let n := nat_of_ascii a in
  if (65 <=? n)%nat && (n <=? 90)%nat then ascii_of_nat (n + 32) else a.

Fixpoint lower (s : string) : string :=
  match s with
  | EmptyString => EmptyString
  | String a s' => String (lower_ascii a) (lower s')
  end.

Definition endswith (s suffix : string) : bool :=
  let n := String.length s in
  let m := String.length suffix in
  (m <=? n)%nat && String.eqb (substring (n - m) m s) suffix.

(** Python's [max(first :: rest, key=key)]: the first of the maximal
    elements. *)
Definition max_key {A} (key : A → N) (first : A) (rest : list A) : A :=
  foldl (λ best x, if (key best <? key x)%N then x else best) first rest.

Definition is_csv (i : ZipInfo) : bool := endswith (lower (filename i)) ".csv".

Section pipeline.
Context `{Pandas}.

Definition read_csv_from_zip (fs : gmap string file) (zip_path : string)
  : result DataFrame :=
  match fs !! zip_path with
  | None => Stop MissingFile
  | Some NotAnArchive => Raise BadZipFile
  | Some (ZipArchive infolist) =>
      match filter (λ i, is_csv i) infolist with
      | [] => Stop NoCsvEntry
      | i :: infos =>
          let best := max_key file_size i infos in
          if (file_size best =? 0)%N then Stop EmptyCsv
          else match read_csv (payload best) with
               | Some df => Ok df
               | None => Raise ParserError
               end
      end
  end.

Definition load_data (fs : gmap string file) : result DataFrame :=
  df1 ← read_csv_from_zip fs "parte_1.zip";
  df2 ← read_csv_from_zip fs "parte_2.zip";
  let df := concat df1 df2 in
  let df := if bool_decide ("Unnamed: 0" ∈ columns df)
            then drop df "Unnamed: 0" else df in
  s ← getitem df "date";
  df ← setitem df "date" (to_datetime s);
  s ← getitem df "store_nbr";
  v ← astype_Int64 (to_numeric <$> s);
  df ← setitem df "store_nbr" v;
  s ← getitem df "sales";
  df ← setitem df "sales" (fillna (VFloat 0) <$> (to_numeric <$> s));
  s ← getitem df "onpromotion";
  v ← astype_int (fillna (VInt 0) <$> (to_numeric <$> s));
  df ← setitem df "onpromotion" v;
  df ← (if bool_decide ("year" ∉ columns df)
        then s ← getitem df "date"; v ← dt year_of s; setitem df "year" v
        else Ok df);
  df ← (if bool_decide ("month" ∉ columns df)
        then s ← getitem df "date"; v ← dt month_of s; setitem df "month" v
        else Ok df);
  df ← (if bool_decide ("week" ∉ columns df)
        then s ← getitem df "date"; w ← dt iso_week_of s;
             v ← astype_int w; setitem df "week" v
        else Ok df);
  Ok df.

Definition build_transactions_table (df_ : DataFrame) : result DataFrame :=
  let cols := ["date"; "store_nbr"; "state"; "city"; "transactions"; "year"] in
  let cols := filter (λ c, c ∈ columns df_) cols in
  sel ← getitem_cols df_ cols;
  base ← drop_duplicates sel ["date"; "store_nbr"];
  s ← getitem base "transactions";
  setitem base "transactions" (fillna (VFloat 0) <$> (to_numeric <$> s)).

End pipeline.

(** The date range chosen in the sidebar, as day numbers, and the bounds
    computed from it. *)
Definition start_date (day0 : Z) : Z := to_datetime_date day0.
Definition end_date (day1 : Z) : Z :=
  (to_datetime_date day1 + Timedelta_days 1 - Timedelta_seconds 1)%Z.

(** [df[(df["date"] >= start_date) & (df["date"] <= end_date)].copy()] *)
Definition date_filter (df : DataFrame) (day0 day1 : Z) : result DataFrame :=
  s1 ← getitem df "date";
  m1 ← ge_timestamp s1 (start_date day0);
  s2 ← getitem df "date";
  m2 ← le_timestamp s2 (end_date day1);
  view ← getitem_mask df (zip_with andb m1 m2);
  Ok (copy view).

Section script.
Context `{Pandas}.

Definition df_tx (fs : gmap string file) : result DataFrame :=
  df ← load_data fs; build_transactions_table df.

Definition df_f (fs : gmap string file) (day0 day1 : Z) : result DataFrame :=
  df ← load_data fs; date_filter df day0 day1.

Definition df_tx_f (fs : gmap string file) (day0 day1 : Z)
  : result DataFrame :=
  tx ← df_tx fs; date_filter tx day0 day1.

End script.

(** ** A reference instance of [Pandas]

    Small, executable readers for the plain cases: comma-separated text
    without quoting, decimal numbers and infinities, and timestamps
    written [YYYY-MM-DD], [YYYY-MM-DD HH:MM:SS] or
    [YYYY-MM-DD HH:MM:SS.fraction], which are the three formats it
    guesses.  They serve to run the pipeline on concrete archives. *)
Module RefPandas.

Definition digit (a : ascii) : option Z :=
  let n := nat_of_ascii a in
  if (48 <=? n)%nat && (n <=? 57)%nat then Some (Z.of_nat (n - 48)) else None.

Fixpoint digits_from (acc : Z) (s : string) : option Z :=
  match s with
  | EmptyString => Some acc
  | String a s' =>
      match digit a with
      | Some d => digits_from (acc * 10 + d) s'
      | None => None
      end
  end.

(** A non-empty run of decimal digits. *)
Definition digits (s : string) : option Z :=
  match s with
  | EmptyString => None
  | _ => digits_from 0 s
  end.

Fixpoint split_on (sep : ascii) (s : string) : list string :=
  match s with
  | EmptyString => [EmptyString]
  | String a s' =>
      if Ascii.eqb a sep then EmptyString :: split_on sep s'
      else match split_on sep s' with
           | h :: t => String a h :: t
           | [] => [String a EmptyString]
           end
  end.

Definition infinity_names : list string :=
  ["inf"; "Inf"; "INF"; "infinity"; "Infinity"; "INFINITY"].

Definition unsigned_number (s : string) : option number :=
  if existsb (String.eqb s) infinity_names then Some (Infinity false)
  else
    match split_on "." s with
    | [i] => Integer <$> digits i
    | [i; f] =>
        n ← digits i;
        m ← digits_from 0 f;
        let scale := (10 ^ Z.of_nat (String.length f))%Z in
        Some (Float (Qmake (n * scale + m) (Z.to_pos scale)))
    | _ => None
    end.

Definition negate (x : number) : number :=
  match x with
  | Integer z => Integer (- z)%Z
  | Float q => Float (- q)%Q
  | Infinity b => Infinity (negb b)
  end.

Definition numeric (s : string) : option number :=
  match s with
  | String "-" s' => negate <$> unsigned_number s'
  | String "+" s' => unsigned_number s'
  | _ => unsigned_number s
  end.

Definition calendar_day (s : string) : option Z :=
  match split_on "-" s with
  | [ys; ms; ds] =>
      y ← digits ys; m ← digits ms; d ← digits ds;
      let n := days_from_civil y m d in
      if bool_decide (civil_from_days n = (y, m, d)) then Some n else None
  | _ => None
  end.

Definition seconds_ns (s : string) : option Z :=
  match split_on "." s with
  | [ss] => sec ← digits ss;
            if (sec <? 60)%Z then Some (Timedelta_seconds sec) else None
  | [ss; fs] =>
      sec ← digits ss; fr ← digits fs;
      let k := String.length fs in
      if (sec <? 60)%Z && (k <=? 9)%nat
      then Some (Timedelta_seconds sec + fr * 10 ^ Z.of_nat (9 - k))%Z
      else None
  | _ => None
  end.

Definition clock_ns (s : string) : option Z :=
  match split_on ":" s with
  | [hs; ms; ss] =>
      h ← digits hs; m ← digits ms; ns ← seconds_ns ss;
      if (h <? 24)%Z && (m <? 60)%Z
      then Some (Timedelta_seconds (h * 3600 + m * 60) + ns)%Z
      else None
  | _ => None
  end.

Definition timestamp (s : string) : option Z :=
  match split_on " " s with
  | [d] => to_datetime_date <$> calendar_day d
  | [d; t] => n ← calendar_day d; ns ← clock_ns t;
              Some (to_datetime_date n + ns)%Z
  | _ => None
  end.

(** The three formats, and the one a text is written in. *)
Definition day_format : string := "%Y-%m-%d".
Definition seconds_format : string := "%Y-%m-%d %H:%M:%S".
Definition fraction_format : string := "%Y-%m-%d %H:%M:%S.%f".

Definition format_of (s : string) : option string :=
  match timestamp s with
  | None => None
  | Some _ =>
      match split_on " " s, split_on "." s with
      | [_], _ => Some day_format
      | _, [_] => Some seconds_format
      | _, _ => Some fraction_format
      end
  end.

(** A value read with a format: a text written in that format. *)
Definition strptime_ (format : string) (c : cell) : option Z :=
  match c with
  | VStr s =>
      match format_of s with
      | Some f => if String.eqb f format then timestamp s else None
      | None => None
      end
  | _ => None
  end.

(** A value parsed on its own: a text in any of the three formats, or a
    number of nanoseconds. *)
Definition datetime (c : cell) : option Z :=
  match c with
  | VStr s => timestamp s
  | VInt z => Some z
  | _ => None
  end.

Definition nat_strings : list string :=
  [""; "NaT"; "nat"; "NAT"; "nan"; "NaN"; "NAN"; "now"; "today"].

(** Type inference of [read_csv] for one column: integers if every field
    is one, floats if every field is a number or empty, text otherwise; an
    empty field is missing. *)
Definition is_int_field (f : string) : bool :=
  match numeric f with
  | Some (Integer _) => true
  | _ => false
  end.

Definition is_float_field (f : string) : bool :=
  match f, numeric f with
  | EmptyString, _ => true
  | _, Some _ => true
  | _, None => false
  end.

Definition float_cell (f : string) : cell :=
  match numeric f with
  | Some (Integer z) => VFloat (inject_Z z)
  | Some (Float q) => VFloat q
  | Some (Infinity b) => VInf b
  | None => NA
  end.

Definition int_cell (f : string) : cell :=
  match numeric f with
  | Some (Integer z) => VInt z
  | _ => NA
  end.

Definition text_cell (f : string) : cell :=
  match f with
  | EmptyString => NA
  | _ => VStr f
  end.

Definition infer (fields : list string) : string → cell :=
  if forallb is_int_field fields then int_cell
  else if forallb is_float_field fields then float_cell
  else text_cell.

Definition newline : ascii := ascii_of_nat 10.

Definition nonempty_lines (s : string) : list string :=
  filter (λ l, l ≠ EmptyString) (split_on newline s).

Definition make_row (header : list string) (readers : list (string → cell))
  (fields : list string) : row :=
  list_to_map (zip header (zip_with (λ rd f, rd f) readers fields)).

Definition csv (s : string) : option DataFrame :=
  match nonempty_lines s with
  | [] => None
  | h :: body =>
      let header := split_on "," h in
      let table := split_on "," <$> body in
      if forallb (λ fields, (length fields =? length header)%nat) table
      then
        let readers :=
          (λ j, infer ((λ fields, default EmptyString (fields !! j)) <$> table))
            <$> seq 0 (length header) in
        Some {| columns := header;
                rows := imap (λ i fields,
                          (Z.of_nat i, make_row header readers fields)) table |}
      else None
  end.

#[export] Instance pandas : Pandas :=
  {| read_csv := csv;
     parse_numeric := numeric;
     nat_string := λ s, existsb (String.eqb s) nat_strings;
     guess_datetime_format := format_of;
     strptime := strptime_;
     parse_datetime := datetime |}.

(** Text of a CSV file from its lines. *)
Definition lines (l : list string) : string :=
  foldr (λ x acc, x +:+ String newline acc) EmptyString l.

(** An archive with a single entry holding the given text. *)
Definition archive (name text : string) : file :=
  ZipArchive [ {| filename := name;
                  file_size := N.of_nat (String.length text);
                  payload := text |} ].

End RefPandas.

(** ** The loader, row by row

    [load_data] works column by column.  The definitions below describe
    the same normalisation from the point of view of a single row; the
    lemma [load_data_rows] relates the two.  Of the column a row needs
    one thing only, the format that [pd.to_datetime] reads the dates
    with. *)

(** One column assignment [df[dst] = g(df[src])], seen from a row. *)
Definition col_step (src dst : string) (g : cell → result cell)
  (lr lr' : Z * row) : Prop :=
  lr'.1 = lr.1 ∧ ∃ y, g (cell_at lr.2 src) = Ok y ∧ lr'.2 = <[dst := y]> lr.2.

(** The table [load_data] starts from: both archives concatenated, without
    the stray index column. *)
Definition unified_base (df1 df2 : DataFrame) : DataFrame :=
  let df := concat df1 df2 in
  if bool_decide ("Unnamed: 0" ∈ columns df) then drop df "Unnamed: 0" else df.

(** The row of [unified_base df1 df2] that comes from a source row. *)
Definition base_row (df1 df2 : DataFrame) (src : row) : row :=
  let cols := union_columns (columns df1) (columns df2) in
  if bool_decide ("Unnamed: 0" ∈ cols)
  then delete "Unnamed: 0" (reindex cols src)
  else reindex cols src.

(** The columns that [load_data] rewrites or may add. *)
Definition rewritten : list string :=
  ["date"; "store_nbr"; "sales"; "onpromotion"; "year"; "month"; "week"].


(** A calendar column is computed from the date only when the source did
    not supply it. *)
Definition derive (cols : list string) (c : string) (g : cell → result cell)
  (r : row) : result row :=
  if bool_decide (c ∉ cols)
  then v ← g (cell_at r "date"); Ok (<[c := v]> r)
  else Ok r.

Definition derived_columns (cols : list string) : list string :=
  filter (λ c, c ∉ cols) ["year"; "month"; "week"].

Section rowwise.
Context `{Pandas}.

(** The format of the dates of a table. *)
Definition date_format (df : DataFrame) : option string :=
  guessed_format ((λ lr, cell_at lr.2 "date") <$> rows df).

Definition normalise_row (cols : list string) (format : option string)
  (r : row) : result row :=
  let r := <["date" := to_datetime_cell format (cell_at r "date")]> r in
  v ← astype_Int64_cell (to_numeric (cell_at r "store_nbr"));
  let r := <["store_nbr" := v]> r in
  let r := <["sales" := fillna (VFloat 0) (to_numeric (cell_at r "sales"))]> r in
  v ← astype_int_cell (fillna (VInt 0) (to_numeric (cell_at r "onpromotion")));
  let r := <["onpromotion" := v]> r in
  r ← derive cols "year" (dt_cell year_of) r;
  r ← derive cols "month" (dt_cell month_of) r;
  derive cols "week" (λ c, dt_cell iso_week_of c ≫= astype_int_cell) r.


(** Two tables with the same labels, the second holding the normalised
    rows of the first. *)
Definition normalised (base df : DataFrame) : Prop :=
  Forall (λ c, c ∈ columns base) ["date"; "store_nbr"; "sales"; "onpromotion"] ∧
  columns df = columns base ++ derived_columns (columns base) ∧
  Forall2 (λ lr lr', lr'.1 = lr.1 ∧
                     normalise_row (columns base) (date_format base) lr.2
                     = Ok lr'.2)
          (rows base) (rows df).

End rowwise.

(** ** Deduplication and the date filter, row by row *)

(** The rows that [drop_duplicates] keeps: those whose key was not seen
    before. *)
Fixpoint keep_first {A} (key : A → list cell) (seen : list (list cell))
  (l : list A) : list A :=
  match l with
  | [] => []
  | x :: l' =>
      if existsb (key_eqb (key x)) seen
      then keep_first key seen l'
      else x :: keep_first key (key x :: seen) l'
  end.

(** The key under which [build_transactions_table] removes duplicates. *)
Definition tx_key (lr : Z * row) : list cell :=
  row_key ["date"; "store_nbr"] lr.2.

(** Rows that carry the date [d] and the store number [s]. *)
Definition has_key (d s : cell) (lr : Z * row) : bool :=
  key_eqb [d; s] (tx_key lr).

(** The columns of the transactions table, for a table with columns
    [cols]. *)
Definition tx_columns (cols : list string) : list string :=
  filter (λ c, c ∈ cols)
         ["date"; "store_nbr"; "state"; "city"; "transactions"; "year"].

(** Membership of a timestamp cell in the chosen range of days. *)
Definition in_range (day0 day1 : Z) (c : cell) : bool :=
  match c with
  | VDate ns => (start_date day0 <=? ns)%Z && (ns <=? end_date day1)%Z
  | _ => false
  end.

(** One comparison of the mask, on a column of timestamps. *)
Definition cmp_or_false (cmp : Z → Z → bool) (ts : Z) (c : cell) : bool :=
  match c with
  | VDate ns => cmp ns ts
  | _ => false
  end.

Definition is_timestamp (c : cell) : Prop :=
  match c with
  | VDate _ | NA => True
  | _ => False
  end.

Section tx_rows.
Context `{Pandas}.

(** The value [build_transactions_table] stores for a source cell. *)
Definition tx_value (c : cell) : cell := fillna (VFloat 0) (to_numeric c).

(** The row of the transactions table made from a row of the input. *)
Definition tx_row (cols : list string) (r : row) : row :=
  let sel : row := filter (λ kv, kv.1 ∈ tx_columns cols) r in
  <["transactions" := tx_value (cell_at sel "transactions")]> sel.

End tx_rows.

(** ** Vocabulary of the statements *)

(** The entry [read_csv_from_zip] reads: the largest of the entries whose
    name ends in ".csv", the first of them among equals. *)
Definition best_csv (infolist : list ZipInfo) : option ZipInfo :=
  match filter (λ i, is_csv i) infolist with
  | [] => None
  | i :: infos => Some (max_key file_size i infos)
  end.





Definition is_number (c : cell) : Prop := is_Some (cell_number c).

(** The number a cell contributes to a sum; a cell without a number
    contributes nothing, as [.sum()] skips missing values. *)
Definition value_of (c : cell) : Q := default 0%Q (cell_number c).

(** The sum of the numbers of a column, as a sum of rationals: the sum
    that the specification speaks of.  The sums that the dashboard
    computes in float64 are [float_sum]. *)
Definition series_sum (s : list cell) : Q :=
  foldr Qplus 0%Q (value_of <$> s).

(** [df[df["store_nbr"] == store_sel].copy()] *)
Definition select_store (df : DataFrame) (store_sel : Z) : result DataFrame :=
  s ← getitem df "store_nbr";
  view ← getitem_mask df ((λ c, cell_eqb c (VInt store_sel)) <$> s);
  Ok (copy view).



Section sums.
Context `{Pandas}.



End sums.


(** Two rows at different places that carry the same date and store. *)
Definition repeated_key (l : list (Z * row)) (i j : nat) (a b : Z * row)
  : Prop :=
  (i < j)%nat ∧ l !! i = Some a ∧ l !! j = Some b ∧
  key_eqb (tx_key a) (tx_key b) = true.

Section load_vocabulary.
Context `{Pandas}.


End load_vocabulary.


(** The sum of a quantity over a list of rows. *)
Definition sum_by {A} (w : A → Q) (l : list A) : Q :=
  foldr (λ x acc, w x + acc)%Q 0%Q l.

(** The rows [in_scope] keeps. *)
Definition in_scope_row (day0 day1 : Z) (store_sel : option Z)
  (lr : Z * row) : bool :=
  in_range day0 day1 (cell_at lr.2 "date") &&
  match store_sel with
  | None => true
  | Some s => cell_eqb (cell_at lr.2 "store_nbr") (VInt s)
  end.

Section counting_vocabulary.
Context `{Pandas}.



End counting_vocabulary.


(** Executable forms of the assumptions on a concrete table. *)
Section checks.
Context `{Pandas}.



End checks.
(** ** Vocabulary of the further properties *)

(** A timestamp cell that falls on one of the days [day0], ..., [day1]. *)
Definition on_days (day0 day1 : Z) (c : cell) : bool :=
  match c with
  | VDate ns => (day0 <=? day_of ns)%Z && (day_of ns <=? day1)%Z
  | _ => false
  end.

(** A timestamp with no fraction of a second. *)
Definition whole_second (c : cell) : Prop :=
  ∀ ns, c = VDate ns → (ns mod Timedelta_seconds 1 = 0)%Z.

(** The value of a calendar column that [load_data] derives from a
    date. *)
Definition calendar_cell (field : Z → Z) (date : cell) : cell :=
  match date with
  | VDate ns => VInt (field ns)
  | _ => NA
  end.

(** The day of the year, as [civil_from_days] computes it from the day of
    the 400-year era, is one of 0, ..., 365. *)
Definition day_of_year_ok (doe : Z) : bool :=
  (let yoe := (doe - doe / 1460 + doe / 36524 - doe / 146096) / 365 in
   let doy := doe - (365 * yoe + yoe / 4 - yoe / 100) in
   (0 <=? doy) && (doy <=? 365))%Z.

(** [p] holds of the [n] integers from [z] on. *)
Fixpoint forall_from (n : nat) (z : Z) (p : Z → bool) : bool :=
  match n with
  | O => true
  | S n' => p z && forall_from n' (z + 1)%Z p
  end.


(** A value of a column of the nullable integer type. *)
Definition is_Int64 (c : cell) : Prop :=
  match c with
  | NA | VInt _ => True
  | _ => False
  end.

(** The rows of one date and store carry one state. *)
Definition one_state_per_key (l : list (Z * row)) : Prop :=
  ∀ a b, a ∈ l → b ∈ l → key_eqb (tx_key a) (tx_key b) = true →
         cell_eqb (cell_at a.2 "state") (cell_at b.2 "state") = true.

(** Executable forms of the assumptions on a concrete table. *)
Definition one_state_per_keyb (l : list (Z * row)) : bool :=
  forallb (λ a, forallb (λ b,
    implb (key_eqb (tx_key a) (tx_key b))
          (cell_eqb (cell_at a.2 "state") (cell_at b.2 "state"))) l) l.

Definition whole_secondsb (l : list (Z * row)) : bool :=
  forallb (λ lr, match cell_at lr.2 "date" with
                 | VDate ns => (ns mod Timedelta_seconds 1 =? 0)%Z
                 | _ => true
                 end) l.

(** ** The tables as objects

    The definitions above compute with tables as values.  The script holds
    them as objects: [df[cols]], [drop_duplicates], [df[mask]] and [copy]
    create a new object, [df[c] = values] changes the object it is applied
    to.  The module below runs the same code over a store of objects. *)
Module Store.

Abbreviation loc := positive.
Abbreviation heap := (gmap positive DataFrame).

Definition M (A : Type) : Type := heap → result A * heap.

#[export] Instance M_ret : MRet M := λ A a h, (Ok a, h).
#[export] Instance M_bind : MBind M := λ A B f m h,
  match m h with
  | (Ok a, h') => f a h'
  | (Stop s, h') => (Stop s, h')
  | (Raise e, h') => (Raise e, h')
  end.

(** A computation on values, run without touching the store. *)
Definition lift {A} (r : result A) : M A := λ h, (r, h).

(** A new object. *)
Definition alloc (df : DataFrame) : M loc := λ h,
  let l := fresh (dom h) in (Ok l, <[l := df]> h).

(** The table an object holds; every name of the script is bound. *)
Definition deref (l : loc) : M DataFrame := λ h,
  match h !! l with
  | Some df => (Ok df, h)
  | None => (Raise (KeyError "unbound"), h)
  end.

(** Replace what an object holds. *)
Definition assign (l : loc) (df : DataFrame) : M unit := λ h,
  (Ok tt, <[l := df]> h).

Definition getitem (l : loc) (c : string) : M (list cell) :=
  df ← deref l; lift (getitem df c).

Definition setitem (l : loc) (c : string) (values : list cell) : M unit :=
  df ← deref l; df' ← lift (setitem df c values); assign l df'.

Definition getitem_cols (l : loc) (cols : list string) : M loc :=
  df ← deref l; sel ← lift (getitem_cols df cols); alloc sel.

Definition drop_duplicates (l : loc) (subset : list string) : M loc :=
  df ← deref l; out ← lift (drop_duplicates df subset); alloc out.

Definition getitem_mask (l : loc) (mask : list bool) : M loc :=
  df ← deref l; out ← lift (getitem_mask df mask); alloc out.

Definition copy (l : loc) : M loc :=
  df ← deref l; alloc (copy df).

(** The outcome of a program on objects, stated against the same program
    on values: same result, the returned object new, no object of the
    initial store changed. *)
Definition refines {A} (r : result A) (out : result loc * heap)
  (h : heap) (holds : A → DataFrame → Prop) : Prop :=
  h ⊆ out.2 ∧
  match r with
  | Ok a => ∃ l df, out.1 = Ok l ∧ h !! l = None ∧
                    out.2 !! l = Some df ∧ holds a df
  | Stop s => out.1 = Stop s
  | Raise e => out.1 = Raise e
  end.

Section programs.
Context `{Pandas}.

Definition build_transactions_table (df_ : loc) : M loc :=
  d ← deref df_;
  let cols := ["date"; "store_nbr"; "state"; "city"; "transactions"; "year"] in
  let cols := filter (λ c, c ∈ columns d) cols in
  sel ← getitem_cols df_ cols;
  base ← drop_duplicates sel ["date"; "store_nbr"];
  s ← getitem base "transactions";
  _ ← setitem base "transactions" (fillna (VFloat 0) <$> (to_numeric <$> s));
  mret base.

Definition date_filter (df : loc) (day0 day1 : Z) : M loc :=
  s1 ← getitem df "date";
  m1 ← lift (ge_timestamp s1 (start_date day0));
  s2 ← getitem df "date";
  m2 ← lift (le_timestamp s2 (end_date day1));
  view ← getitem_mask df (zip_with andb m1 m2);
  copy view.

(** The operations the script applies to its tables after loading. *)
Inductive op :=
  | Dedup (df_ : loc)
  | Filter (df : loc) (day0 day1 : Z).

Definition exec (o : op) : M loc :=
  match o with
  | Dedup df_ => build_transactions_table df_
  | Filter df day0 day1 => date_filter df day0 day1
  end.

(** The store after a sequence of operations, whatever each returns. *)
Definition run (ops : list op) (h : heap) : heap :=
  foldl (λ h o, (exec o h).2) h ops.

End programs.
End Store.
(** ** The dashboard

    The part of the script that follows the date filter: the figures and
    the tables of the four tabs, as functions of the tables they are
    computed from and of the choices made in the widgets.  Drawing the
    charts is outside the model; a chart is the table handed to plotly. *)

(** *** The numeric kernels

    What numpy and pandas compute on the values of a column.  [argsort]
    gives the positions of the values of a column that can be compared,
    in the order that sorts them.  The other fields are reductions in
    float64: [float_sum] is the sum that [.sum()] takes over the numbers
    of a group, [series_mean] the mean of [.mean()], missing when there is
    no number, and [rolling_mean_at window s i] the value at position [i]
    of [s.rolling(window, min_periods=1).mean()], which pandas computes
    from the values it has added and removed so far.  Each rounds, and
    adds in an order of its own.  A sum is taken to be finite: one that
    overflows, or runs over an infinite value, is outside the model. *)
Class Numpy := {
  argsort : list cell → list nat;
  float_sum : list cell → Q;
  series_mean : list cell → cell;
  rolling_mean_at : nat → list cell → nat → cell
}.

(** *** Series *)

Definition notna (c : cell) : bool :=
  match c with
  | NA => false
  | _ => true
  end.

(** [s.dropna()] *)
Definition dropna (s : list cell) : list cell := filter (λ c, notna c) s.

(** [s.unique()]: the distinct values, in the order of their first
    occurrence. *)
Definition unique (s : list cell) : list cell := keep_first (λ c, [c]) [] s.

(** [s.nunique()]: the number of distinct values that are not missing. *)
Definition nunique (s : list cell) : nat := length (dropna (unique s)).

(** The kinds of values that can be compared with each other. *)
Inductive kind := Number | Timestamp | Text.

Definition kind_of (c : cell) : option kind :=
  match c with
  | NA => None
  | VInt _ | VFloat _ | VInf _ => Some Number
  | VDate _ => Some Timestamp
  | VStr _ => Some Text
  end.

Definition kind_eqb (a b : kind) : bool :=
  match a, b with
  | Number, Number | Timestamp, Timestamp | Text, Text => true
  | _, _ => false
  end.

(** A column whose values, the missing ones apart, are all numbers, all
    timestamps or all texts. *)
Definition comparable (s : list cell) : bool :=
  match omap kind_of s with
  | [] => true
  | k :: ks => forallb (kind_eqb k) ks
  end.

Definition kind_rank (c : cell) : Z :=
  match kind_of c with
  | Some Number => 0
  | Some Timestamp => 1
  | Some Text => 2
  | None => 3
  end.

(** The order of numbers: by value, with the infinities at the two
    ends. *)
Definition number_leb (a b : cell) : bool :=
  match a, b with
  | VInf true, _ => true
  | _, VInf false => true
  | VInf false, _ => false
  | _, VInf true => false
  | _, _ =>
      match cell_number a, cell_number b with
      | Some x, Some y => Qle_bool x y
      | _, _ => false
      end
  end.

(** The order of values: numbers by value, timestamps by time, texts by
    code unit.  Across kinds, numbers come before timestamps and these
    before texts: pandas orders the keys of a column that mixes numbers
    and texts with the numbers first, and no column of this program mixes
    timestamps with other values. *)
Definition cell_leb (a b : cell) : bool :=
  match a, b with
  | VDate s, VDate t => (s <=? t)%Z
  | VStr s, VStr t => String.leb s t
  | (VInt _ | VFloat _ | VInf _), (VInt _ | VFloat _ | VInf _) =>
      number_leb a b
  | _, _ => (kind_rank a <=? kind_rank b)%Z
  end.

(** [int(x)] for a value [x] of the store numbers.  [load_data] has cast
    the column to the nullable integer type and [dropna] has removed the
    missing values, so that an integer is all that reaches it; a float is
    truncated as Python does, and of the others only the failure is
    given. *)
Definition int_ (c : cell) : result Z :=
  match c with
  | VInt z => Ok z
  | VFloat q => Ok (trunc q)
  | VInf _ => Raise OverflowError
  | VDate _ => Raise TypeError
  | _ => Raise ValueError
  end.

(** [s.min()] and [s.max()]: missing values are skipped, and the result is
    missing when nothing is left; values that cannot be compared with each
    other are a type error. *)
Definition extremum (better : cell → cell → bool) (s : list cell)
  : result cell :=
  if comparable s
  then Ok (match dropna s with
           | [] => NA
           | x :: xs => foldl (λ best c, if better c best then c else best) x xs
           end)
  else Raise TypeError.

Definition series_min (s : list cell) : result cell :=
  extremum (λ c best, negb (cell_leb best c)) s.

Definition series_max (s : list cell) : result cell :=
  extremum (λ c best, negb (cell_leb c best)) s.

(** [ts.date()]: the day of a timestamp; the day of [NaT] is [NaT]. *)
Definition Timestamp_date (c : cell) : result (option Z) :=
  match c with
  | VDate ns => Ok (Some (day_of ns))
  | NA => Ok None
  | _ => Raise AttributeError
  end.

(** [s.rolling(window, min_periods=1).mean()] *)
Definition rolling_mean `{Numpy} (window : nat) (s : list cell) : list cell :=
  imap (λ i _, rolling_mean_at window s i) s.

(** *** Sorting *)

(** What is known of [argsort]: it lists every position once, in an order
    in which the values do not decrease.  The default algorithm is not
    stable, so nothing is known of the order of equal values. *)
Definition argsort_sorts `{Numpy} : Prop :=
  ∀ s, comparable s = true → Forall (λ c, notna c) s →
    argsort s ≡ₚ seq 0 (length s) ∧
    Sorted (λ a b, cell_leb a b) (omap (λ i, s !! i) (argsort s)).

Section sorting.
Context `{Numpy}.

(** pandas' [nargsort] with [na_position="last"]: the items in the order of
    their values, those without a value after the others.  A descending
    order is the reverse of the ascending order of the reversed items. *)
Definition sorted_part {A} (ascending : bool) (items : list (cell * A))
  : list (cell * A) :=
  let non_nans := filter (λ p, notna p.1) items in
  let non_nans := if ascending then non_nans else reverse non_nans in
  let sorted := omap (λ i, non_nans !! i) (argsort (non_nans.*1)) in
  if ascending then sorted else reverse sorted.

Definition nargsort {A} (ascending : bool) (items : list (cell * A))
  : list (cell * A) :=
  sorted_part ascending items ++ filter (λ p, negb (notna p.1)) items.

(** [df.sort_values(by, ascending=ascending)] *)
Definition sort_values (df : DataFrame) (by_ : string) (ascending : bool)
  : result DataFrame :=
  s ← getitem df by_;
  if comparable s
  then Ok {| columns := columns df;
             rows := (nargsort ascending (zip s (rows df))).*2 |}
  else Raise TypeError.

End sorting.

(** [df.head(n)] *)
Definition DataFrame_head (n : nat) (df : DataFrame) : DataFrame :=
  {| columns := columns df; rows := take n (rows df) |}.

(** *** Grouping *)

(** A series indexed by the values of a key: the result of an aggregation
    over groups. *)
Abbreviation Series := (list (cell * cell)).

(** The keys of [df.groupby(key)]: the distinct values of the column that
    are not missing, in increasing order. *)
Definition group_keys (s : list cell) : list cell :=
  merge_sort (λ a b, cell_leb a b) (unique (dropna s)).

(** The values of [col] in the rows of the group of [k]. *)
Definition group_values (df : DataFrame) (key col : string) (k : cell)
  : list cell :=
  (λ lr, cell_at lr.2 col)
    <$> filter (λ lr, cell_eqb (cell_at lr.2 key) k) (rows df).

(** [df.groupby(key)[col].agg()], for an aggregation [agg] of the values of
    a group. *)
Definition groupby (df : DataFrame) (key col : string)
  (agg : list cell → cell) : result Series :=
  k ← getitem df key;
  _ ← getitem df col;
  Ok ((λ g, (g, agg (group_values df key col g))) <$> group_keys k).

(** [.sum()] of a group of numbers. *)
Definition sum_ `{Numpy} (s : list cell) : cell := VFloat (float_sum s).

(** What is known of a sum in float64: it is exact when the numbers are
    whole and the sum of their magnitudes is at most 2^53, since then no
    addition has anything to round, in whatever order the numbers are
    added. *)
Definition whole (c : cell) : bool :=
  match c with
  | NA | VInt _ => true
  | VFloat q => (Qnum q mod Zpos (Qden q) =? 0)%Z
  | _ => false
  end.

Definition sum_abs (s : list cell) : Q :=
  foldr Qplus 0%Q ((λ c, Qabs (value_of c)) <$> s).

Definition sums_exact `{Numpy} : Prop :=
  ∀ s, Forall (λ c, whole c) s → (sum_abs s <= 2 ^ 53)%Q →
       (float_sum s == series_sum s)%Q.

(** [s.reset_index()] for a series named [col] whose index is named
    [key]: a table with both as columns and a fresh index. *)
Definition entry_row (key col : string) (kv : cell * cell) : row :=
  <[key := kv.1]> (<[col := kv.2]> ∅).

Definition reset_index (key col : string) (s : Series) : DataFrame :=
  {| columns := [key; col];
     rows := imap (λ i kv, (Z.of_nat i, entry_row key col kv)) s |}.

(** [df.groupby(key, as_index=False)[col].agg()] *)
Definition groupby_table (df : DataFrame) (key col : string)
  (agg : list cell → cell) : result DataFrame :=
  s ← groupby df key col agg; Ok (reset_index key col s).

Section series_sorting.
Context `{Numpy}.

(** [s.sort_values(ascending=ascending)] on a series *)
Definition Series_sort_values (ascending : bool) (s : Series) : result Series :=
  if comparable s.*2
  then Ok (nargsort ascending ((λ kv, (kv.2, kv)) <$> s)).*2
  else Raise TypeError.

End series_sorting.

(** *** Ordered categories *)

(** The position of a text in a list of texts. *)
Fixpoint position (x : string) (l : list string) : option nat :=
  match l with
  | [] => None
  | y :: l' => if String.eqb x y then Some 0%nat else S <$> position x l'
  end.

(** The code of a value in [pd.Categorical(s, categories=categories)]: the
    position of its category, and missing for a value that is not one of
    the categories. *)
Definition category_code (categories : list string) (c : cell) : cell :=
  match c with
  | VStr x => match position x categories with
              | Some i => VInt (Z.of_nat i)
              | None => NA
              end
  | _ => NA
  end.

(** Membership of a value in [set(categories)]. *)
Definition is_category (categories : list string) (c : cell) : bool :=
  match c with
  | VStr x => bool_decide (x ∈ categories)
  | _ => false
  end.

(** *** The sidebar *)

Module Sidebar.

Definition min_date (df : DataFrame) : result cell :=
  s ← getitem df "date"; series_min s.

Definition max_date (df : DataFrame) : result cell :=
  s ← getitem df "date"; series_max s.

(** The range that the date widget proposes:
    [(min_date.date(), max_date.date())]. *)
Definition value (df : DataFrame) : result (option Z * option Z) :=
  lo ← min_date df;
  hi ← max_date df;
  d0 ← Timestamp_date lo;
  d1 ← Timestamp_date hi;
  Ok (d0, d1).

End Sidebar.

(** *** Tab 1: the global view *)

Module Tab1.

Definition total_stores (df_f : DataFrame) : result nat :=
  s ← getitem df_f "store_nbr"; Ok (nunique s).

Definition total_products (df_f : DataFrame) : result nat :=
  if bool_decide ("family" ∈ columns df_f)
  then s ← getitem df_f "family"; Ok (nunique s)
  else Ok 0%nat.

(** [df.groupby("family")["sales"].sum().sort_values(ascending=False)
       .head(10).reset_index()] *)
Definition top_products `{Numpy} (df : DataFrame) : result DataFrame :=
  s ← groupby df "family" "sales" sum_;
  s ← Series_sort_values false s;
  Ok (reset_index "family" "sales" (take 10 s)).

Definition day_order : list string :=
  ["Monday"; "Tuesday"; "Wednesday"; "Thursday"; "Friday"; "Saturday"; "Sunday"].

(** The table of the chart of mean sales by day of the week; [None] when
    the filtered table has no column [day_of_week] and the tab shows a
    notice instead.  [sales] is a column of numbers, so the mean of a group
    is the mean of its numbers.  When every day of the table is one of
    [day_order] the column is made an ordered categorical and the rows are
    sorted by it: [sort_values] then sorts by the codes of the days, and
    the cells still read as the names of the days. *)
Definition dow_mean `{Numpy} (df_f : DataFrame) : result (option DataFrame) :=
  if bool_decide ("day_of_week" ∈ columns df_f)
  then
    dow_mean ← groupby_table df_f "day_of_week" "sales" series_mean;
    s ← getitem dow_mean "day_of_week";
    if forallb (is_category day_order) (unique s)
    then Ok (Some {| columns := columns dow_mean;
                     rows := (nargsort true
                                (zip (category_code day_order <$> s)
                                     (rows dow_mean))).*2 |})
    else Ok (Some dow_mean)
  else Ok None.

End Tab1.

(** *** Tab 2: one store *)

Module Tab2.

(** [sorted([int(x) for x in df_f["store_nbr"].dropna().unique()])] *)
Definition stores (df_f : DataFrame) : result (list Z) :=
  s ← getitem df_f "store_nbr";
  l ← traverse int_ (unique (dropna s));
  Ok (merge_sort Z.le l).

Definition dstore (df_f : DataFrame) (store_sel : Z) : result DataFrame :=
  select_store df_f store_sel.

End Tab2.

(** *** Tab 3: one state *)

Module Tab3.

(** [df[df["state"] == state_sel].copy()] *)
Definition select_state (df : DataFrame) (state_sel : string)
  : result DataFrame :=
  s ← getitem df "state";
  view ← getitem_mask df ((λ c, cell_eqb c (VStr state_sel)) <$> s);
  Ok (copy view).

Definition dstate (df_f : DataFrame) (state_sel : string) : result DataFrame :=
  select_state df_f state_sel.

Definition dstate_tx (df_tx_f : DataFrame) (state_sel : string)
  : result DataFrame :=
  select_state df_tx_f state_sel.

Section charts.
Context `{Numpy}.

Definition tx_year (dstate_tx : DataFrame) : result DataFrame :=
  g ← groupby_table dstate_tx "year" "transactions" sum_;
  sort_values g "year" true.

Definition top_product_state (dstate : DataFrame) : result DataFrame :=
  g ← groupby_table dstate "family" "sales" sum_;
  g ← sort_values g "sales" false;
  Ok (DataFrame_head 1 g).

End charts.

End Tab3.

(** *** Tab 4: further insights *)

Module Tab4.

Section charts.
Context `{Numpy}.

Definition daily (df_f : DataFrame) : result DataFrame :=
  g ← groupby_table df_f "date" "sales" sum_;
  daily ← sort_values g "date" true;
  s ← getitem daily "sales";
  setitem daily "rolling_14" (rolling_mean 14 s).

End charts.

End Tab4.


(** Running examples: the end-to-end scenario of the specification. *)
Module Scenario.
Import RefPandas.

Definition part_1 : string := lines
  [ "date,store_nbr,family,sales,onpromotion,state,city,transactions";
    "2023-01-01,1,DAIRY,10.5,0,Pichincha,Quito,50";
    "2023-01-01,1,BREAD,3,1,Pichincha,Quito,50";
    "2023-01-02,1,DAIRY,7,0,Pichincha,Quito,40" ].

Definition part_2 : string := lines
  [ "date,store_nbr,family,sales,onpromotion,state,city,transactions";
    "2023-01-01,2,DAIRY,1,0,Guayas,Guayaquil,20";
    "2023-01-02,2,DAIRY,2,0,Guayas,Guayaquil,30" ].

Definition fs : gmap string file :=
  <["parte_1.zip" := archive "part1.csv" part_1]>
  (<["parte_2.zip" := archive "part2.csv" part_2]> ∅).

(** 2023-01-01 as a day number. *)
Definition jan1 : Z := days_from_civil 2023 1 1.

Definition n_rows (r : result DataFrame) : option nat :=
  match r with
  | Ok df => Some (length (rows df))
  | _ => None
  end.

(** One archive pair whose first file is the given text and whose second
    file has a single well-formed row of the same columns. *)
Definition header : string :=
  "date,store_nbr,family,sales,onpromotion,state,city,transactions".

Definition with_part_1 (text : string) (second : list string)
  : gmap string file :=
  <["parte_1.zip" := archive "part1.csv" text]>
  (<["parte_2.zip" := archive "part2.csv" (lines second)]> ∅).

(** A date that cannot be parsed, in archives without a week column. *)
Definition fs_bad_date : gmap string file :=
  with_part_1
    (lines [ header;
             "not-a-date,1,DAIRY,10.5,0,Pichincha,Quito,50";
             "2023-01-02,1,DAIRY,7,0,Pichincha,Quito,40" ])
    [ header; "2023-01-01,2,DAIRY,1,0,Guayas,Guayaquil,20" ].

(** The same rows in archives that supply year, month and week. *)
Definition header_calendar : string :=
  "date,store_nbr,family,sales,onpromotion,state,city,transactions,year,month,week".

Definition fs_bad_date_calendar : gmap string file :=
  with_part_1
    (lines [ header_calendar;
             "not-a-date,1,DAIRY,abc,,Pichincha,Quito,50,2023,1,52";
             "2023-01-02,1,DAIRY,7,0,Pichincha,Quito,40,2023,1,1" ])
    [ header_calendar; "2023-01-01,2,DAIRY,1,0,Guayas,Guayaquil,20,2023,1,52" ].

(** A sale recorded half a second before midnight, in archives that
    write every timestamp with a fraction of a second. *)
Definition fs_late : gmap string file :=
  with_part_1
    (lines [ header;
             "2023-01-01 23:59:59.5,1,DAIRY,10.5,0,Pichincha,Quito,50" ])
    [ header; "2023-01-02 00:00:00.0,2,DAIRY,1,0,Guayas,Guayaquil,20" ].

(** Timestamps written in two formats: the first with a fraction of a
    second, the second without. *)
Definition fs_two_formats : gmap string file :=
  with_part_1
    (lines [ header;
             "2023-01-01 23:59:59.5,1,DAIRY,10.5,0,Pichincha,Quito,50" ])
    [ header; "2023-01-02 00:00:00,2,DAIRY,1,0,Guayas,Guayaquil,20" ].

(** The same, in archives that supply the calendar columns. *)
Definition fs_two_formats_calendar : gmap string file :=
  with_part_1
    (lines [ header_calendar;
             "2023-01-01 23:59:59.5,1,DAIRY,10.5,0,Pichincha,Quito,50,2023,1,52" ])
    [ header_calendar;
      "2023-01-02 00:00:00,2,DAIRY,1,0,Guayas,Guayaquil,20,2023,1,1" ].

(** Numbers at the limits of the integer and float types: an infinite
    promotion count, a promotion count and a store number of 2^63. *)
Definition fs_infinite_promotion : gmap string file :=
  with_part_1
    (lines [ header; "2023-01-01,1,DAIRY,10.5,inf,Pichincha,Quito,50" ])
    [ header; "2023-01-02,2,DAIRY,1,0,Guayas,Guayaquil,20" ].

Definition fs_huge_promotion : gmap string file :=
  with_part_1
    (lines [ header;
             "2023-01-01,1,DAIRY,inf,9223372036854775808,Pichincha,Quito,50" ])
    [ header; "2023-01-02,2,DAIRY,1,0,Guayas,Guayaquil,20" ].

Definition fs_huge_store : gmap string file :=
  with_part_1
    (lines [ header;
             "2023-01-01,9223372036854775808,DAIRY,10.5,0,Pichincha,Quito,50" ])
    [ header; "2023-01-02,2,DAIRY,1,0,Guayas,Guayaquil,20" ].



(** A store number with a fractional part. *)
Definition fs_fractional_store : gmap string file :=
  with_part_1
    (lines [ header; "2023-01-01,1.5,DAIRY,10.5,0,Pichincha,Quito,50" ])
    [ header; "2023-01-02,2,DAIRY,1,0,Guayas,Guayaquil,20" ].

(** The labels and the cells of chosen columns, for display. *)
Definition show (cols : list string) (r : result DataFrame)
  : result (list (Z * list cell)) :=
  df ← r; Ok ((λ lr, (lr.1, cell_at lr.2 <$> cols)) <$> rows df).

(** The index of a table. *)
Definition labels (r : result DataFrame) : result (list Z) :=
  df ← r; Ok (index df).

(** The row at a position, for tables that have one there. *)
Definition row_at (df : DataFrame) (i : nat) : Z * row :=
  default (0%Z, ∅) (rows df !! i).

(** The tables of the scenarios. *)
Definition table (r : result DataFrame) : DataFrame :=
  match r with
  | Ok df => df
  | _ => {| columns := []; rows := [] |}
  end.

Definition is_ok (r : result DataFrame) : bool :=
  match r with
  | Ok _ => true
  | _ => false
  end.

Definition unified : DataFrame :=
  table (load_data fs).
Definition transactions : DataFrame :=
  table (build_transactions_table unified).



(** A store with one object. *)
Definition one_table : DataFrame :=
  {| columns := ["date"; "store_nbr"; "transactions"];
     rows := [ (0%Z, <["date" := VDate 0]>
                     (<["store_nbr" := VInt 1]>
                     (<["transactions" := VStr "n/a"]> ∅)));
               (1%Z, <["date" := VDate 0]>
                     (<["store_nbr" := VInt 1]>
                     (<["transactions" := VInt 7]> ∅))) ] |}.

Definition one_object : gmap positive DataFrame := {[ 1%positive := one_table ]}.

End Scenario.

(** ** A reference instance of [Numpy]

    A merge sort of the positions by their values, and sums and means
    without rounding.  It serves to run the dashboard on the tables of
    the scenarios, whose sums and means float64 holds exactly. *)
Module RefNumpy.

Definition by_value : relation (cell * nat) := λ p q, cell_leb p.1 q.1.

Definition positions (s : list cell) : list (cell * nat) :=
  imap (λ i c, (c, i)) s.

(** The mean of the numbers of a list, missing when there is none. *)
Definition mean (s : list cell) : cell :=
  match omap cell_number s with
  | [] => NA
  | xs => VFloat (foldr Qplus 0%Q xs / inject_Z (Z.of_nat (length xs)))
  end.

(** The values at the last [window] positions up to [i]. *)
Definition rolling_window (window : nat) (s : list cell) (i : nat) : list cell :=
  skipn (S i - window) (take (S i) s).

#[export] Instance numpy : Numpy :=
  {| argsort s := (merge_sort by_value (positions s)).*2;
     float_sum := series_sum;
     series_mean := mean;
     rolling_mean_at window s i := mean (rolling_window window s i) |}.

End RefNumpy.

(** What a call returned, for display. *)
Definition returned {A} (r : result A) : bool :=
  match r with
  | Ok _ => true
  | _ => false
  end.

Definition value_or {A} (d : A) (r : result A) : A :=
  match r with
  | Ok a => a
  | _ => d
  end.


(** The dashboard on the scenario of the specification, for the first two
    days of 2023 and the state of Pichincha. *)
Module Views.
Import RefPandas RefNumpy Scenario.

Definition jan2 : Z := (jan1 + 1)%Z.

Definition df_f : DataFrame := table (date_filter unified jan1 jan2).
Definition df_tx_f : DataFrame := table (date_filter transactions jan1 jan2).
Definition df_jan1 : DataFrame := table (date_filter unified jan1 jan1).

Definition stores : list Z := value_or [] (Tab2.stores df_f).
Definition dstore : DataFrame := table (Tab2.dstore df_f 1).

Definition daily : DataFrame := table (Tab4.daily df_f).

Definition totals_by_store : Series :=
  value_or [] (groupby unified "store_nbr" "transactions" sum_).
Definition top_products : DataFrame := table (Tab1.top_products unified).
Definition dstate : DataFrame := table (Tab3.dstate df_f "Pichincha").
Definition dstate_tx : DataFrame := table (Tab3.dstate_tx df_tx_f "Pichincha").
Definition top_product_state : DataFrame :=
  table (Tab3.top_product_state dstate).
Definition tx_year : DataFrame := table (Tab3.tx_year dstate_tx).

(** An archive with a text file and three tables, two of them of the
    largest size. *)
Definition entry (name text : string) : ZipInfo :=
  {| filename := name;
     file_size := N.of_nat (String.length text);
     payload := text |}.

Definition entries_before : list ZipInfo :=
  [ entry "README.txt" "sales by store, day and family";
    entry "small.csv" (lines ["a"; "1"]) ].

Definition largest : ZipInfo := entry "TRAIN.CSV" (lines ["a,b"; "1,2"]).

Definition entries_after : list ZipInfo :=
  [ entry "copy.csv" (lines ["a,b"; "3,4"]) ].

Definition fs_ties : gmap string file :=
  {[ "parte_1.zip" := ZipArchive (entries_before ++ largest :: entries_after) ]}.

(** The sales of four days with the name of the day of the week, from a
    Sunday to a Wednesday. *)
Definition header_week : string :=
  "date,store_nbr,family,sales,onpromotion,day_of_week".

Definition fs_week : gmap string file :=
  with_part_1
    (lines [ header_week;
             "2023-01-01,1,DAIRY,10,0,Sunday";
             "2023-01-04,1,DAIRY,4,0,Wednesday";
             "2023-01-02,1,DAIRY,6,0,Monday" ])
    [ header_week; "2023-01-01,2,DAIRY,2,0,Sunday" ].

Definition jan4 : Z := (jan1 + 3)%Z.

Definition df_week : DataFrame := table (load_data fs_week).
Definition df_week_f : DataFrame := table (date_filter df_week jan1 jan4).

End Views.
(** * Properties *)

(** ** Outcomes and traversals *)

Lemma bind_Ok {A B} (m : result A) (f : A → result B) (b : B) :
  m ≫= f = Ok b → ∃ a, m = Ok a ∧ f a = Ok b.
Proof. destruct m as [a| |]; simpl; [eauto | discriminate ..]. Qed.

(** Invert every successful bind among the hypotheses. *)
Ltac inv_ok :=
  repeat match goal with
  | Hb : _ ≫= _ = Ok _ |- _ =>
      let a := fresh "a" in
      let Ha := fresh "Ha" in
      apply bind_Ok in Hb as (a & Ha & Hb)
  | Hb : Ok _ = Ok _ |- _ => injection Hb as Hb
  end.

Lemma traverse_Forall2 {A B} (f : A → result B) l l' :
  traverse f l = Ok l' ↔ Forall2 (λ x y, f x = Ok y) l l'.
Proof.
  revert l'. induction l as [|x l IH]; intros l'; simpl.
  - split; [intros [= <-]; constructor | by inversion 1].
  - split.
    + intros Hb. inv_ok. subst l'. constructor; [done | by apply IH].
    + inversion 1 as [|? y ? ys Hy Hys]; subst.
      rewrite Hy. simpl. apply IH in Hys. by rewrite Hys.
Qed.


Lemma traverse_fmap {A B C} (g : B → result C) (f : A → B) l :
  traverse g (f <$> l) = traverse (g ∘ f) l.
Proof. induction l as [|x l IH]; csimpl; [done | by rewrite IH]. Qed.

Lemma traverse_pure {A B} (f : A → B) l :
  traverse (λ x, Ok (f x)) l = Ok (f <$> l).
Proof. induction l as [|x l IH]; csimpl; [done | by rewrite IH]. Qed.

Lemma traverse_compose {A B C} (f : A → result B) (g : B → result C) l l1 l2 :
  traverse f l = Ok l1 → traverse g l1 = Ok l2 →
  traverse (λ x, f x ≫= g) l = Ok l2.
Proof.
  rewrite !traverse_Forall2. intros H1. revert l2.
  induction H1 as [|x y l l1 Hxy _ IH]; intros l2; inversion 1; subst.
  - constructor.
  - constructor; [by rewrite Hxy | by apply IH].
Qed.

Lemma Forall2_compose {A B C} (R : A → B → Prop) (S : B → C → Prop) l1 l2 l3 :
  Forall2 R l1 l2 → Forall2 S l2 l3 →
  Forall2 (λ x z, ∃ y, R x y ∧ S y z) l1 l3.
Proof.
  intros H1. revert l3.
  induction H1; intros l3; inversion 1; subst; constructor; eauto.
Qed.

(** ** Cells and rows *)

Lemma cell_at_insert (r : row) c c' v :
  cell_at (<[c := v]> r) c' = if decide (c = c') then v else cell_at r c'.
Proof. unfold cell_at. rewrite lookup_insert. by case_decide. Qed.

Lemma cell_at_insert_eq (r : row) c v : cell_at (<[c := v]> r) c = v.
Proof. rewrite cell_at_insert. by case_decide. Qed.

Lemma cell_at_insert_ne (r : row) c c' v :
  c ≠ c' → cell_at (<[c := v]> r) c' = cell_at r c'.
Proof. intros. rewrite cell_at_insert. by case_decide. Qed.

Lemma cell_at_lookup (r : row) c v : r !! c = Some v → cell_at r c = v.
Proof. unfold cell_at. by intros ->. Qed.

Lemma lookup_reindex cols (r : row) c :
  reindex cols r !! c = if decide (c ∈ cols) then Some (cell_at r c) else None.
Proof.
  induction cols as [|x cols IH].
  - unfold reindex; simpl foldr. rewrite lookup_empty.
    destruct (decide (c ∈ [])) as [Hc|Hc]; [by apply elem_of_nil in Hc | done].
  - change (reindex (x :: cols) r) with (<[x := cell_at r x]> (reindex cols r)).
    rewrite lookup_insert, IH.
    destruct (decide (x = c)) as [->|Hx].
    + rewrite decide_True by (apply elem_of_cons; by left). done.
    + destruct (decide (c ∈ cols)) as [Hc|Hc].
      * rewrite decide_True by (apply elem_of_cons; by right). done.
      * rewrite decide_False; [done |].
        intros [?|?]%elem_of_cons; congruence.
Qed.

Lemma cell_at_reindex cols (r : row) c :
  cell_at (reindex cols r) c = if decide (c ∈ cols) then cell_at r c else NA.
Proof. unfold cell_at at 1. rewrite lookup_reindex. by case_decide. Qed.

(** ** Column-wise calls, row by row *)

Lemma getitem_Ok df c s :
  getitem df c = Ok s →
  c ∈ columns df ∧ s = (λ lr, cell_at lr.2 c) <$> rows df.
Proof. unfold getitem. case_bool_decide; [by intros [= <-] | done]. Qed.

Lemma setitem_Ok df c v df' :
  setitem df c v = Ok df' →
  length v = length (rows df) ∧
  columns df' = (if bool_decide (c ∈ columns df)
                 then columns df else columns df ++ [c]) ∧
  rows df' = zip_with (λ lr x, (lr.1, <[c := x]> lr.2)) (rows df) v.
Proof.
  unfold setitem. destruct (Nat.eqb_spec (length v) (length (rows df)));
    [by intros [= <-] | done].
Qed.

Lemma assign_rows df src dst g s v df' :
  getitem df src = Ok s → traverse g s = Ok v → setitem df dst v = Ok df' →
  Forall2 (col_step src dst g) (rows df) (rows df').
Proof.
  intros [_ ->]%getitem_Ok Hv%traverse_Forall2 (_ & _ & ->)%setitem_Ok.
  remember (rows df) as l eqn:El. clear El. revert v Hv.
  induction l as [|lr l IH]; intros v; simpl; inversion 1; subst; simpl.
  - constructor.
  - constructor; [split; [done | eauto] | by apply IH].
Qed.

Lemma assign_columns df src dst s v df' :
  getitem df src = Ok s → setitem df dst v = Ok df' →
  columns df' = if bool_decide (dst ∈ columns df)
                then columns df else columns df ++ [dst].
Proof. by intros _ (_ & -> & _)%setitem_Ok. Qed.

(** ** [load_data], row by row *)

Section load_rows.
Context `{Pandas}.

Lemma elem_of_app_fresh (P : string → Prop) `{∀ x, Decision (P x)}
    c (cols extra : list string) :
  c ∉ extra → c ∈ cols ++ filter P extra ↔ c ∈ cols.
Proof.
  intros Hc. rewrite elem_of_app, list_elem_of_filter. tauto.
Qed.

Lemma derive_step df cols c g df' :
  (c ∈ columns df ↔ c ∈ cols) →
  (if bool_decide (c ∉ columns df)
   then s ← getitem df "date"; v ← traverse g s; setitem df c v
   else Ok df) = Ok df' →
  columns df' = columns df ++ filter (λ x, x ∉ cols) [c] ∧
  Forall2 (λ lr lr', lr'.1 = lr.1 ∧ derive cols c g lr.2 = Ok lr'.2)
          (rows df) (rows df').
Proof.
  intros Hc. unfold derive.
  rewrite filter_cons, filter_nil.
  case_bool_decide as Hcol.
  - assert (c ∉ cols) as Hcols by (by rewrite <- Hc).
    rewrite decide_True by done. rewrite bool_decide_eq_true_2 by done.
    intros Hb. inv_ok.
    split.
    + rewrite (assign_columns _ _ _ _ _ _ Ha Hb).
      by rewrite bool_decide_eq_false_2.
    + eapply Forall2_impl; [by eapply assign_rows |].
      intros lr lr' (Hl & y & Hy & ->). split; [done |]. by rewrite Hy.
  - assert (c ∈ cols) as Hcols by (by apply Hc).
    rewrite decide_False by (by intros Hn). 
    rewrite bool_decide_eq_false_2 by (by intros Hn).
    intros [= <-]. split; [by rewrite app_nil_r |].
    apply Forall_Forall2_diag, Forall_forall. done.
Qed.

Lemma load_data_rows fs df :
  load_data fs = Ok df →
  ∃ df1 df2,
    read_csv_from_zip fs "parte_1.zip" = Ok df1 ∧
    read_csv_from_zip fs "parte_2.zip" = Ok df2 ∧
    normalised (unified_base df1 df2) df.
Proof.
  unfold load_data. intros Hload.
  apply bind_Ok in Hload as (df1 & Hdf1 & Hload).
  apply bind_Ok in Hload as (df2 & Hdf2 & Hload).
  exists df1, df2. split; [done |]. split; [done |].
  fold (unified_base df1 df2) in Hload.
  remember (unified_base df1 df2) as base eqn:Ebase. clear Ebase Hdf1 Hdf2.
  apply bind_Ok in Hload as (s1 & Hs1 & Hload).
  apply bind_Ok in Hload as (d1 & Hd1 & Hload).
  apply bind_Ok in Hload as (s2 & Hs2 & Hload).
  apply bind_Ok in Hload as (v2 & Hv2 & Hload).
  apply bind_Ok in Hload as (d2 & Hd2 & Hload).
  apply bind_Ok in Hload as (s3 & Hs3 & Hload).
  apply bind_Ok in Hload as (d3 & Hd3 & Hload).
  apply bind_Ok in Hload as (s4 & Hs4 & Hload).
  apply bind_Ok in Hload as (v4 & Hv4 & Hload).
  apply bind_Ok in Hload as (d4 & Hd4 & Hload).
  apply bind_Ok in Hload as (d5 & Hd5 & Hload).
  apply bind_Ok in Hload as (d6 & Hd6 & Hload).
  apply bind_Ok in Hload as (d7 & Hd7 & Hload).
  injection Hload as <-.
  (* the four assignments keep the columns *)
  assert (columns d1 = columns base) as C1.
  { rewrite (assign_columns _ _ _ _ _ _ Hs1 Hd1).
    apply getitem_Ok in Hs1 as [? _]. by rewrite bool_decide_eq_true_2. }
  assert (columns d2 = columns base) as C2.
  { rewrite (assign_columns _ _ _ _ _ _ Hs2 Hd2).
    apply getitem_Ok in Hs2 as [? _]. by rewrite bool_decide_eq_true_2. }
  assert (columns d3 = columns base) as C3.
  { rewrite (assign_columns _ _ _ _ _ _ Hs3 Hd3).
    apply getitem_Ok in Hs3 as [? _]. by rewrite bool_decide_eq_true_2. }
  assert (columns d4 = columns base) as C4.
  { rewrite (assign_columns _ _ _ _ _ _ Hs4 Hd4).
    apply getitem_Ok in Hs4 as [? _]. by rewrite bool_decide_eq_true_2. }
  (* the assignments, row by row *)
  assert (date_format base = guessed_format s1) as Hfmt.
  { apply getitem_Ok in Hs1 as [_ ->]. done. }
  unfold to_datetime in Hd1.
  pose proof (traverse_pure (to_datetime_cell (guessed_format s1)) s1) as Hv1.
  pose proof (assign_rows _ _ _ _ _ _ _ Hs1 Hv1 Hd1) as R1.
  unfold astype_Int64 in Hv2. rewrite traverse_fmap in Hv2.
  pose proof (assign_rows _ _ _ _ _ _ _ Hs2 Hv2 Hd2) as R2.
  rewrite <- list_fmap_compose in Hd3.
  pose proof (traverse_pure (fillna (VFloat 0) ∘ to_numeric) s3) as Hv3.
  pose proof (assign_rows _ _ _ _ _ _ _ Hs3 Hv3 Hd3) as R3.
  unfold astype_int in Hv4. rewrite <- list_fmap_compose, traverse_fmap in Hv4.
  pose proof (assign_rows _ _ _ _ _ _ _ Hs4 Hv4 Hd4) as R4.
  apply (derive_step d4 (columns base) "year" (dt_cell year_of))
    in Hd5 as [C5 R5]; [| by rewrite C4].
  apply (derive_step d5 (columns base) "month" (dt_cell month_of))
    in Hd6 as [C6 R6]; cycle 1.
  { rewrite C5, C4. apply elem_of_app_fresh.
    intros [=]%list_elem_of_singleton. }
  assert ((if bool_decide ("week" ∉ columns d6)
           then s ← getitem d6 "date";
                v ← traverse (λ c, dt_cell iso_week_of c ≫= astype_int_cell) s;
                setitem d6 "week" v
           else Ok d6) = Ok d7) as Hd7'.
  { case_bool_decide; [| done].
    apply bind_Ok in Hd7 as (s & Hs & Hd7).
    apply bind_Ok in Hd7 as (w & Hw & Hd7).
    apply bind_Ok in Hd7 as (v & Hv & Hd7).
    rewrite Hs. simpl.
    unfold dt in Hw. unfold astype_int in Hv.
    by rewrite (traverse_compose _ _ _ _ _ Hw Hv). }
  clear Hd7.
  apply (derive_step d6 (columns base) "week") in Hd7' as [C7 R7]; cycle 1.
  { rewrite C6, C5, C4.
    rewrite elem_of_app_fresh by (intros [=]%list_elem_of_singleton).
    apply elem_of_app_fresh. intros [=]%list_elem_of_singleton. }
  split.
  { apply getitem_Ok in Hs1 as [? _]. apply getitem_Ok in Hs2 as [? _].
    apply getitem_Ok in Hs3 as [? _]. apply getitem_Ok in Hs4 as [? _].
    rewrite C1 in *. rewrite C2 in *. rewrite C3 in *.
    repeat (constructor; [done |]). constructor. }
  split.
  - rewrite C7, C6, C5, C4. unfold derived_columns.
    rewrite <- !app_assoc. f_equal.
    rewrite !filter_cons, !filter_nil. by repeat case_decide.
  - pose proof (Forall2_compose _ _ _ _ _ R1 R2) as R.
    pose proof (Forall2_compose _ _ _ _ _ R R3) as R'. clear R.
    pose proof (Forall2_compose _ _ _ _ _ R' R4) as R. clear R'.
    pose proof (Forall2_compose _ _ _ _ _ R R5) as R'. clear R.
    pose proof (Forall2_compose _ _ _ _ _ R' R6) as R. clear R'.
    pose proof (Forall2_compose _ _ _ _ _ R R7) as R'. clear R.
    eapply Forall2_impl; [exact R' |]. rewrite Hfmt. clear.
    intros lr lr' (l6 & (l5 & (l4 & (l3 & (l2 & (l1 & S1 & S2) & S3) & S4)
                   & S5) & S6) & S7).
    destruct S1 as (E1 & y1 & [= <-] & U1).
    destruct S2 as (E2 & y2 & Hy2 & U2).
    destruct S3 as (E3 & y3 & [= <-] & U3).
    destruct S4 as (E4 & y4 & Hy4 & U4).
    destruct S5 as (E5 & Hy5). destruct S6 as (E6 & Hy6).
    destruct S7 as (E7 & Hy7).
    split; [congruence |].
    unfold compose in Hy2, U3, Hy4.
    unfold normalise_row. rewrite <- U1. rewrite Hy2. simpl.
    rewrite <- U2. rewrite <- U3.
    rewrite Hy4. simpl. rewrite <- U4.
    rewrite Hy5. simpl. rewrite Hy6. simpl. exact Hy7.
Qed.

Lemma unified_base_rows df1 df2 :
  rows (unified_base df1 df2) =
  imap (λ i lr, (Z.of_nat i, base_row df1 df2 lr.2)) (rows df1 ++ rows df2).
Proof.
  unfold unified_base, base_row. simpl.
  case_bool_decide; simpl; [| done].
  rewrite fmap_imap. done.
Qed.

Lemma elem_of_union_columns a b c :
  c ∈ union_columns a b ↔ c ∈ a ∨ c ∈ b.
Proof.
  unfold union_columns. rewrite elem_of_app, list_elem_of_filter.
  destruct (decide (c ∈ a)); tauto.
Qed.

Lemma unified_base_columns df1 df2 c :
  c ∈ columns (unified_base df1 df2) ↔
  c ≠ "Unnamed: 0" ∧ (c ∈ columns df1 ∨ c ∈ columns df2).
Proof.
  unfold unified_base.
  change (columns (concat df1 df2))
    with (union_columns (columns df1) (columns df2)).
  case_bool_decide as Hu.
  - change (columns (drop (concat df1 df2) "Unnamed: 0"))
      with (filter (λ x, x ≠ "Unnamed: 0")
                   (union_columns (columns df1) (columns df2))).
    rewrite list_elem_of_filter, elem_of_union_columns. tauto.
  - change (columns (concat df1 df2))
      with (union_columns (columns df1) (columns df2)).
    rewrite <- elem_of_union_columns.
    split; [| tauto]. intros Hc. split; [| done]. by intros ->.
Qed.

Lemma cell_at_base_row df1 df2 src c :
  c ∈ columns (unified_base df1 df2) →
  cell_at (base_row df1 df2 src) c = cell_at src c.
Proof.
  intros [Hc Hin]%unified_base_columns.
  assert (c ∈ union_columns (columns df1) (columns df2)) as Hu
    by (by apply elem_of_union_columns).
  unfold base_row. case_bool_decide.
  - unfold cell_at at 1. rewrite lookup_delete_ne by done.
    fold (cell_at (reindex (union_columns (columns df1) (columns df2)) src) c).
    rewrite cell_at_reindex. by rewrite decide_True.
  - rewrite cell_at_reindex. by rewrite decide_True.
Qed.


(** What [load_data] returns, in terms of the rows of the two archives. *)
Lemma load_data_sources fs df :
  load_data fs = Ok df →
  ∃ df1 df2,
    read_csv_from_zip fs "parte_1.zip" = Ok df1 ∧
    read_csv_from_zip fs "parte_2.zip" = Ok df2 ∧
    normalised (unified_base df1 df2) df ∧
    length (rows df) = (length (rows df1) + length (rows df2))%nat ∧
    ∀ i src, (rows df1 ++ rows df2) !! i = Some src →
      ∃ r, rows df !! i = Some (Z.of_nat i, r) ∧
           normalise_row (columns (unified_base df1 df2))
                         (date_format (unified_base df1 df2))
                         (base_row df1 df2 src.2) = Ok r.
Proof.
  intros (df1 & df2 & H1 & H2 & Hn)%load_data_rows.
  exists df1, df2. repeat (split; [done |]).
  destruct Hn as (_ & _ & Hrows). rewrite unified_base_rows in Hrows.
  split.
  - rewrite <- (Forall2_length _ _ _ Hrows), length_imap, length_app. done.
  - intros i src Hsrc.
    destruct (Forall2_lookup_l _ _ _ i (Z.of_nat i, base_row df1 df2 src.2) Hrows)
      as ([l r] & Hr & Hl & Hnorm).
    { rewrite list_lookup_imap, Hsrc. done. }
    simpl in Hl, Hnorm. subst l. eauto.
Qed.

End load_rows.

(** ** What normalisation does to one row *)

Section row_facts.
Context `{Pandas}.

Lemma derive_lookup_ne cols c g (r r' : row) c' :
  derive cols c g r = Ok r' → c ≠ c' → r' !! c' = r !! c'.
Proof.
  unfold derive. case_bool_decide.
  - intros Hb Hne. inv_ok. subst r'. by rewrite lookup_insert_ne.
  - by intros [= <-].
Qed.

Lemma derive_lookup_eq cols c g (r r' : row) :
  derive cols c g r = Ok r' →
  if bool_decide (c ∈ cols) then r' !! c = r !! c
  else ∃ v, g (cell_at r "date") = Ok v ∧ r' !! c = Some v.
Proof.
  unfold derive. case_bool_decide as Hc.
  - rewrite bool_decide_eq_false_2 by done.
    intros Hb. inv_ok. subst r'. exists a. by rewrite lookup_insert_eq.
  - rewrite bool_decide_eq_true_2 by first [done | by apply dec_stable].
    by intros [= <-].
Qed.

(** The cells of a normalised row, in terms of the row it comes from. *)
Lemma normalise_row_cells cols fmt (r0 r : row) :
  normalise_row cols fmt r0 = Ok r →
  r !! "date" = Some (to_datetime_cell fmt (cell_at r0 "date")) ∧
  (∃ v, astype_Int64_cell (to_numeric (cell_at r0 "store_nbr")) = Ok v ∧
        r !! "store_nbr" = Some v) ∧
  r !! "sales" = Some (fillna (VFloat 0) (to_numeric (cell_at r0 "sales"))) ∧
  (∃ v, astype_int_cell
          (fillna (VInt 0) (to_numeric (cell_at r0 "onpromotion"))) = Ok v ∧
        r !! "onpromotion" = Some v) ∧
  (∀ c, c ∉ rewritten → r !! c = r0 !! c).
Proof.
  unfold normalise_row. intros Hn.
  apply bind_Ok in Hn as (v2 & Hv2 & Hn).
  apply bind_Ok in Hn as (v4 & Hv4 & Hn).
  apply bind_Ok in Hn as (r5 & Hr5 & Hn).
  apply bind_Ok in Hn as (r6 & Hr6 & Hr7).
  rewrite cell_at_insert_ne in Hv2 by done.
  rewrite !cell_at_insert_ne in Hv4 by done.
  assert (∀ c, c ≠ "year" → c ≠ "month" → c ≠ "week" →
            r !! c =
            (<["onpromotion" := v4]>
               (<["sales" := fillna (VFloat 0)
                    (to_numeric (cell_at (<["store_nbr" := v2]>
                       (<["date" := to_datetime_cell fmt (cell_at r0 "date")]> r0))
                       "sales"))]>
                  (<["store_nbr" := v2]>
                     (<["date" := to_datetime_cell fmt (cell_at r0 "date")]> r0))))
              !! c) as Hlook.
  { intros c ? ? ?.
    rewrite (derive_lookup_ne _ _ _ _ _ c Hr7) by done.
    rewrite (derive_lookup_ne _ _ _ _ _ c Hr6) by done.
    by rewrite (derive_lookup_ne _ _ _ _ _ c Hr5) by done. }
  repeat split.
  - rewrite Hlook by done. by rewrite !lookup_insert_ne, lookup_insert_eq by done.
  - exists v2. split; [done |]. rewrite Hlook by done.
    by rewrite !lookup_insert_ne, lookup_insert_eq by done.
  - rewrite Hlook by done.
    rewrite lookup_insert_ne, lookup_insert_eq by done.
    by rewrite !cell_at_insert_ne by done.
  - exists v4. split; [done |]. rewrite Hlook by done.
    by rewrite lookup_insert_eq.
  - intros c Hc. unfold rewritten in Hc.
    rewrite !not_elem_of_cons in Hc.
    destruct Hc as (? & ? & ? & ? & ? & ? & ? & _).
    rewrite Hlook by done. by rewrite !lookup_insert_ne by done.
Qed.

End row_facts.

(** ** When [load_data] returns *)







Section load_forward.
Context `{Pandas}.



End load_forward.

Section load_domain.
Context `{Pandas}.



Lemma is_timestamp_to_datetime_cell fmt c :
  is_timestamp (to_datetime_cell fmt c).
Proof.
  unfold to_datetime_cell.
  destruct c; try done;
    by destruct (match fmt with Some _ => _ | None => _ end).
Qed.




Lemma derive_date cols c g (r r' : row) :
  c ≠ "date" → derive cols c g r = Ok r' → cell_at r' "date" = cell_at r "date".
Proof.
  intros Hne Hd. unfold cell_at.
  by rewrite (derive_lookup_ne _ _ _ _ _ "date" Hd).
Qed.


Lemma astype_Int64_cell_Ok c v :
  astype_Int64_cell c = Ok v → v = NA ∨ ∃ z, v = VInt z.
Proof.
  destruct c as [|z|q| | |]; simpl; try done.
  - intros [= <-]. by left.
  - destruct (in_int64 z); [| done]. intros [= <-]. eauto.
  - destruct (_ && _); [| done]. intros [= <-]. eauto.
Qed.



End load_domain.

(** ** Keys *)

Lemma cell_eqb_refl c : cell_eqb c c = true.
Proof.
  destruct c; simpl; try done.
  - apply Qeq_bool_iff. reflexivity.
  - apply Qeq_bool_iff. reflexivity.
  - apply String.eqb_refl.
  - apply Z.eqb_refl.
  - apply eqb_reflx.
Qed.

Lemma cell_eqb_sym a b : cell_eqb a b = cell_eqb b a.
Proof.
  destruct a, b; simpl; try done.
  - apply eq_true_iff_eq. rewrite !Qeq_bool_iff. split; intros; by symmetry.
  - apply eq_true_iff_eq. rewrite !Qeq_bool_iff. split; intros; by symmetry.
  - apply eq_true_iff_eq. rewrite !Qeq_bool_iff. split; intros; by symmetry.
  - apply eq_true_iff_eq. rewrite !Qeq_bool_iff. split; intros; by symmetry.
  - apply String.eqb_sym.
  - apply Z.eqb_sym.
  - by destruct negative, negative0.
Qed.

Lemma cell_eqb_trans a b c :
  cell_eqb a b = true → cell_eqb b c = true → cell_eqb a c = true.
Proof.
  destruct a, b, c; simpl; try done;
    rewrite ?Qeq_bool_iff, ?String.eqb_eq, ?Z.eqb_eq, ?eqb_true_iff;
    try congruence; intros E1 E2; by rewrite E1.
Qed.

Lemma key_eqb_Forall2 k1 k2 :
  key_eqb k1 k2 = true ↔ Forall2 (λ a b, cell_eqb a b = true) k1 k2.
Proof.
  unfold key_eqb. revert k2.
  induction k1 as [|a k1 IH]; intros [|b k2]; simpl.
  - split; [constructor | done].
  - split; [done | inversion 1].
  - split; [done | inversion 1].
  - specialize (IH k2). simpl in IH.
    rewrite Forall2_cons_iff, <- IH.
    rewrite !andb_true_iff. tauto.
Qed.

Lemma key_eqb_refl k : key_eqb k k = true.
Proof.
  apply key_eqb_Forall2. induction k; constructor;
    [apply cell_eqb_refl | done].
Qed.

Lemma key_eqb_sym k1 k2 : key_eqb k1 k2 = true → key_eqb k2 k1 = true.
Proof.
  rewrite !key_eqb_Forall2. induction 1; constructor;
    [by rewrite cell_eqb_sym | done].
Qed.

Lemma key_eqb_trans k1 k2 k3 :
  key_eqb k1 k2 = true → key_eqb k2 k3 = true → key_eqb k1 k3 = true.
Proof.
  rewrite !key_eqb_Forall2. intros H12. revert k3.
  induction H12; intros k3; inversion 1; subst; constructor;
    [by eapply cell_eqb_trans | eauto].
Qed.

Lemma existsb_key_eqb_trans k k' seen :
  key_eqb k k' = true →
  existsb (key_eqb k) seen = existsb (key_eqb k') seen.
Proof.
  intros Hk. apply eq_true_iff_eq. rewrite !existsb_exists.
  split; intros (s & Hs & Hks); exists s; (split; [done |]).
  - eapply key_eqb_trans; [| done]. by apply key_eqb_sym.
  - by eapply key_eqb_trans.
Qed.

(** ** Boolean indexing and duplicates *)

Lemma mask_select_fmap {A} (f : A → bool) (l : list A) :
  mask_select (f <$> l) l = filter (λ x, f x) l.
Proof.
  induction l as [|x l IH]; [done |]. csimpl.
  rewrite filter_cons, IH. destruct (f x) eqn:Ef.
  - by rewrite decide_True by done.
  - by rewrite decide_False by (by intros []).
Qed.

Lemma mask_select_duplicated {A} (key : A → list cell) seen (l : list A) :
  mask_select (negb <$> duplicated seen (key <$> l)) l = keep_first key seen l.
Proof.
  revert seen. induction l as [|x l IH]; intros seen; [done |]. csimpl.
  destruct (existsb (key_eqb (key x)) seen); csimpl; by rewrite IH.
Qed.

Lemma length_duplicated seen keys : length (duplicated seen keys) = length keys.
Proof.
  revert seen. induction keys as [|k keys IH]; intros seen; [done |]. simpl.
  destruct (existsb _ _); simpl; by rewrite IH.
Qed.

Lemma keep_first_sublist {A} (key : A → list cell) seen (l : list A) :
  keep_first key seen l `sublist_of` l.
Proof.
  revert seen. induction l as [|x l IH]; intros seen; simpl; [done |].
  destruct (existsb _ _); [by apply sublist_cons | by apply sublist_skip].
Qed.

(** For every key, [keep_first] keeps exactly the first row that carries
    it, unless the key was seen before. *)
Lemma filter_keep_first {A} (key : A → list cell) seen (l : list A) k :
  filter (λ x, key_eqb k (key x)) (keep_first key seen l) =
  if existsb (key_eqb k) seen then []
  else option_list (head (filter (λ x, key_eqb k (key x)) l)).
Proof.
  revert seen. induction l as [|x l IH]; intros seen.
  { simpl. by destruct (existsb _ _). }
  simpl keep_first. rewrite (filter_cons _ x l).
  destruct (existsb (key_eqb (key x)) seen) eqn:Ex.
  - rewrite IH. destruct (existsb (key_eqb k) seen) eqn:Ek; [done |].
    rewrite decide_False; [done |].
    intros Hk%Is_true_eq_true.
    rewrite (existsb_key_eqb_trans _ _ _ Hk) in Ek. congruence.
  - rewrite filter_cons, IH. simpl existsb.
    destruct (key_eqb k (key x)) eqn:Ekx; simpl.
    + rewrite (existsb_key_eqb_trans _ _ _ Ekx), Ex. done.
    + by destruct (existsb (key_eqb k) seen).
Qed.

(** ** [build_transactions_table], row by row *)

Lemma keep_first_fmap {A B} (g : A → B) (key : B → list cell) seen l :
  keep_first key seen (g <$> l) = g <$> keep_first (key ∘ g) seen l.
Proof.
  revert seen. induction l as [|x l IH]; intros seen; [done |]. csimpl.
  destruct (existsb _ _); csimpl; by rewrite IH.
Qed.

Lemma mask_select_duplicated_fmap {A B} (g : A → B) (key : B → list cell)
    seen (l : list A) :
  mask_select (negb <$> duplicated seen (key ∘ g <$> l)) (g <$> l) =
  g <$> keep_first (key ∘ g) seen l.
Proof.
  rewrite list_fmap_compose, mask_select_duplicated. apply keep_first_fmap.
Qed.

Lemma keep_first_ext {A} (key key' : A → list cell) seen l :
  (∀ x, key x = key' x) →
  keep_first key seen l = keep_first key' seen l.
Proof.
  intros Hk. revert seen. induction l as [|x l IH]; intros seen; [done |].
  simpl. rewrite Hk. destruct (existsb _ _); by rewrite IH.
Qed.

Lemma filter_fmap_bool {A B} (g : A → B) (p : B → bool) (l : list A) :
  filter (λ y, p y) (g <$> l) = g <$> filter (λ x, p (g x)) l.
Proof.
  induction l as [|x l IH]; [done |]. csimpl.
  rewrite !filter_cons, IH. destruct (p (g x)) eqn:E.
  - by rewrite !decide_True by done.
  - by rewrite !decide_False by (by intros []).
Qed.

Lemma lookup_select_columns (cols : list string) (r : row) c :
  (filter (λ kv : string * cell, kv.1 ∈ cols) r) !! c =
  if decide (c ∈ cols) then r !! c else None.
Proof.
  rewrite map_lookup_filter. destruct (r !! c) as [v|]; simpl.
  - case_decide; simpl; [by rewrite option_guard_True |
                         by rewrite option_guard_False].
  - by case_decide.
Qed.

Lemma cell_at_select_columns (cols : list string) (r : row) c :
  c ∈ cols →
  cell_at (filter (λ kv : string * cell, kv.1 ∈ cols) r) c = cell_at r c.
Proof.
  intros Hc. unfold cell_at. rewrite lookup_select_columns.
  by rewrite decide_True.
Qed.

Lemma setitem_fmap df c (g : Z * row → cell) :
  setitem df c (g <$> rows df) =
  Ok {| columns := if bool_decide (c ∈ columns df)
                   then columns df else columns df ++ [c];
        rows := (λ lr, (lr.1, <[c := g lr]> lr.2)) <$> rows df |}.
Proof.
  unfold setitem. rewrite !length_fmap, Nat.eqb_refl. do 2 f_equal.
  induction (rows df) as [|lr l IH]; [done |]. csimpl. by rewrite IH.
Qed.

Lemma elem_of_tx_columns cols c :
  c ∈ tx_columns cols ↔
  c ∈ cols ∧
  c ∈ ["date"; "store_nbr"; "state"; "city"; "transactions"; "year"].
Proof. unfold tx_columns. by rewrite list_elem_of_filter. Qed.

Section tx_table.
Context `{Pandas}.

Lemma tx_key_tx_row cols lr :
  "date" ∈ cols → "store_nbr" ∈ cols →
  tx_key (lr.1, tx_row cols lr.2) = tx_key lr.
Proof.
  intros Hd Hs. unfold tx_key, row_key, tx_row. csimpl.
  rewrite !cell_at_insert_ne by done.
  rewrite !cell_at_select_columns; [done | |];
    apply elem_of_tx_columns; (split; [done |]);
    rewrite !elem_of_cons; tauto.
Qed.

Lemma build_transactions_table_rows df_ tx :
  build_transactions_table df_ = Ok tx →
  Forall (λ c, c ∈ columns df_) ["date"; "store_nbr"; "transactions"] ∧
  columns tx = tx_columns (columns df_) ∧
  rows tx = (λ lr, (lr.1, tx_row (columns df_) lr.2))
              <$> keep_first tx_key [] (rows df_).
Proof.
  unfold build_transactions_table. fold (tx_columns (columns df_)).
  intros Hb.
  apply bind_Ok in Hb as (sel & Hsel & Hb).
  apply bind_Ok in Hb as (base & Hbase & Hb).
  apply bind_Ok in Hb as (s & Hs & Hb).
  (* the projection *)
  unfold getitem_cols in Hsel.
  destruct (filter _ (tx_columns (columns df_))) eqn:Ef in Hsel; [| done].
  injection Hsel as <-.
  (* the duplicates *)
  unfold drop_duplicates in Hbase. simpl columns in Hbase.
  destruct (filter _ ["date"; "store_nbr"]) eqn:Esub in Hbase; [| done].
  assert ("date" ∈ tx_columns (columns df_) ∧
          "store_nbr" ∈ tx_columns (columns df_)) as [Hd Hst].
  { rewrite !filter_cons, filter_nil in Esub.
    repeat case_decide; done. }
  apply elem_of_tx_columns in Hd as [Hd _].
  apply elem_of_tx_columns in Hst as [Hst _].
  unfold getitem_mask in Hbase. simpl rows in Hbase.
  rewrite length_fmap, length_duplicated, !length_fmap, Nat.eqb_refl in Hbase.
  injection Hbase as <-.
  (* the coercion *)
  apply getitem_Ok in Hs as [Htx ->]. simpl in Htx.
  apply elem_of_tx_columns in Htx as [Htx _].
  rewrite <- !list_fmap_compose in Hb.
  rewrite setitem_fmap in Hb.
  injection Hb as <-. cbn [rows columns].
  split; [by repeat constructor |].
  split.
  { rewrite bool_decide_eq_true_2; [done |].
    apply elem_of_tx_columns. split; [done |]. rewrite !elem_of_cons. tauto. }
  rewrite mask_select_duplicated_fmap, <- list_fmap_compose.
  rewrite (keep_first_ext _ tx_key); [done |].
  intros [l r]. unfold compose, tx_key, row_key. csimpl.
  rewrite !cell_at_select_columns; [done | |];
    apply elem_of_tx_columns; (split; [done |]);
    rewrite !elem_of_cons; tauto.
Qed.

End tx_table.

(** ** The date filter, row by row *)

Lemma cmp_timestamp_Ok cmp ts s m :
  traverse (cmp_timestamp_cell cmp ts) s = Ok m ↔
  Forall is_timestamp s ∧ m = cmp_or_false cmp ts <$> s.
Proof.
  revert m. induction s as [|c s IH]; intros m.
  - simpl. split; [by intros [= <-] | by intros [_ ->]].
  - simpl traverse. split.
    + intros Hb. inv_ok. subst m. apply IH in Ha0 as [Hs ->].
      destruct c; simpl in Ha; try done; injection Ha as <-;
        (split; [by constructor | done]).
    + intros [Hs ->]. apply Forall_cons in Hs as [Hc Hs].
      assert (traverse (cmp_timestamp_cell cmp ts) s
              = Ok (cmp_or_false cmp ts <$> s)) as -> by (by apply IH).
      by destruct c.
Qed.

Lemma zip_with_fmap_same {A B C D} (h : B → C → D) (f : A → B) (g : A → C) l :
  zip_with h (f <$> l) (g <$> l) = (λ x, h (f x) (g x)) <$> l.
Proof. induction l as [|x l IH]; [done |]. csimpl. by rewrite IH. Qed.

Lemma in_range_cmp day0 day1 c :
  in_range day0 day1 c =
  cmp_or_false Z.geb (start_date day0) c && cmp_or_false Z.leb (end_date day1) c.
Proof. destruct c; simpl; try done. by rewrite Z.geb_leb. Qed.

Lemma date_filter_Ok df day0 day1 view :
  date_filter df day0 day1 = Ok view ↔
  "date" ∈ columns df ∧
  Forall (λ lr, is_timestamp (cell_at lr.2 "date")) (rows df) ∧
  view = {| columns := columns df;
            rows := filter (λ lr, in_range day0 day1 (cell_at lr.2 "date"))
                           (rows df) |}.
Proof.
  unfold date_filter, getitem, ge_timestamp, le_timestamp.
  case_bool_decide as Hd; [| split; [done | tauto]].
  simpl.
  set (s := (λ lr : Z * row, cell_at lr.2 "date") <$> rows df).
  assert (Forall is_timestamp s ↔
          Forall (λ lr : Z * row, is_timestamp (cell_at lr.2 "date")) (rows df))
    as Hs by (unfold s; by rewrite Forall_fmap).
  destruct (traverse (cmp_timestamp_cell Z.geb (start_date day0)) s)
    as [m1| |] eqn:E1; simpl.
  - apply cmp_timestamp_Ok in E1 as [Hts ->].
    assert (traverse (cmp_timestamp_cell Z.leb (end_date day1)) s
            = Ok (cmp_or_false Z.leb (end_date day1) <$> s)) as ->
      by (by apply cmp_timestamp_Ok).
    simpl. unfold getitem_mask.
    rewrite zip_with_fmap_same. unfold s at 1.
    rewrite !length_fmap, Nat.eqb_refl. simpl.
    unfold s. rewrite <- list_fmap_compose, mask_select_fmap. unfold copy.
    assert (filter (λ x : Z * row,
              ((λ x0 : cell, cmp_or_false Z.geb (start_date day0) x0 &&
                             cmp_or_false Z.leb (end_date day1) x0)
               ∘ (λ lr : Z * row, cell_at lr.2 "date")) x) (rows df)
            = filter (λ lr : Z * row, in_range day0 day1 (cell_at lr.2 "date"))
                (rows df)) as ->.
    { apply list_filter_iff. intros lr. unfold compose.
      by rewrite in_range_cmp. }
    split; [intros [= <-]; by rewrite <- Hs | by intros (_ & _ & ->)].
  - split; [done |]. intros (_ & Hts%Hs & _).
    assert (traverse (cmp_timestamp_cell Z.geb (start_date day0)) s
            = Ok (cmp_or_false Z.geb (start_date day0) <$> s)) as E
      by (by apply cmp_timestamp_Ok).
    congruence.
  - split; [done |]. intros (_ & Hts%Hs & _).
    assert (traverse (cmp_timestamp_cell Z.geb (start_date day0)) s
            = Ok (cmp_or_false Z.geb (start_date day0) <$> s)) as E
      by (by apply cmp_timestamp_Ok).
    congruence.
Qed.

(** ** The store: what the programs change *)

Section store_facts.
Context `{Pandas}.

Lemma fresh_lookup (h : Store.heap) : h !! fresh (dom h) = None.
Proof. apply not_elem_of_dom, is_fresh. Qed.

Lemma alloc_subseteq (h : Store.heap) df : h ⊆ <[fresh (dom h) := df]> h.
Proof. apply insert_subseteq, fresh_lookup. Qed.

Lemma build_transactions_table_refines (h : Store.heap) l d :
  h !! l = Some d →
  Store.refines (build_transactions_table d)
          (Store.build_transactions_table l h) h eq.
Proof.
  intros Hl.
  unfold build_transactions_table, Store.build_transactions_table.
  unfold Store.refines, mbind, Store.M_bind, Store.getitem_cols,
    Store.drop_duplicates, Store.getitem, Store.setitem, Store.deref,
    Store.lift, Store.alloc, Store.assign, mbind, Store.M_bind.
  rewrite Hl. cbn beta iota.
  rewrite Hl. cbn beta iota.
  set (cols := filter (λ c, c ∈ columns d) _).
  destruct (getitem_cols d cols) as [sel| |]; simpl; try done.
  set (l1 := fresh (dom h)).
  rewrite lookup_insert_eq.
  assert (h ⊆ <[l1 := sel]> h) as H1 by apply alloc_subseteq.
  destruct (drop_duplicates sel _) as [base| |]; simpl; try done.
  set (h1 := <[l1 := sel]> h) in *.
  set (l2 := fresh (dom h1)).
  assert (h1 ⊆ <[l2 := base]> h1) as H2 by apply alloc_subseteq.
  assert (h !! l2 = None) as Hl2.
  { destruct (h !! l2) eqn:E; [| done].
    apply (lookup_weaken _ _ _ _ E) in H1.
    unfold l2 in H1. by rewrite fresh_lookup in H1. }
  rewrite lookup_insert_eq.
  destruct (getitem base "transactions") as [s| |]; simpl;
    try (split; [by etrans | done]).
  rewrite lookup_insert_eq.
  destruct (setitem base _ _) as [tx| |]; simpl;
    try (split; [by etrans | done]).
  split.
  - rewrite insert_insert_eq. etrans; [exact H1 |].
    apply insert_subseteq. apply fresh_lookup.
  - exists l2, tx. cbn [fst snd]. by rewrite lookup_insert_eq.
Qed.

Lemma date_filter_refines (h : Store.heap) l d day0 day1 :
  h !! l = Some d →
  Store.refines (date_filter d day0 day1)
          (Store.date_filter l day0 day1 h) h eq.
Proof.
  intros Hl.
  unfold date_filter, Store.date_filter.
  unfold Store.refines, mbind, Store.M_bind, Store.getitem_mask,
    Store.getitem, Store.copy, Store.deref, Store.lift, Store.alloc,
    mbind, Store.M_bind.
  rewrite Hl. simpl.
  destruct (getitem d "date") as [s| |] eqn:Es; simpl; try done.
  destruct (ge_timestamp s _) as [m1| |] eqn:E1; simpl; try done.
  rewrite Hl. simpl. rewrite Es. simpl.
  destruct (le_timestamp s _) as [m2| |] eqn:E2; simpl; try done.
  rewrite Hl. simpl.
  destruct (getitem_mask d _) as [view| |] eqn:Ev; simpl; try done.
  set (l1 := fresh (dom h)). rewrite lookup_insert_eq.
  set (h1 := <[l1 := view]> h).
  assert (h ⊆ h1) as H1 by apply alloc_subseteq.
  assert (h1 ⊆ <[fresh (dom h1) := copy view]> h1) as H2
    by apply alloc_subseteq.
  split; [by etrans |].
  exists (fresh (dom h1)), (copy view). cbn [fst snd].
  rewrite lookup_insert_eq. repeat split; try done.
  destruct (h !! fresh (dom h1)) eqn:E; [| done].
  apply (lookup_weaken _ _ _ _ E) in H1. by rewrite fresh_lookup in H1.
Qed.

Lemma exec_subseteq (o : Store.op) (h : Store.heap) : h ⊆ (Store.exec o h).2.
Proof.
  destruct o as [l | l day0 day1]; simpl.
  - destruct (h !! l) as [d|] eqn:Hl.
    + by destruct (build_transactions_table_refines h l d Hl).
    + unfold Store.build_transactions_table, mbind, Store.M_bind, Store.deref.
      by rewrite Hl.
  - destruct (h !! l) as [d|] eqn:Hl.
    + by destruct (date_filter_refines h l d day0 day1 Hl).
    + unfold Store.date_filter, mbind, Store.M_bind, Store.getitem, mbind,
        Store.M_bind, Store.deref. by rewrite Hl.
Qed.

Lemma run_subseteq (ops : list Store.op) (h : Store.heap) : h ⊆ Store.run ops h.
Proof.
  revert h. induction ops as [|o ops IH]; intros h; [done |].
  simpl. etrans; [apply (exec_subseteq o) | apply IH].
Qed.

End store_facts.

(** ** Reading an archive *)

Lemma max_key_first {A} (key : A → N) (first : A) (rest : list A) :
  ∃ pre post,
    first :: rest = pre ++ max_key key first rest :: post ∧
    (∀ x, x ∈ pre → (key x < key (max_key key first rest))%N) ∧
    (∀ x, x ∈ post → (key x ≤ key (max_key key first rest))%N).
Proof.
  revert first. induction rest as [|x rest IH]; intros first.
  { exists [], []. split; [done |]. split; intros ? []%elem_of_nil. }
  unfold max_key. simpl foldl.
  fold (max_key key (if (key first <? key x)%N then x else first) rest).
  destruct (N.ltb_spec (key first) (key x)) as [Hlt|Hge].
  - destruct (IH x) as (pre & post & E & Hpre & Hpost).
    remember (max_key key x rest) as m eqn:Hm. clear Hm.
    exists (first :: pre), post. split; [by rewrite E |].
    split; [| done].
    intros y [->|Hy]%elem_of_cons; [| by apply Hpre].
    assert (key x ≤ key m)%N; [| lia].
    destruct pre as [|p pre]; simpl in E.
    + injection E as -> _. lia.
    + injection E as <- _. apply N.lt_le_incl, Hpre, elem_of_cons. by left.
  - destruct (IH first) as (pre & post & E & Hpre & Hpost).
    remember (max_key key first rest) as m eqn:Hm. clear Hm.
    destruct pre as [|p pre]; simpl in E.
    + injection E as Em Er. exists [], (x :: rest).
      split; [by rewrite <- Em |].
      split; [intros ? []%elem_of_nil |].
      intros y [->|Hy]%elem_of_cons; [by rewrite <- Em |].
      apply Hpost. by rewrite <- Er.
    + injection E as <- Er. exists (first :: x :: pre), post.
      split; [by rewrite Er |]. split; [| done].
      assert (key first < key m)%N by (apply Hpre, elem_of_cons; by left).
      intros y [->|[->|Hy]%elem_of_cons]%elem_of_cons; [done | lia |].
      apply Hpre, elem_of_cons. by right.
Qed.

Lemma max_key_max {A} (key : A → N) (first : A) (rest : list A) :
  max_key key first rest ∈ first :: rest ∧
  ∀ x, x ∈ first :: rest → (key x ≤ key (max_key key first rest))%N.
Proof.
  destruct (max_key_first key first rest) as (pre & post & -> & Hpre & Hpost).
  split.
  - apply elem_of_app. right. apply elem_of_cons. by left.
  - intros x [Hx|[->|Hx]%elem_of_cons]%elem_of_app.
    + by apply N.lt_le_incl, Hpre.
    + done.
    + by apply Hpost.
Qed.

Lemma best_csv_max infolist best :
  best_csv infolist = Some best →
  best ∈ infolist ∧ is_csv best = true ∧
  ∀ i, i ∈ infolist → is_csv i = true → (file_size i ≤ file_size best)%N.
Proof.
  unfold best_csv.
  destruct (filter (λ i, is_csv i) infolist) as [|i infos] eqn:Ef; [done |].
  intros [= <-].
  destruct (max_key_max file_size i infos) as [Hin Hmax].
  rewrite <- Ef in Hin, Hmax.
  apply list_elem_of_filter in Hin as [Hcsv Hin].
  split; [done |]. split; [by apply Is_true_eq_true |].
  intros j Hj Hjc. apply Hmax, list_elem_of_filter.
  split; [by apply Is_true_eq_left | done].
Qed.

Lemma best_csv_None infolist :
  best_csv infolist = None ↔ Forall (λ i, is_csv i = false) infolist.
Proof.
  unfold best_csv.
  destruct (filter (λ i, is_csv i) infolist) as [|i infos] eqn:Ef.
  - split; [intros _ | done]. apply Forall_forall. intros j Hj.
    destruct (is_csv j) eqn:Ej; [| done].
    assert (j ∈ filter (λ i, is_csv i) infolist) as Hin
      by (apply list_elem_of_filter; split; [by apply Is_true_eq_left | done]).
    rewrite Ef in Hin. by apply elem_of_nil in Hin.
  - split; [done |]. intros Hall.
    assert (i ∈ filter (λ i, is_csv i) infolist) as Hin
      by (rewrite Ef; apply elem_of_cons; by left).
    apply list_elem_of_filter in Hin as [Hcsv Hin].
    rewrite Forall_forall in Hall. rewrite (Hall i Hin) in Hcsv. done.
Qed.

Section archives.
Context `{Pandas}.

Lemma read_csv_from_zip_archive fs zip_path infolist :
  fs !! zip_path = Some (ZipArchive infolist) →
  read_csv_from_zip fs zip_path =
  match best_csv infolist with
  | None => Stop NoCsvEntry
  | Some best =>
      if (file_size best =? 0)%N then Stop EmptyCsv
      else match read_csv (payload best) with
           | Some df => Ok df
           | None => Raise ParserError
           end
  end.
Proof.
  intros Hfs. unfold read_csv_from_zip, best_csv. rewrite Hfs.
  by destruct (filter _ infolist).
Qed.

(** C7. [read_csv_from_zip] stops with the missing-file message exactly
    when nothing is at the path, with the no-CSV message exactly when the
    archive has no entry whose name ends in ".csv", and with the empty-CSV
    message exactly when the entry it selects has size zero; otherwise it
    returns the table parsed from the selected entry, which is a ".csv"
    entry of the archive at least as large as every other one.  A stop
    returns no table, and [load_data] stops with it. *)
Theorem read_csv_from_zip_outcomes fs zip_path :
  (read_csv_from_zip fs zip_path = Stop MissingFile ↔ fs !! zip_path = None) ∧
  (read_csv_from_zip fs zip_path = Stop NoCsvEntry ↔
     ∃ infolist, fs !! zip_path = Some (ZipArchive infolist) ∧
                 Forall (λ i, is_csv i = false) infolist) ∧
  (read_csv_from_zip fs zip_path = Stop EmptyCsv ↔
     ∃ infolist best, fs !! zip_path = Some (ZipArchive infolist) ∧
                      best_csv infolist = Some best ∧
                      file_size best = 0%N) ∧
  (∀ infolist best,
     fs !! zip_path = Some (ZipArchive infolist) →
     best_csv infolist = Some best → file_size best ≠ 0%N →
     best ∈ infolist ∧ is_csv best = true ∧
     (∀ i, i ∈ infolist → is_csv i = true →
           (file_size i ≤ file_size best)%N) ∧
     read_csv_from_zip fs zip_path =
       match read_csv (payload best) with
       | Some df => Ok df
       | None => Raise ParserError
       end) ∧
  (∀ s, read_csv_from_zip fs zip_path = Stop s →
        ∀ df, read_csv_from_zip fs zip_path ≠ Ok df) ∧
  (∀ s, read_csv_from_zip fs "parte_1.zip" = Stop s →
        load_data fs = Stop s) ∧
  (∀ df1 s, read_csv_from_zip fs "parte_1.zip" = Ok df1 →
            read_csv_from_zip fs "parte_2.zip" = Stop s →
            load_data fs = Stop s).
Proof.
  split; [| split; [| split; [| split; [| split; [| split]]]]].
  - split.
    + unfold read_csv_from_zip.
      destruct (fs !! zip_path) as [[infolist|]|]; try done.
      destruct (filter _ infolist); [done |].
      destruct (_ =? _)%N; [done |]. by destruct (read_csv _).
    + intros Hfs. unfold read_csv_from_zip. by rewrite Hfs.
  - split.
    + intros Hout. destruct (fs !! zip_path) as [[infolist|]|] eqn:Hfs.
      * exists infolist. split; [done |]. apply best_csv_None.
        rewrite (read_csv_from_zip_archive _ _ _ Hfs) in Hout.
        destruct (best_csv infolist) as [best|]; [| done].
        destruct (_ =? _)%N; [done |]. by destruct (read_csv _).
      * unfold read_csv_from_zip in Hout. by rewrite Hfs in Hout.
      * unfold read_csv_from_zip in Hout. by rewrite Hfs in Hout.
    + intros (infolist & Hfs & Hnone%best_csv_None).
      by rewrite (read_csv_from_zip_archive _ _ _ Hfs), Hnone.
  - split.
    + intros Hout. destruct (fs !! zip_path) as [[infolist|]|] eqn:Hfs.
      * rewrite (read_csv_from_zip_archive _ _ _ Hfs) in Hout.
        destruct (best_csv infolist) as [best|] eqn:Hbest; [| done].
        exists infolist, best. repeat (split; [done |]).
        destruct (N.eqb_spec (file_size best) 0); [done |].
        by destruct (read_csv _).
      * unfold read_csv_from_zip in Hout. by rewrite Hfs in Hout.
      * unfold read_csv_from_zip in Hout. by rewrite Hfs in Hout.
    + intros (infolist & best & Hfs & Hbest & Hsize).
      rewrite (read_csv_from_zip_archive _ _ _ Hfs), Hbest, Hsize. done.
  - intros infolist best Hfs Hbest Hsize.
    destruct (best_csv_max _ _ Hbest) as (Hin & Hcsv & Hmax).
    repeat (split; [done |]).
    rewrite (read_csv_from_zip_archive _ _ _ Hfs), Hbest.
    by destruct (N.eqb_spec (file_size best) 0).
  - intros s Hs df. by rewrite Hs.
  - intros s Hs. unfold load_data. by rewrite Hs.
  - intros df1 s R1 R2. unfold load_data. by rewrite R1, R2.
Qed.

End archives.

(** ** The unified table *)

Section unified.
Context `{Pandas}.








Lemma wrap_int64_in_range z : in_int64 z = true → wrap_int64 z = z.
Proof.
  unfold in_int64, wrap_int64, int64_min, int64_max.
  intros [Hlo Hhi]%andb_true_iff. apply Z.leb_le in Hlo, Hhi.
  replace (2 ^ 64)%Z with (2 * 2 ^ 63)%Z by (by rewrite <- Z.pow_succ_r).
  rewrite Z.mod_small; lia.
Qed.




End unified.

(** ** Filtered views *)

Lemma in_range_bounds day0 day1 c :
  in_range day0 day1 c = true ↔
  ∃ ns, c = VDate ns ∧ (start_date day0 ≤ ns ≤ end_date day1)%Z.
Proof.
  destruct c; simpl; try (split; [done | by intros (? & ? & _)]).
  rewrite andb_true_iff, !Z.leb_le. split.
  - intros ?. by exists ns.
  - by intros (? & [= <-] & ?).
Qed.


Section views.
Context `{Pandas}.

Lemma tx_row_lookup cols (r : row) c :
  c ∈ tx_columns cols → c ≠ "transactions" →
  tx_row cols r !! c = r !! c.
Proof.
  intros Hc Hne. unfold tx_row. rewrite lookup_insert_ne by done.
  rewrite lookup_select_columns. by rewrite decide_True.
Qed.

Lemma tx_row_cell_at cols (r : row) c :
  c ∈ tx_columns cols → c ≠ "transactions" →
  cell_at (tx_row cols r) c = cell_at r c.
Proof. intros. unfold cell_at. by rewrite tx_row_lookup. Qed.

Lemma tx_row_transactions cols (r : row) :
  "transactions" ∈ cols →
  tx_row cols r !! "transactions"
  = Some (tx_value (cell_at r "transactions")).
Proof.
  intros Hc. unfold tx_row. rewrite lookup_insert_eq.
  rewrite cell_at_select_columns; [done |].
  apply elem_of_tx_columns. split; [done |]. rewrite !elem_of_cons. tauto.
Qed.

Lemma date_in_tx_columns cols : "date" ∈ cols → "date" ∈ tx_columns cols.
Proof.
  intros. apply elem_of_tx_columns. split; [done |].
  rewrite !elem_of_cons. tauto.
Qed.

Lemma store_in_tx_columns cols :
  "store_nbr" ∈ cols → "store_nbr" ∈ tx_columns cols.
Proof.
  intros. apply elem_of_tx_columns. split; [done |].
  rewrite !elem_of_cons. tauto.
Qed.




End views.

(** ** The transactions table *)

Section transactions.
Context `{Pandas}.

Lemma tx_key_cells lr :
  tx_key lr = [cell_at lr.2 "date"; cell_at lr.2 "store_nbr"].
Proof. done. Qed.

Lemma has_key_own lr :
  has_key (cell_at lr.2 "date") (cell_at lr.2 "store_nbr") lr = true.
Proof. unfold has_key. rewrite tx_key_cells. apply key_eqb_refl. Qed.

Lemma has_key_cells d s lr :
  has_key d s lr
  = cell_eqb d (cell_at lr.2 "date") && cell_eqb s (cell_at lr.2 "store_nbr").
Proof.
  unfold has_key, key_eqb. rewrite tx_key_cells. simpl.
  by rewrite andb_true_r.
Qed.

(** C1. For every date and store number carried by a row of the input,
    the table built by [build_transactions_table] has exactly one row with
    that date and store number, and this row is made from the first input
    row that carries them: it has its label, its cells in the columns
    kept, and its transactions count coerced to a number. *)
Theorem one_row_per_date_and_store df_ tx :
  build_transactions_table df_ = Ok tx →
  ∀ lr, lr ∈ rows df_ →
    let d := cell_at lr.2 "date" in
    let s := cell_at lr.2 "store_nbr" in
    ∃ first r,
      head (filter (λ x, has_key d s x) (rows df_)) = Some first ∧
      filter (λ x, has_key d s x) (rows tx) = [(first.1, r)] ∧
      (∀ c, c ∈ columns tx → c ≠ "transactions" → r !! c = first.2 !! c) ∧
      r !! "transactions"
      = Some (tx_value (cell_at first.2 "transactions")).
Proof.
  intros Htx lr Hlr d s.
  destruct (build_transactions_table_rows _ _ Htx) as (Hcols & Hc & Hrows).
  apply Forall_cons in Hcols as [Hdate Hcols].
  apply Forall_cons in Hcols as [Hstore Hcols].
  apply Forall_cons in Hcols as [Htrans _].
  destruct (head (filter (λ x, has_key d s x) (rows df_))) as [first|] eqn:Hh.
  - exists first, (tx_row (columns df_) first.2).
    split; [done |]. split; [| split].
    + rewrite Hrows, filter_fmap_bool.
      assert (filter (λ x : Z * row,
                        has_key d s (x.1, tx_row (columns df_) x.2))
                     (keep_first tx_key [] (rows df_)) = [first]) as ->;
        [| done].
      etrans; [| etrans; [apply (filter_keep_first tx_key [] (rows df_) [d; s]) |]].
      * apply list_filter_iff. intros x. unfold has_key.
        by rewrite tx_key_tx_row.
      * simpl existsb. cbv iota. unfold has_key in Hh. by rewrite Hh.
    + intros c Hcin Hne. rewrite Hc in Hcin. by apply tx_row_lookup.
    + by apply tx_row_transactions.
  - exfalso. apply head_None in Hh.
    assert (lr ∈ filter (λ x, has_key d s x) (rows df_)) as Hin.
    { apply list_elem_of_filter. split; [| done].
      apply Is_true_eq_left, has_key_own. }
    rewrite Hh in Hin. by apply elem_of_nil in Hin.
Qed.


End transactions.

(** ** Sums of transactions *)





Lemma series_sum_fmap {A} (f : A → cell) l :
  series_sum (f <$> l) = sum_by (value_of ∘ f) l.
Proof. unfold series_sum. induction l as [|x l IH]; [done |]. csimpl. by rewrite IH. Qed.





(** Filtering on a property of the key commutes with removing
    duplicates. *)
Lemma filter_keep_first_comm {A} (key : A → list cell) (p : A → bool)
    seen seen' (l : list A) :
  (∀ x y, key_eqb (key x) (key y) = true → p x = p y) →
  (∀ y, p y = true →
        existsb (key_eqb (key y)) seen = existsb (key_eqb (key y)) seen') →
  filter (λ x, p x) (keep_first key seen l)
  = keep_first key seen' (filter (λ x, p x) l).
Proof.
  intros Hp. revert seen seen'.
  induction l as [|x l IH]; intros seen seen' Hs; [done |].
  simpl keep_first. rewrite (filter_cons _ x l).
  destruct (p x) eqn:Epx.
  - rewrite decide_True by done. simpl keep_first.
    rewrite <- (Hs x Epx).
    destruct (existsb (key_eqb (key x)) seen); [by apply IH |].
    rewrite filter_cons, decide_True by (by rewrite Epx).
    f_equal. apply IH. intros y Hy. simpl. by rewrite (Hs y Hy).
  - rewrite decide_False by (by intros []).
    destruct (existsb (key_eqb (key x)) seen); [by apply IH |].
    rewrite filter_cons, decide_False by (by rewrite Epx; intros []).
    apply IH. intros y Hy. simpl.
    destruct (key_eqb (key y) (key x)) eqn:Ek; [| by apply Hs].
    rewrite (Hp y x Ek) in Hy. congruence.
Qed.

(** ** No double counting *)



Lemma in_range_cell_eqb day0 day1 c c' :
  cell_eqb c c' = true → in_range day0 day1 c = in_range day0 day1 c'.
Proof.
  destruct c, c'; simpl; try done. by intros ->%Z.eqb_eq.
Qed.

Lemma in_scope_row_key day0 day1 store_sel a b :
  key_eqb (tx_key a) (tx_key b) = true →
  in_scope_row day0 day1 store_sel a = in_scope_row day0 day1 store_sel b.
Proof.
  intros Hk%key_eqb_Forall2. unfold tx_key, row_key in Hk. simpl in Hk.
  apply Forall2_cons in Hk as [Hd Hk]. apply Forall2_cons in Hk as [Hs _].
  unfold in_scope_row. rewrite (in_range_cell_eqb _ _ _ _ Hd). f_equal.
  destruct store_sel as [s|]; [| done].
  apply eq_true_iff_eq. split; intros Hc.
  - eapply cell_eqb_trans; [| done]. by rewrite cell_eqb_sym.
  - by eapply cell_eqb_trans.
Qed.

Section counting.
Context `{Pandas}.



End counting.

Section frame.
Context `{Pandas}.

(** C9. Building the transactions table and filtering by date leave every
    table of the store as it was: each returns a new object holding the
    table the computation on values gives, and after any sequence of the
    two operations every table that was in the store is still there,
    unchanged. *)
Theorem base_tables_are_not_mutated
    (h : gmap positive DataFrame) (df_ : positive) (d : DataFrame) :
  h !! df_ = Some d →
  (∀ l0 d0, h !! l0 = Some d0 →
     (Store.build_transactions_table df_ h).2 !! l0 = Some d0) ∧
  (∀ tx, build_transactions_table d = Ok tx →
     ∃ new, (Store.build_transactions_table df_ h).1 = Ok new ∧
            h !! new = None ∧
            (Store.build_transactions_table df_ h).2 !! new = Some tx) ∧
  (∀ day0 day1 l0 d0, h !! l0 = Some d0 →
     (Store.date_filter df_ day0 day1 h).2 !! l0 = Some d0) ∧
  (∀ day0 day1 view, date_filter d day0 day1 = Ok view →
     ∃ new, (Store.date_filter df_ day0 day1 h).1 = Ok new ∧
            h !! new = None ∧
            (Store.date_filter df_ day0 day1 h).2 !! new = Some view) ∧
  (∀ ops l0 d0, h !! l0 = Some d0 → Store.run ops h !! l0 = Some d0).
Proof.
  intros Hd.
  pose proof (build_transactions_table_refines h df_ d Hd) as [Hsub Hres].
  split; [| split; [| split; [| split]]].
  - intros l0 d0 Hl0. by eapply lookup_weaken.
  - intros tx Htx. rewrite Htx in Hres.
    destruct Hres as (new & tx' & Hnew & Hfresh & Hlook & <-). eauto.
  - intros day0 day1 l0 d0 Hl0.
    destruct (date_filter_refines h df_ d day0 day1 Hd) as [Hsub' _].
    by eapply lookup_weaken.
  - intros day0 day1 view Hview.
    destruct (date_filter_refines h df_ d day0 day1 Hd) as [_ Hres'].
    rewrite Hview in Hres'.
    destruct Hres' as (new & view' & Hnew & Hfresh & Hlook & <-). eauto.
  - intros ops l0 d0 Hl0. eapply lookup_weaken; [done |].
    apply run_subseteq.
Qed.

End frame.

(** ** Where the code departs from its intent *)

Lemma Timedelta_days_seconds n :
  Timedelta_days n = Timedelta_seconds (n * 86400).
Proof. unfold Timedelta_days, Timedelta_seconds. lia. Qed.

(** The filter lets in no timestamp outside the chosen days. *)
Lemma in_range_sound day0 day1 ns :
  in_range day0 day1 (VDate ns) = true → (day0 ≤ day_of ns ≤ day1)%Z.
Proof.
  intros (ns' & [= <-] & Hlo & Hhi)%in_range_bounds.
  unfold start_date, end_date, to_datetime_date, day_of,
    Timedelta_days, Timedelta_seconds in *.
  split.
  - apply Z.div_le_lower_bound; lia.
  - assert (ns / (1 * 86400 * 1000000000) < day1 + 1)%Z; [| lia].
    apply Z.div_lt_upper_bound; lia.
Qed.

(** It lets in every timestamp of the chosen days that falls on a whole
    second, and more generally every one up to 23:59:59.000 of the last
    day. *)
Lemma in_range_whole_seconds day0 day1 ns :
  (ns mod Timedelta_seconds 1 = 0)%Z →
  (day0 ≤ day_of ns ≤ day1)%Z →
  in_range day0 day1 (VDate ns) = true.
Proof.
  intros Hsec [Hlo Hhi]. apply in_range_bounds. exists ns. split; [done |].
  unfold start_date, end_date, to_datetime_date, day_of,
    Timedelta_days, Timedelta_seconds in *.
  assert (day0 * (1 * 86400 * 1000000000) ≤ ns)%Z as H0.
  { pose proof (Z.mul_div_le ns (1 * 86400 * 1000000000)). nia. }
  assert (ns < (day1 + 1) * (1 * 86400 * 1000000000))%Z as H1.
  { pose proof (Z.mul_succ_div_gt ns (1 * 86400 * 1000000000)). nia. }
  split; [lia |].
  apply Z.mod_divide in Hsec as [k ->]; lia.
Qed.

Section slips.
Context `{Pandas}.

(** Deriving the week from a column with a missing date cannot succeed:
    [.astype(int)] refuses the missing week. *)
Lemma load_data_needs_every_date fs df1 df2 i src :
  read_csv_from_zip fs "parte_1.zip" = Ok df1 →
  read_csv_from_zip fs "parte_2.zip" = Ok df2 →
  "week" ∉ columns (unified_base df1 df2) →
  (rows df1 ++ rows df2) !! i = Some src →
  to_datetime_cell (date_format (unified_base df1 df2))
                   (cell_at src.2 "date") = NA →
  ∀ df, load_data fs ≠ Ok df.
Proof.
  intros R1 R2 Hweek Hsrc Hna df Hload.
  destruct (load_data_sources _ _ Hload)
    as (d1 & d2 & R1' & R2' & (Hcols & _ & _) & _ & Hrows).
  assert (d1 = df1) as -> by congruence.
  assert (d2 = df2) as -> by congruence.
  apply Forall_cons in Hcols as [Hdate _].
  destruct (Hrows i src Hsrc) as (r & _ & Hn).
  unfold normalise_row in Hn.
  apply bind_Ok in Hn as (v2 & _ & Hn).
  apply bind_Ok in Hn as (v4 & _ & Hn).
  apply bind_Ok in Hn as (r5 & Hr5 & Hn).
  apply bind_Ok in Hn as (r6 & Hr6 & Hr7).
  assert (cell_at r6 "date" = NA) as Hd.
  { unfold cell_at.
    rewrite (derive_lookup_ne _ _ _ _ _ "date" Hr6) by done.
    rewrite (derive_lookup_ne _ _ _ _ _ "date" Hr5) by done.
    rewrite !lookup_insert_ne, lookup_insert_eq by done. simpl.
    by rewrite cell_at_base_row, Hna. }
  unfold derive in Hr7. rewrite bool_decide_eq_true_2 in Hr7 by done.
  by rewrite Hd in Hr7.
Qed.

End slips.

(** ** Checking the assumptions by computation *)

Section checks_sound.
Context `{Pandas}.



End checks_sound.

Lemma is_ok_table r : Scenario.is_ok r = true → r = Ok (Scenario.table r).
Proof. by destruct r. Qed.

Lemma row_at_lookup df i :
  (i <? length (rows df))%nat = true →
  rows df !! i = Some (Scenario.row_at df i).
Proof.
  intros Hi%Nat.ltb_lt. unfold Scenario.row_at.
  destruct (lookup_lt_is_Some_2 (rows df) i Hi) as [lr ->]. done.
Qed.

Lemma row_at_elem df i :
  (i <? length (rows df))%nat = true → Scenario.row_at df i ∈ rows df.
Proof. intros Hi. eapply list_elem_of_lookup_2. by apply row_at_lookup. Qed.

(** ** The pipeline on concrete archives *)

Section examples.
Import RefPandas Scenario.

(** The end-to-end scenario of the specification: five rows labelled 0
    to 4, four transaction rows, and on 2023-01-01 three sales rows and
    two transaction rows. *)
Example scenario_unified :
  labels (load_data fs) = Ok [0; 1; 2; 3; 4]%Z.
Proof. vm_compute. reflexivity. Qed.

Example scenario_transactions :
  show ["store_nbr"; "transactions"] (df_tx fs)
  = Ok [ (0, [VInt 1; VInt 50]); (2, [VInt 1; VInt 40]);
         (3, [VInt 2; VInt 20]); (4, [VInt 2; VInt 30]) ]%Z.
Proof. vm_compute. reflexivity. Qed.

Example scenario_filtered :
  n_rows (df_f fs jan1 jan1) = Some 3%nat ∧
  n_rows (df_tx_f fs jan1 jan1) = Some 2%nat.
Proof. split; vm_compute; reflexivity. Qed.

(** P6: the ISO week of 2023-01-02 is 1. *)
Example week_of_2023_01_02 :
  iso_week_of (to_datetime_date (days_from_civil 2023 1 2)) = 1%Z.
Proof. reflexivity. Qed.

(** C3. The loader does not survive an unparseable date when the archives
    have no week column: the week of the missing date is missing and
    [.astype(int)] raises a ValueError, so no table is returned.  *)
Theorem load_data_aborts_on_undated_row :
  load_data fs_bad_date = Raise ValueError.
Proof. vm_compute. reflexivity. Qed.

(** The same rows load when the archives supply the calendar columns. *)
Example load_data_undated_row_with_calendar :
  show ["date"; "sales"; "onpromotion"; "week"] (load_data fs_bad_date_calendar)
  = Ok [ (0, [NA; VFloat 0; VInt 0; VInt 52]);
         (1, [VDate 1672617600000000000; VInt 7; VInt 0; VInt 1]);
         (2, [VDate 1672531200000000000; VInt 1; VInt 0; VInt 52]) ]%Z.
Proof. vm_compute. reflexivity. Qed.

(** A store number with a fractional part stops the loader as well, and
    so do a store number outside int64 and an infinite promotion count. *)
Example load_data_fractional_store :
  load_data fs_fractional_store = Raise TypeError.
Proof. vm_compute. reflexivity. Qed.

Example load_data_huge_store :
  load_data fs_huge_store = Raise TypeError.
Proof. vm_compute. reflexivity. Qed.

Example load_data_infinite_promotion :
  load_data fs_infinite_promotion = Raise ValueError.
Proof. vm_compute. reflexivity. Qed.

(** An infinite sales value stays infinite, and a promotion count of 2^63
    comes out of the cast to int64 as -2^63. *)
Example load_data_huge_promotion :
  show ["sales"; "onpromotion"] (load_data fs_huge_promotion)
  = Ok [ (0, [VInf false; VInt (-9223372036854775808)]);
         (1, [VInt 1; VInt 0]) ]%Z.
Proof. vm_compute. reflexivity. Qed.

(** The dates of a column are read with one format, that of the first of
    them: a timestamp written without a fraction of a second after one
    written with a fraction is missing once loaded, and without a week
    column the loader stops on it. *)
Example load_data_two_formats :
  load_data fs_two_formats = Raise ValueError ∧
  show ["date"] (load_data fs_two_formats_calendar)
  = Ok [ (0, [VDate 1672617599500000000]); (1, [NA]) ]%Z.
Proof. split; vm_compute; reflexivity. Qed.

(** C8. A sale stamped 2023-01-01 23:59:59.5 is loaded with that
    timestamp, which lies on 2023-01-01, and the view for the range from
    2023-01-01 to 2023-01-01 does not contain it: the upper bound of the
    filter is 23:59:59.000 of the last day. *)
Theorem date_filter_drops_last_second :
  show ["date"] (load_data fs_late)
  = Ok [ (0, [VDate 1672617599500000000]);
         (1, [VDate 1672617600000000000]) ]%Z ∧
  day_of 1672617599500000000 = jan1 ∧
  end_date jan1 = 1672617599000000000%Z ∧
  show ["date"] (df_f fs_late jan1 jan1) = Ok [].
Proof. do 3 (split; [vm_compute; reflexivity |]). vm_compute. reflexivity. Qed.




End examples.

(** ** The theorems at work on the scenarios *)

Section witnesses.
Import RefPandas Scenario.

Lemma load_fs : load_data fs = Ok unified.
Proof. apply is_ok_table. vm_compute. reflexivity. Defined.

Lemma build_unified : build_transactions_table unified = Ok transactions.
Proof. apply is_ok_table. vm_compute. reflexivity. Defined.


Lemma one_row_per_date_and_store_witness :
  build_transactions_table unified = Ok transactions ∧
  row_at unified 1 ∈ rows unified ∧
  ∃ d s, d = cell_at (row_at unified 1).2 "date" ∧
         s = cell_at (row_at unified 1).2 "store_nbr" ∧
         length (filter (λ x, has_key d s x) (rows transactions)) = 1%nat.
Proof.
  assert (row_at unified 1 ∈ rows unified) as Hin
    by (apply row_at_elem; vm_compute; reflexivity).
  split; [exact build_unified |]. split; [exact Hin |].
  pose proof (one_row_per_date_and_store unified transactions build_unified
                (row_at unified 1) Hin) as Hone.
  cbv zeta in Hone. destruct Hone as (first & r & _ & Hone & _).
  eexists _, _. split; [reflexivity |]. split; [reflexivity |].
  rewrite Hone. reflexivity.
Defined.






Lemma read_csv_from_zip_outcomes_witness :
  read_csv_from_zip fs "parte_3.zip" = Stop MissingFile ∧
  ∃ best, best_csv [ {| filename := "notes.txt"; file_size := 900; payload := "" |};
                     {| filename := "sample.CSV"; file_size := 4; payload := "a,b" |};
                     {| filename := "data.csv"; file_size := 7; payload := part_2 |};
                     {| filename := "copy.csv"; file_size := 7; payload := part_1 |} ]
          = Some best ∧ filename best = "data.csv".
Proof.
  split.
  - apply (proj1 (read_csv_from_zip_outcomes fs "parte_3.zip")).
    vm_compute. reflexivity.
  - eexists. split; vm_compute; reflexivity.
Defined.

Lemma base_tables_are_not_mutated_witness :
  one_object !! 1%positive = Some one_table ∧
  (Store.build_transactions_table 1%positive one_object).2 !! 1%positive
  = Some one_table ∧
  (Store.date_filter 1%positive 0 0 one_object).2 !! 1%positive
  = Some one_table.
Proof.
  assert (one_object !! 1%positive = Some one_table) as Hobj by reflexivity.
  destruct (base_tables_are_not_mutated one_object 1%positive one_table Hobj)
    as (Hbuild & _ & Hfilter & _).
  split; [exact Hobj |].
  split; [exact (Hbuild _ _ Hobj) | exact (Hfilter _ _ _ _ Hobj)].
Defined.

End witnesses.
(** * Further properties of the pipeline *)

(** ** The domain of [build_transactions_table] *)

Section tx_domain.
Context `{Pandas}.

Lemma build_transactions_table_cases df_ :
  (Forall (λ c, c ∈ columns df_) ["date"; "store_nbr"; "transactions"] ∧
   ∃ tx, build_transactions_table df_ = Ok tx) ∨
  (∃ c, build_transactions_table df_ = Raise (KeyError c) ∧
        c ∈ ["date"; "store_nbr"; "transactions"] ∧ c ∉ columns df_).
Proof.
  assert (∀ c, c ∈ ["date"; "store_nbr"; "state"; "city"; "transactions"; "year"] →
            (c ∈ tx_columns (columns df_) ↔ c ∈ columns df_)) as Htc.
  { intros c Hc. rewrite elem_of_tx_columns. tauto. }
  assert (getitem_cols df_ (tx_columns (columns df_))
          = Ok {| columns := tx_columns (columns df_);
                  rows := (λ lr, (lr.1, filter (λ kv, kv.1 ∈ tx_columns (columns df_)) lr.2))
                            <$> rows df_ |}) as Hsel.
  { unfold getitem_cols.
    destruct (filter (λ c, c ∉ columns df_) (tx_columns (columns df_)))
      as [|c l] eqn:Ef; [done |].
    assert (c ∈ filter (λ c, c ∉ columns df_) (tx_columns (columns df_))) as Hc
      by (rewrite Ef; apply elem_of_cons; by left).
    apply list_elem_of_filter in Hc as [Hn Hc].
    apply elem_of_tx_columns in Hc as [Hc _]. done. }
  unfold build_transactions_table. fold (tx_columns (columns df_)).
  rewrite Hsel. clear Hsel.
  change (Ok ?a ≫= ?f) with (f a). cbv beta.
  unfold drop_duplicates. cbn [columns rows].
  rewrite !filter_cons, filter_nil.
  destruct (decide ("date" ∈ columns df_)) as [Hd|Hd].
  2: { rewrite decide_True by (rewrite Htc; [done | rewrite !elem_of_cons; tauto]).
       right. exists "date". split; [done |].
       split; [rewrite !elem_of_cons; tauto | done]. }
  rewrite decide_False
    by (rewrite Htc; [tauto | rewrite !elem_of_cons; tauto]).
  destruct (decide ("store_nbr" ∈ columns df_)) as [Hs|Hs].
  2: { rewrite decide_True by (rewrite Htc; [done | rewrite !elem_of_cons; tauto]).
       right. exists "store_nbr". split; [done |].
       split; [rewrite !elem_of_cons; tauto | done]. }
  rewrite decide_False
    by (rewrite Htc; [tauto | rewrite !elem_of_cons; tauto]).
  unfold getitem_mask. cbn [rows columns].
  rewrite length_fmap, length_duplicated, !length_fmap, Nat.eqb_refl.
  change (Ok ?a ≫= ?f) with (f a). cbv beta.
  unfold getitem. cbn [columns rows].
  destruct (decide ("transactions" ∈ columns df_)) as [Ht|Ht].
  - rewrite bool_decide_eq_true_2
      by (rewrite Htc; [done | rewrite !elem_of_cons; tauto]).
    change (Ok ?a ≫= ?f) with (f a). cbv beta.
    unfold setitem. cbn [rows columns].
    rewrite !length_fmap, Nat.eqb_refl.
    left. split; [by repeat constructor | eauto].
  - rewrite bool_decide_eq_false_2
      by (rewrite Htc; [done | rewrite !elem_of_cons; tauto]).
    right. exists "transactions". split; [done |].
    split; [rewrite !elem_of_cons; tauto | done].
Qed.

(** X2. [build_transactions_table] returns a table exactly when its input
    has the columns [date], [store_nbr] and [transactions]; [state], [city]
    and [year] are optional.  When it does not return, it raises a
    [KeyError] that names one of the three columns, missing from the
    input; it never fails in another way. *)
Theorem build_transactions_table_returns_iff df_ :
  ((∃ tx, build_transactions_table df_ = Ok tx) ↔
   Forall (λ c, c ∈ columns df_) ["date"; "store_nbr"; "transactions"]) ∧
  ((∃ tx, build_transactions_table df_ = Ok tx) ∨
   ∃ c, build_transactions_table df_ = Raise (KeyError c) ∧
        c ∈ ["date"; "store_nbr"; "transactions"] ∧ c ∉ columns df_).
Proof.
  destruct (build_transactions_table_cases df_)
    as [[Hcols [tx Htx]] | (c & Hc & Hin & Hnot)].
  - split; [split; [done | eauto] | eauto].
  - split; [| eauto]. split.
    + intros [tx Htx]. congruence.
    + intros Hall. rewrite Forall_forall in Hall. by destruct Hnot; apply Hall.
Qed.

End tx_domain.

(** ** The date filter and the transactions table *)

Lemma in_range_key day0 day1 (a b : Z * row) :
  key_eqb (tx_key a) (tx_key b) = true →
  in_range day0 day1 (cell_at a.2 "date") = in_range day0 day1 (cell_at b.2 "date").
Proof.
  intros Hk. pose proof (in_scope_row_key day0 day1 None a b Hk) as E.
  unfold in_scope_row in E. by rewrite !andb_true_r in E.
Qed.

Section commute.
Context `{Pandas}.

Lemma date_filter_build df tx view day0 day1 :
  build_transactions_table df = Ok tx →
  date_filter df day0 day1 = Ok view →
  ∃ tx_view, date_filter tx day0 day1 = Ok tx_view ∧
             build_transactions_table view = Ok tx_view.
Proof.
  intros Htx Hview.
  destruct (build_transactions_table_rows _ _ Htx) as (Hcols & Hc & Hrows).
  apply date_filter_Ok in Hview as (Hdate & Hts & ->).
  set (view := {| columns := columns df;
                  rows := filter (λ lr : Z * row,
                            in_range day0 day1 (cell_at lr.2 "date")) (rows df) |}).
  destruct (build_transactions_table_cases view)
    as [[_ [txv Htxv]] | (c & _ & Hin & Hnot)].
  2: { exfalso. apply Hnot. rewrite Forall_forall in Hcols. by apply Hcols. }
  exists txv. split; [| done].
  destruct (build_transactions_table_rows _ _ Htxv) as (_ & Hc' & Hrows').
  apply date_filter_Ok.
  assert (∀ lr : Z * row,
            cell_at (tx_row (columns df) lr.2) "date" = cell_at lr.2 "date") as Hd.
  { intros lr. apply tx_row_cell_at; [| done]. by apply date_in_tx_columns. }
  split; [rewrite Hc; by apply date_in_tx_columns |].
  split.
  - rewrite Hrows. apply Forall_fmap, Forall_forall. intros lr Hlr. simpl.
    rewrite Hd. rewrite Forall_forall in Hts. apply Hts.
    eapply elem_of_sublist; [done | apply keep_first_sublist].
  - destruct txv as [cs rs]. simpl in Hc', Hrows'. subst cs rs.
    f_equal; [by rewrite Hc |].
    rewrite Hrows. cbn [rows columns].
    rewrite filter_fmap_bool. f_equal.
    rewrite <- (filter_keep_first_comm tx_key
                  (λ lr, in_range day0 day1 (cell_at lr.2 "date")) [] []).
    + apply list_filter_iff. intros lr. simpl. by rewrite Hd.
    + intros x y. apply in_range_key.
    + done.
Qed.


(** X3. Filtering by date and building the transactions table commute:
    when both succeed on the unified table, the filtered transactions
    table [df_tx_f] is the table that [build_transactions_table] builds
    from the filtered sales table [df_f]. *)
Theorem date_filter_of_transactions df df_tx df_f df_tx_f day0 day1 :
  build_transactions_table df = Ok df_tx →
  date_filter df day0 day1 = Ok df_f →
  date_filter df_tx day0 day1 = Ok df_tx_f →
  build_transactions_table df_f = Ok df_tx_f.
Proof.
  intros Htx Hf Htxf.
  destruct (date_filter_build _ _ _ _ _ Htx Hf) as (tx_view & E & Hb).
  congruence.
Qed.

End commute.

(** ** The date filter, day by day *)

Lemma on_days_in_range day0 day1 c :
  whole_second c → in_range day0 day1 c = on_days day0 day1 c.
Proof.
  destruct c as [| | | |ns|]; try done. intros Hw.
  specialize (Hw ns eq_refl).
  apply eq_true_iff_eq. split.
  - intros [??]%in_range_sound. simpl.
    apply andb_true_iff. split; by apply Z.leb_le.
  - simpl. intros [?%Z.leb_le ?%Z.leb_le]%andb_true_iff.
    by apply in_range_whole_seconds.
Qed.

Lemma date_filter_whole_days df day0 day1 view :
  date_filter df day0 day1 = Ok view →
  Forall (λ lr : Z * row, whole_second (cell_at lr.2 "date")) (rows df) →
  rows view = filter (λ lr, on_days day0 day1 (cell_at lr.2 "date")) (rows df).
Proof.
  intros (_ & _ & ->)%date_filter_Ok Hw. simpl.
  induction (rows df) as [|lr l IH]; [done |].
  apply Forall_cons in Hw as [Hlr Hw].
  rewrite !filter_cons, (on_days_in_range _ _ _ Hlr), (IH Hw). done.
Qed.

(** X4. On a table whose timestamps carry no fraction of a second, the
    date filter keeps exactly the rows dated on one of the chosen days,
    the last day included up to its last second, in their order and with
    their columns; rows without a date are dropped. *)
Theorem date_filter_keeps_whole_days df day0 day1 view :
  date_filter df day0 day1 = Ok view →
  Forall (λ lr : Z * row, whole_second (cell_at lr.2 "date")) (rows df) →
  columns view = columns df ∧
  rows view = filter (λ lr, on_days day0 day1 (cell_at lr.2 "date")) (rows df).
Proof.
  intros Hview Hw. split; [| by apply date_filter_whole_days].
  by apply date_filter_Ok in Hview as (_ & _ & ->).
Qed.

(** ** The entry read from an archive *)

Section first_of_largest.
Context `{Pandas}.

Lemma max_key_unique {A} (key : A → N) (first : A) (rest : list A) pre a post :
  first :: rest = pre ++ a :: post →
  (∀ x, x ∈ pre → (key x < key a)%N) →
  (∀ x, x ∈ post → (key x ≤ key a)%N) →
  max_key key first rest = a.
Proof.
  revert first pre post. induction rest as [|x rest IH]; intros first pre post E Hpre Hpost.
  - destruct pre as [|p [|??]]; simplify_eq/=. done.
  - unfold max_key. simpl foldl.
    fold (max_key key (if (key first <? key x)%N then x else first) rest).
    destruct pre as [|p pre]; simplify_eq/=.
    + assert (key x ≤ key a)%N as Hx by (apply Hpost, elem_of_cons; by left).
      destruct (N.ltb_spec (key a) (key x)); [lia |].
      apply (IH a [] rest); [done | by intros ? ?%elem_of_nil |].
      intros y Hy. apply Hpost, elem_of_cons. by right.
    + destruct pre as [|p' pre]; simplify_eq/=.
      * assert (key p < key a)%N as Hp by (apply Hpre, elem_of_cons; by left).
        rewrite (proj2 (N.ltb_lt _ _) Hp).
        apply (IH a [] post); [done | by intros ? ?%elem_of_nil | done].
      * destruct (N.ltb_spec (key p) (key p')).
        -- apply (IH p' (p' :: pre) post); [done | | done].
           intros y Hy. apply Hpre. apply elem_of_cons. by right.
        -- apply (IH p (p :: pre) post); [done | | done].
           intros y [->|Hy]%elem_of_cons.
           ++ apply Hpre, elem_of_cons. by left.
           ++ apply Hpre. rewrite !elem_of_cons. tauto.
Qed.

(** X5. An entry of the archive whose name ends in ".csv", that is not
    empty, that is strictly larger than every ".csv" entry before it and
    at least as large as every ".csv" entry after it, is the entry that
    [read_csv_from_zip] reads: of several largest entries, it reads the
    first in the archive. *)
Theorem read_csv_from_zip_first_of_largest fs zip_path pre best post :
  fs !! zip_path = Some (ZipArchive (pre ++ best :: post)) →
  is_csv best = true → file_size best ≠ 0%N →
  (∀ i, i ∈ pre → is_csv i = true → (file_size i < file_size best)%N) →
  (∀ i, i ∈ post → is_csv i = true → (file_size i ≤ file_size best)%N) →
  read_csv_from_zip fs zip_path =
    match read_csv (payload best) with
    | Some df => Ok df
    | None => Raise ParserError
    end.
Proof.
  intros Hfs Hcsv Hsize Hpre Hpost.
  unfold read_csv_from_zip. rewrite Hfs.
  rewrite filter_app, filter_cons, decide_True by (by rewrite Hcsv).
  destruct (filter (λ i, is_csv i) pre ++ best :: filter (λ i, is_csv i) post)
    as [|i infos] eqn:E; [by destruct (filter _ pre) |].
  cbv zeta.
  rewrite (max_key_unique file_size i infos _ best _ (eq_sym E)).
  - by destruct (N.eqb_spec (file_size best) 0).
  - intros x [Hx ?]%list_elem_of_filter. apply Hpre; [done |].
    by apply Is_true_eq_true.
  - intros x [Hx ?]%list_elem_of_filter. apply Hpost; [done |].
    by apply Is_true_eq_true.
Qed.

End first_of_largest.

(** ** Calendar fields *)

Lemma forall_from_sound n z0 p z :
  forall_from n z0 p = true → (z0 ≤ z < z0 + Z.of_nat n)%Z → p z = true.
Proof.
  revert z0. induction n as [|n IH]; intros z0; simpl; [lia |].
  intros [Hp Hn]%andb_true_iff Hz.
  destruct (decide (z = z0)) as [->|]; [done |].
  apply (IH (z0 + 1)%Z); [done | lia].
Qed.

Lemma day_of_year_check :
  forall_from (Z.to_nat 146097) 0 day_of_year_ok = true.
Proof. vm_cast_no_check (eq_refl true). Qed.

Lemma month_of_range ns : (1 ≤ month_of ns ≤ 12)%Z.
Proof.
  unfold month_of, civil_from_days. cbn [fst snd].
  generalize (day_of ns). intros d.
  set (z := (d + 719468)%Z).
  set (era := (z / 146097)%Z).
  set (doe := (z - era * 146097)%Z).
  assert (0 ≤ doe < 146097)%Z as Hdoe.
  { unfold doe, era. pose proof (Z.mod_pos_bound z 146097 ltac:(lia)) as Hm.
    rewrite Z.mod_eq in Hm by lia. lia. }
  pose proof (forall_from_sound _ _ _ doe day_of_year_check) as Hok.
  rewrite Z2Nat.id in Hok by lia. specialize (Hok ltac:(lia)).
  unfold day_of_year_ok in Hok. cbv zeta in Hok.
  clearbody doe. clear z era d.
  set (yoe := ((doe - doe / 1460 + doe / 36524 - doe / 146096) / 365)%Z) in *.
  set (doy := (doe - (365 * yoe + yoe / 4 - yoe / 100))%Z) in *.
  apply andb_true_iff in Hok as [Hlo%Z.leb_le Hhi%Z.leb_le].
  clearbody doy.
  set (mp := ((5 * doy + 2) / 153)%Z).
  assert (0 ≤ mp ≤ 11)%Z as Hmp.
  { unfold mp. split.
    - apply Z.div_pos; lia.
    - assert ((5 * doy + 2) / 153 < 12)%Z; [| lia].
      apply Z.div_lt_upper_bound; lia. }
  clearbody mp.
  destruct (Z.ltb_spec mp 10); lia.
Qed.

Lemma iso_weeks_in_year_range y : (52 ≤ iso_weeks_in_year y ≤ 53)%Z.
Proof. unfold iso_weeks_in_year. destruct (_ || _); lia. Qed.

Lemma iso_week_of_range ns : (1 ≤ iso_week_of ns ≤ 53)%Z.
Proof.
  unfold iso_week_of. cbv zeta.
  pose proof (iso_weeks_in_year_range (year_of ns - 1)).
  pose proof (iso_weeks_in_year_range (year_of ns)).
  destruct (Z.ltb_spec ((day_of ns - days_from_civil (year_of ns) 1 1 + 1
                         - ((day_of ns + 3) mod 7 + 1) + 10) / 7) 1); [lia |].
  destruct (Z.ltb_spec (iso_weeks_in_year (year_of ns))
              ((day_of ns - days_from_civil (year_of ns) 1 1 + 1
                - ((day_of ns + 3) mod 7 + 1) + 10) / 7)); lia.
Qed.

Section schema.
Context `{Pandas}.

Lemma derive_calendar cols c field (r r' : row) :
  c ∉ cols →
  derive cols c (dt_cell field) r = Ok r' →
  is_timestamp (cell_at r "date") →
  r' !! c = Some (calendar_cell field (cell_at r "date")).
Proof.
  intros Hc Hd Hts.
  pose proof (derive_lookup_eq _ _ _ _ _ Hd) as E.
  rewrite bool_decide_eq_false_2 in E by done.
  destruct E as (v & Hv & ->). f_equal.
  destruct (cell_at r "date"); simpl in *; try done; congruence.
Qed.

(** The calendar cells of a normalised row. *)
Lemma normalise_row_calendar cols fmt (r0 r : row) :
  normalise_row cols fmt r0 = Ok r →
  ("year" ∉ cols →
     r !! "year" = Some (calendar_cell year_of (cell_at r "date"))) ∧
  ("month" ∉ cols →
     r !! "month" = Some (calendar_cell month_of (cell_at r "date"))) ∧
  ("week" ∉ cols →
     ∃ ns, r !! "date" = Some (VDate ns) ∧
           r !! "week" = Some (VInt (iso_week_of ns))).
Proof.
  intros Hn.
  pose proof (normalise_row_cells _ _ _ _ Hn) as (Hdate & _).
  unfold normalise_row in Hn.
  apply bind_Ok in Hn as (v2 & Hv2 & Hn).
  apply bind_Ok in Hn as (v4 & Hv4 & Hn).
  apply bind_Ok in Hn as (r5 & Hr5 & Hn).
  apply bind_Ok in Hn as (r6 & Hr6 & Hr7).
  set (r4 := <["onpromotion" := v4]> _) in Hr5.
  assert (cell_at r4 "date" = to_datetime_cell fmt (cell_at r0 "date")) as Hd4.
  { unfold r4. by rewrite !cell_at_insert_ne, cell_at_insert_eq by done. }
  assert (cell_at r5 "date" = to_datetime_cell fmt (cell_at r0 "date")) as Hd5
    by (by rewrite (derive_date _ "year" _ _ _ ltac:(done) Hr5)).
  assert (cell_at r6 "date" = to_datetime_cell fmt (cell_at r0 "date")) as Hd6
    by (by rewrite (derive_date _ "month" _ _ _ ltac:(done) Hr6)).
  rewrite (cell_at_lookup _ _ _ Hdate).
  split; [| split].
  - intros Hc.
    rewrite (derive_lookup_ne _ _ _ _ _ "year" Hr7) by done.
    rewrite (derive_lookup_ne _ _ _ _ _ "year" Hr6) by done.
    rewrite <- Hd4. apply (derive_calendar _ _ _ _ _ Hc Hr5).
    rewrite Hd4. apply is_timestamp_to_datetime_cell.
  - intros Hc.
    rewrite (derive_lookup_ne _ _ _ _ _ "month" Hr7) by done.
    rewrite <- Hd5. apply (derive_calendar _ _ _ _ _ Hc Hr6).
    rewrite Hd5. apply is_timestamp_to_datetime_cell.
  - intros Hc.
    pose proof (derive_lookup_eq _ _ _ _ _ Hr7) as E.
    rewrite bool_decide_eq_false_2 in E by done.
    destruct E as (v & Hv & ->). rewrite Hd6 in Hv. rewrite Hdate.
    destruct (to_datetime_cell fmt (cell_at r0 "date")) as [| | | |ns|]; try done.
    exists ns. split; [done |]. simpl in Hv. injection Hv as <-.
    rewrite wrap_int64_in_range; [done |].
    pose proof (iso_week_of_range ns). unfold in_int64, int64_min, int64_max.
    apply andb_true_iff. rewrite !Z.leb_le.
    assert (0 < 2 ^ 63)%Z by (by apply Z.pow_pos_nonneg). lia.
Qed.

(** X6. The table [load_data] returns has the columns of the two archives
    without [Unnamed: 0], together with [year], [month] and [week]; it has
    the four columns the loader coerces; and in every row the date is a
    timestamp or missing and the store number an integer or missing. *)
Theorem load_data_schema fs df :
  load_data fs = Ok df →
  ∃ df1 df2,
    read_csv_from_zip fs "parte_1.zip" = Ok df1 ∧
    read_csv_from_zip fs "parte_2.zip" = Ok df2 ∧
    (∀ c, c ∈ columns df ↔
          c ≠ "Unnamed: 0" ∧ (c ∈ columns df1 ∨ c ∈ columns df2) ∨
          c ∈ ["year"; "month"; "week"]) ∧
    Forall (λ c, c ∈ columns df) ["date"; "store_nbr"; "sales"; "onpromotion"] ∧
    Forall (λ lr : Z * row,
              (lr.2 !! "date" = Some NA ∨ ∃ ns, lr.2 !! "date" = Some (VDate ns)) ∧
              (lr.2 !! "store_nbr" = Some NA ∨
               ∃ z, lr.2 !! "store_nbr" = Some (VInt z)))
           (rows df).
Proof.
  intros (df1 & df2 & R1 & R2 & (Hcols & Hc & Hrows))%load_data_rows.
  exists df1, df2. split; [done |]. split; [done |].
  assert (∀ c, c ∈ columns df ↔
            c ∈ columns (unified_base df1 df2) ∨ c ∈ ["year"; "month"; "week"])
    as Hin.
  { intros c. rewrite Hc, elem_of_app. unfold derived_columns.
    rewrite list_elem_of_filter.
    destruct (decide (c ∈ columns (unified_base df1 df2))); tauto. }
  split; [| split].
  - intros c. rewrite Hin, unified_base_columns. done.
  - eapply Forall_impl; [exact Hcols |]. intros c Hcb. apply Hin. by left.
  - apply Forall_forall. intros lr [j Hj]%list_elem_of_lookup.
    destruct (Forall2_lookup_r _ _ _ _ _ Hrows Hj) as (lr0 & _ & _ & Hn).
    apply normalise_row_cells in Hn as (Hd & (v & Hv & Hs) & _).
    split.
    + rewrite Hd.
      pose proof (is_timestamp_to_datetime_cell
                    (date_format (unified_base df1 df2))
                    (cell_at lr0.2 "date")) as Hts.
      destruct (to_datetime_cell _ _); try done; eauto.
    + rewrite Hs.
      destruct (astype_Int64_cell_Ok _ _ Hv) as [->|[z ->]]; eauto.
Qed.

(** X7. The calendar columns that [load_data] derives agree with the
    date of their row: [year] and [month] hold the year and the month of
    the date, the month between 1 and 12, and are missing where the date
    is; [week] holds the ISO week of the date, between 1 and 53, and a
    table whose week is derived has no row without a date. *)
Theorem load_data_calendar fs df :
  load_data fs = Ok df →
  ∃ df1 df2,
    read_csv_from_zip fs "parte_1.zip" = Ok df1 ∧
    read_csv_from_zip fs "parte_2.zip" = Ok df2 ∧
    ∀ lr, lr ∈ rows df →
      ("year" ∉ columns (unified_base df1 df2) →
         lr.2 !! "year" = Some (calendar_cell year_of (cell_at lr.2 "date"))) ∧
      ("month" ∉ columns (unified_base df1 df2) →
         lr.2 !! "month" = Some (calendar_cell month_of (cell_at lr.2 "date")) ∧
         ∀ m, lr.2 !! "month" = Some (VInt m) → (1 ≤ m ≤ 12)%Z) ∧
      ("week" ∉ columns (unified_base df1 df2) →
         ∃ ns, lr.2 !! "date" = Some (VDate ns) ∧
               lr.2 !! "week" = Some (VInt (iso_week_of ns)) ∧
               (1 ≤ iso_week_of ns ≤ 53)%Z).
Proof.
  intros (df1 & df2 & R1 & R2 & (Hcols & Hc & Hrows))%load_data_rows.
  exists df1, df2. split; [done |]. split; [done |].
  intros lr [j Hj]%list_elem_of_lookup.
  destruct (Forall2_lookup_r _ _ _ _ _ Hrows Hj) as (lr0 & _ & _ & Hn).
  apply normalise_row_calendar in Hn as (Hy & Hm & Hw).
  split; [done |]. split.
  - intros Hc'. split; [by apply Hm |].
    intros m. rewrite (Hm Hc').
    destruct (cell_at lr.2 "date"); simpl; try done.
    intros [= <-]. apply month_of_range.
  - intros Hc'. destruct (Hw Hc') as (ns & Hd & Hwk).
    exists ns. split; [done |]. split; [done |]. apply iso_week_of_range.
Qed.

End schema.

(** ** Distinct values *)

Lemma keep_first_fresh {A} (key : A → list cell) seen (l : list A) x :
  x ∈ keep_first key seen l → existsb (key_eqb (key x)) seen = false.
Proof.
  revert seen. induction l as [|y l IH]; intros seen; simpl.
  { by intros ?%elem_of_nil. }
  destruct (existsb (key_eqb (key y)) seen) eqn:Ey; [by apply IH |].
  intros [->|Hx]%elem_of_cons; [done |].
  specialize (IH _ Hx). simpl in IH. by apply orb_false_iff in IH as [_ ?].
Qed.

Lemma keep_first_pairwise {A} (key : A → list cell) seen (l : list A) i j a b :
  keep_first key seen l !! i = Some a →
  keep_first key seen l !! j = Some b →
  key_eqb (key a) (key b) = true → i = j.
Proof.
  revert seen i j. induction l as [|y l IH]; intros seen i j; simpl; [done |].
  destruct (existsb (key_eqb (key y)) seen) eqn:Ey; [by apply IH |].
  destruct i as [|i], j as [|j]; simpl; [done | | |].
  - intros [= ->] Hb Hk.
    apply list_elem_of_lookup_2, keep_first_fresh in Hb. simpl in Hb.
    rewrite (key_eqb_sym _ _ Hk) in Hb. done.
  - intros Ha [= ->] Hk.
    apply list_elem_of_lookup_2, keep_first_fresh in Ha. simpl in Ha.
    rewrite Hk in Ha. done.
  - intros Ha Hb Hk. f_equal. by eapply IH.
Qed.

Lemma keep_first_covers {A} (key : A → list cell) seen (l : list A) x :
  x ∈ l → existsb (key_eqb (key x)) seen = false →
  ∃ y, y ∈ keep_first key seen l ∧ key_eqb (key y) (key x) = true.
Proof.
  revert seen. induction l as [|z l IH]; intros seen; [by intros ?%elem_of_nil |].
  intros Hx Hs. simpl.
  destruct (existsb (key_eqb (key z)) seen) eqn:Ez.
  - apply elem_of_cons in Hx as [->|Hx]; [congruence |]. by apply IH.
  - destruct (key_eqb (key z) (key x)) eqn:Ezx.
    + exists z. split; [apply elem_of_cons; by left | done].
    + apply elem_of_cons in Hx as [->|Hx]; [by rewrite key_eqb_refl in Ezx |].
      destruct (IH (key z :: seen) Hx) as (y & Hy & Hk).
      { simpl. rewrite Hs, orb_false_r.
        destruct (key_eqb (key x) (key z)) eqn:E; [| done].
        by rewrite (key_eqb_sym _ _ E) in Ezx. }
      exists y. split; [apply elem_of_cons; by right | done].
Qed.

Lemma key_eqb_singleton a b : key_eqb [a] [b] = cell_eqb a b.
Proof. unfold key_eqb. simpl. by rewrite andb_true_r. Qed.

Lemma notna_cell_eqb a b : cell_eqb a b = true → notna a = notna b.
Proof. by destruct a, b. Qed.

Lemma elem_of_dropna s c : c ∈ dropna s ↔ c ∈ s ∧ c ≠ NA.
Proof.
  unfold dropna. rewrite list_elem_of_filter.
  destruct c; simpl; split; intros [? ?]; split; done.
Qed.

(** Dropping the missing values before or after removing the duplicates
    gives the same values. *)
Lemma dropna_unique s : dropna (unique s) = unique (dropna s).
Proof.
  unfold dropna, unique.
  apply (filter_keep_first_comm (λ c, [c]) notna [] []); [| done].
  intros x y. rewrite key_eqb_singleton. apply notna_cell_eqb.
Qed.

Lemma elem_of_unique s c : c ∈ unique s → c ∈ s.
Proof. intros Hc. eapply elem_of_sublist; [done | apply keep_first_sublist]. Qed.

Lemma unique_covers s c : c ∈ s → ∃ c', c' ∈ unique s ∧ cell_eqb c' c = true.
Proof.
  intros Hc. destruct (keep_first_covers (λ c, [c]) [] s c Hc eq_refl)
    as (y & Hy & Hk).
  exists y. by rewrite key_eqb_singleton in Hk.
Qed.

Lemma unique_pairwise s i j a b :
  unique s !! i = Some a → unique s !! j = Some b →
  cell_eqb a b = true → i = j.
Proof.
  intros Ha Hb Hk. eapply (keep_first_pairwise (λ c, [c])); [done | done |].
  by rewrite key_eqb_singleton.
Qed.

(** ** Sums *)

Lemma sum_by_Qeq {A} (w w' : A → Q) l :
  (∀ x, x ∈ l → (w x == w' x)%Q) → (sum_by w l == sum_by w' l)%Q.
Proof.
  induction l as [|x l IH]; intros E; simpl; [reflexivity |].
  rewrite (E x) by (apply elem_of_cons; by left).
  rewrite IH; [reflexivity |]. intros y Hy. apply E, elem_of_cons. by right.
Qed.

Lemma sum_by_app {A} (w : A → Q) l1 l2 :
  (sum_by w (l1 ++ l2) == sum_by w l1 + sum_by w l2)%Q.
Proof. induction l1 as [|x l1 IH]; simpl; [lra |]. rewrite IH. lra. Qed.

Lemma sum_by_Permutation {A} (w : A → Q) l1 l2 :
  l1 ≡ₚ l2 → (sum_by w l1 == sum_by w l2)%Q.
Proof.
  induction 1 as [|x l1 l2 _ IH|x y l|l1 l2 l3 _ IH1 _ IH2]; simpl.
  - reflexivity.
  - by rewrite IH.
  - lra.
  - by rewrite IH1.
Qed.

Lemma sum_by_filter {A} (w : A → Q) (p : A → bool) l :
  (sum_by w (filter (λ x, p x) l)
   == sum_by (λ x, if p x then w x else 0) l)%Q.
Proof.
  induction l as [|x l IH]; [reflexivity |].
  rewrite filter_cons. simpl. destruct (p x) eqn:E.
  - rewrite decide_True by done. simpl. by rewrite IH.
  - rewrite decide_False by (by intros []). rewrite IH. lra.
Qed.

Lemma sum_by_plus {A} (w1 w2 : A → Q) l :
  (sum_by (λ x, w1 x + w2 x) l == sum_by w1 l + sum_by w2 l)%Q.
Proof. induction l as [|x l IH]; simpl; [lra |]. rewrite IH. lra. Qed.

Lemma sum_by_zero {A} (l : list A) : (sum_by (λ _, 0) l == 0)%Q.
Proof. induction l as [|x l IH]; simpl; [reflexivity |]. rewrite IH. lra. Qed.

(** Exchanging two sums. *)
Lemma sum_by_exchange {A B} (w : A → B → Q) (la : list A) (lb : list B) :
  (sum_by (λ a, sum_by (w a) lb) la
   == sum_by (λ b, sum_by (λ a, w a b) la) lb)%Q.
Proof.
  induction la as [|a la IH]; simpl.
  - by rewrite sum_by_zero.
  - rewrite IH, <- sum_by_plus. reflexivity.
Qed.

Lemma sum_by_indicator {A} (p : A → bool) (v : Q) (l : list A) :
  (sum_by (λ a, if p a then v else 0) l
   == v * inject_Z (Z.of_nat (length (filter (λ a, p a) l))))%Q.
Proof.
  induction l as [|a l IH].
  - rewrite filter_nil. change (inject_Z (Z.of_nat (length []))) with 0%Q.
    simpl. lra.
  - simpl. rewrite filter_cons, IH. destruct (p a) eqn:E.
    + rewrite decide_True by done. cbn [length].
      rewrite Nat2Z.inj_succ, <- Z.add_1_r, inject_Z_plus. change (inject_Z 1) with 1%Q. lra.
    + rewrite decide_False by (by intros []). lra.
Qed.

(** ** Groups *)

Lemma group_keys_Permutation s : group_keys s ≡ₚ unique (dropna s).
Proof. apply merge_sort_Permutation. Qed.

Lemma elem_of_group_keys s g :
  g ∈ group_keys s → g ∈ s ∧ g ≠ NA.
Proof.
  rewrite group_keys_Permutation. intros Hg%elem_of_unique.
  by apply elem_of_dropna.
Qed.

(** Each value that is not missing has exactly one key. *)
Lemma count_group_keys s c :
  c ∈ s →
  length (filter (λ g, cell_eqb c g) (group_keys s))
  = if notna c then 1%nat else 0%nat.
Proof.
  intros Hc. rewrite group_keys_Permutation.
  pose proof (filter_keep_first (λ c, [c]) [] (dropna s) [c]) as E.
  simpl existsb in E. cbv iota in E. fold (unique (dropna s)) in E.
  assert (filter (λ g, cell_eqb c g) (unique (dropna s))
          = filter (λ x, key_eqb [c] [x]) (unique (dropna s))) as ->.
  { apply list_filter_iff. intros x. by rewrite key_eqb_singleton. }
  rewrite E. destruct (notna c) eqn:En.
  - assert (c ∈ filter (λ x, key_eqb [c] [x]) (dropna s)) as Hin.
    { apply list_elem_of_filter. split.
      - rewrite key_eqb_singleton. apply Is_true_eq_left, cell_eqb_refl.
      - apply elem_of_dropna. split; [done |]. by intros ->. }
    by destruct (filter _ (dropna s)); [apply elem_of_nil in Hin |].
  - destruct (filter (λ x, key_eqb [c] [x]) (dropna s)) as [|x l] eqn:Ef; [done |].
    assert (x ∈ filter (λ x, key_eqb [c] [x]) (dropna s)) as Hin
      by (rewrite Ef; apply elem_of_cons; by left).
    apply list_elem_of_filter in Hin as [Hk [_ Hx]%elem_of_dropna].
    rewrite key_eqb_singleton in Hk. apply Is_true_eq_true in Hk.
    apply notna_cell_eqb in Hk. rewrite En in Hk. by destruct x.
Qed.

Lemma groupby_Ok df key col agg s :
  groupby df key col agg = Ok s ↔
  key ∈ columns df ∧ col ∈ columns df ∧
  s = (λ g, (g, agg (group_values df key col g)))
        <$> group_keys ((λ lr, cell_at lr.2 key) <$> rows df).
Proof.
  unfold groupby, getitem.
  destruct (decide (key ∈ columns df)) as [Hk|Hk].
  2: { rewrite (bool_decide_eq_false_2 (key ∈ columns df)) by done.
       cbn [mbind result_bind]. split; [done | tauto]. }
  rewrite (bool_decide_eq_true_2 (key ∈ columns df)) by done.
  cbn [mbind result_bind].
  destruct (decide (col ∈ columns df)) as [Hc|Hc].
  2: { rewrite bool_decide_eq_false_2 by done.
       cbn [mbind result_bind]. split; [done | tauto]. }
  rewrite bool_decide_eq_true_2 by done. cbn [mbind result_bind].
  split; [by intros [= <-] | by intros (_ & _ & ->)].
Qed.

(** The exact sums of the groups share out the exact sum over the rows
    that have a key. *)
Lemma group_sums_total df key col :
  (sum_by (λ g, series_sum (group_values df key col g))
          (group_keys ((λ lr, cell_at lr.2 key) <$> rows df))
   == series_sum ((λ lr, cell_at lr.2 col)
                    <$> filter (λ lr, notna (cell_at lr.2 key)) (rows df)))%Q.
Proof.
  set (k := (λ lr : Z * row, cell_at lr.2 key) <$> rows df).
  rewrite !series_sum_fmap.
  set (w := value_of ∘ (λ lr : Z * row, cell_at lr.2 col)).
  etrans.
  { apply (sum_by_Qeq _ (λ g, sum_by (λ lr : Z * row,
              if cell_eqb (cell_at lr.2 key) g then w lr else 0%Q) (rows df))).
    intros g _. unfold group_values. rewrite series_sum_fmap.
    apply (sum_by_filter w (λ lr, cell_eqb (cell_at lr.2 key) g)). }
  rewrite (sum_by_exchange
             (λ g (lr : Z * row), if cell_eqb (cell_at lr.2 key) g then w lr else 0%Q)).
  rewrite sum_by_filter.
  apply sum_by_Qeq. intros lr Hlr.
  rewrite (sum_by_indicator (λ g, cell_eqb (cell_at lr.2 key) g)).
  rewrite count_group_keys
    by (unfold k; apply list_elem_of_fmap; by exists lr).
  destruct (notna _); simpl.
  - change (inject_Z (Z.of_nat 1)) with 1%Q. lra.
  - change (inject_Z (Z.of_nat 0)) with 0%Q. lra.
Qed.

(** The magnitudes of some of the values add up to no more than those of
    all of them. *)
Lemma sum_abs_fmap {A} (f : A → cell) l :
  sum_abs (f <$> l) = sum_by (λ x, Qabs (value_of (f x))) l.
Proof.
  unfold sum_abs. induction l as [|x l IH]; [done |]. csimpl. by rewrite IH.
Qed.

Lemma sum_abs_filter {A} (f : A → cell) (p : A → bool) l :
  (sum_abs (f <$> filter (λ x, p x) l) <= sum_abs (f <$> l))%Q.
Proof.
  rewrite !sum_abs_fmap.
  induction l as [|x l IH]; [apply Qle_refl |].
  rewrite filter_cons. pose proof (Qabs_nonneg (value_of (f x))).
  destruct (decide (p x)); simpl; lra.
Qed.

Section exact_sums.
Context `{Numpy}.
Hypothesis Hexact : sums_exact.

(** The sum of a group of whole numbers is exact when the magnitudes of
    the column add up to at most 2^53. *)
Lemma group_sum_exact df key col g :
  Forall (λ lr : Z * row, whole (cell_at lr.2 col)) (rows df) →
  (sum_abs ((λ lr, cell_at lr.2 col) <$> rows df) <= 2 ^ 53)%Q →
  (float_sum (group_values df key col g)
   == series_sum (group_values df key col g))%Q.
Proof.
  intros Hwhole Hbound. apply Hexact.
  - unfold group_values. apply Forall_fmap, Forall_forall.
    intros lr [_ Hlr]%list_elem_of_filter.
    rewrite Forall_forall in Hwhole. by apply Hwhole.
  - eapply Qle_trans; [| exact Hbound]. unfold group_values.
    apply (sum_abs_filter (λ lr : Z * row, cell_at lr.2 col)
             (λ lr, cell_eqb (cell_at lr.2 key) g)).
Qed.

(** The sums of the groups share out the sum over the rows that have a
    key. *)
Lemma groupby_sum_total df key col s :
  groupby df key col sum_ = Ok s →
  Forall (λ lr : Z * row, whole (cell_at lr.2 col)) (rows df) →
  (sum_abs ((λ lr, cell_at lr.2 col) <$> rows df) <= 2 ^ 53)%Q →
  (series_sum s.*2 ==
   series_sum ((λ lr, cell_at lr.2 col)
                 <$> filter (λ lr, notna (cell_at lr.2 key)) (rows df)))%Q.
Proof.
  intros (_ & _ & ->)%groupby_Ok Hwhole Hbound.
  rewrite <- group_sums_total.
  rewrite <- list_fmap_compose, series_sum_fmap.
  apply sum_by_Qeq. intros g _. unfold compose. cbn [snd].
  unfold sum_, value_of. cbn [cell_number default].
  by apply group_sum_exact.
Qed.

End exact_sums.

(** ** Sorting by value *)

Lemma omap_lookup_seq {A} (l : list A) :
  omap (λ i, l !! i) (seq 0 (length l)) = l.
Proof.
  induction l as [|x l IH]; [done |].
  cbn [length seq]. cbn [omap list_omap lookup list_lookup].
  rewrite <- fmap_S_seq. f_equal.
  rewrite <- IH at 2. clear IH.
  generalize (seq 0 (length l)). intros js.
  induction js as [|j js IH]; [done |]. csimpl. by rewrite IH.
Qed.

Lemma omap_lookup_Permutation {A} (l : list A) (js : list nat) :
  js ≡ₚ seq 0 (length l) → omap (λ i, l !! i) js ≡ₚ l.
Proof. intros ->. by rewrite omap_lookup_seq. Qed.

Lemma kind_eqb_eq a b : kind_eqb a b = true ↔ a = b.
Proof. destruct a, b; simpl; split; congruence. Qed.

Lemma comparable_spec s :
  comparable s = true ↔
  ∀ a b, a ∈ s → b ∈ s → notna a = true → notna b = true →
         kind_of a = kind_of b.
Proof.
  unfold comparable.
  assert (∀ k, k ∈ omap kind_of s ↔ ∃ a, a ∈ s ∧ kind_of a = Some k) as Hin.
  { intros k. rewrite list_elem_of_omap. done. }
  destruct (omap kind_of s) as [|k ks] eqn:E.
  - split; [| done]. intros _ a b Ha Hb Hna Hnb.
    destruct (kind_of a) as [ka|] eqn:Eka; [| by destruct a].
    assert (ka ∈ []) as Hn by (apply Hin; eauto). by apply elem_of_nil in Hn.
  - rewrite forallb_forall. split.
    + intros Hall a b Ha Hb Hna Hnb.
      assert (∀ c, c ∈ s → notna c = true → kind_of c = Some k) as Hk.
      { intros c Hc Hnc.
        destruct (kind_of c) as [kc|] eqn:Ekc; [| by destruct c].
        assert (kc ∈ k :: ks) as [->|Hkc]%elem_of_cons by (apply Hin; eauto);
          [done |].
        apply list_elem_of_In, Hall, kind_eqb_eq in Hkc. by subst. }
      by rewrite (Hk a), (Hk b).
    + intros Hall k' Hk'%list_elem_of_In. apply kind_eqb_eq.
      assert (k ∈ k :: ks) as (a & Ha & Eka)%Hin by (apply elem_of_cons; by left).
      assert (k' ∈ k :: ks) as (b & Hb & Ekb)%Hin by (apply elem_of_cons; by right).
      assert (kind_of a = kind_of b) as Eab
        by (apply Hall; [done | done | by destruct a | by destruct b]).
      congruence.
Qed.

Lemma comparable_subseteq s s' :
  s' ⊆ s → comparable s = true → comparable s' = true.
Proof.
  rewrite !comparable_spec. intros Hsub Hs a b Ha Hb. apply Hs; by apply Hsub.
Qed.

Lemma comparable_timestamps s : Forall is_timestamp s → comparable s = true.
Proof.
  intros Hs. apply comparable_spec. intros a b Ha Hb Hna Hnb.
  rewrite Forall_forall in Hs.
  pose proof (Hs a Ha). pose proof (Hs b Hb). by destruct a, b.
Qed.

Section sorting_facts.
Context `{Numpy}.
Hypothesis Hsorts : argsort_sorts.

Lemma notna_split {A} (items : list (cell * A)) :
  filter (λ p, notna p.1) items ++ filter (λ p, negb (notna p.1)) items
  ≡ₚ items.
Proof.
  rewrite <- (filter_app_complement (λ p : cell * A, notna p.1) items) at 3.
  f_equiv. apply reflexive_eq, list_filter_iff. intros p. apply negb_True.
Qed.

Lemma omap_lookup_fst {A} (l : list (cell * A)) js :
  (omap (λ i, l !! i) js).*1 = omap (λ i, l.*1 !! i) js.
Proof.
  induction js as [|j js IH]; [done |]. csimpl.
  rewrite list_lookup_fmap. destruct (l !! j); csimpl; by rewrite IH.
Qed.

Lemma sorted_part_spec {A} ascending (items : list (cell * A)) :
  comparable items.*1 = true →
  sorted_part ascending items ≡ₚ filter (λ p, notna p.1) items ∧
  Sorted (λ a b, if ascending then cell_leb a b else cell_leb b a)
         (sorted_part ascending items).*1.
Proof.
  intros Hcmp. unfold sorted_part. cbv zeta.
  set (nn := filter (λ p : cell * A, notna p.1) items).
  set (nn' := if ascending then nn else reverse nn).
  assert (nn' ≡ₚ nn) as Hnn
    by (unfold nn'; destruct ascending; [done | apply reverse_Permutation]).
  assert (Forall (λ c, notna c) nn'.*1) as Hna.
  { apply Forall_fmap, Forall_forall. intros p Hp. rewrite Hnn in Hp.
    by apply list_elem_of_filter in Hp as [? _]. }
  assert (comparable nn'.*1 = true) as Hc.
  { eapply comparable_subseteq; [| exact Hcmp].
    intros c (p & -> & Hp)%list_elem_of_fmap. rewrite Hnn in Hp.
    apply list_elem_of_filter in Hp as [_ Hp].
    apply list_elem_of_fmap. eauto. }
  destruct (Hsorts nn'.*1 Hc Hna) as [Hperm Hsorted].
  rewrite length_fmap in Hperm.
  pose proof (omap_lookup_Permutation nn' _ Hperm) as Hp.
  rewrite <- omap_lookup_fst in Hsorted.
  destruct ascending.
  - split; [by rewrite Hp | done].
  - split; [by rewrite reverse_Permutation, Hp |].
    rewrite fmap_reverse. by apply Sorted_reverse in Hsorted.
Qed.

Lemma nargsort_Permutation {A} ascending (items : list (cell * A)) :
  comparable items.*1 = true → nargsort ascending items ≡ₚ items.
Proof.
  intros Hcmp. unfold nargsort.
  destruct (sorted_part_spec ascending items Hcmp) as [Hp _].
  etrans; [| apply notna_split]. by apply Permutation_app_tail.
Qed.

End sorting_facts.

Lemma Sorted_fmap_inv {A B} (f : A → B) (R : relation B) (l : list A) :
  Sorted R (f <$> l) → Sorted (λ x y, R (f x) (f y)) l.
Proof.
  induction l as [|x l IH]; [constructor |]. csimpl.
  intros [Hs Hh]%Sorted_inv. constructor; [by apply IH |].
  destruct l; [constructor |]. apply HdRel_inv in Hh. by constructor.
Qed.

Lemma Sorted_impl_elem {A} (R S : relation A) (l : list A) :
  (∀ x y, x ∈ l → y ∈ l → R x y → S x y) → Sorted R l → Sorted S l.
Proof.
  induction l as [|x l IH]; intros HRS; [constructor |].
  intros [Hs Hh]%Sorted_inv. constructor.
  - apply IH; [| done]. intros a b Ha Hb. apply HRS; apply elem_of_cons; by right.
  - destruct l as [|y l]; [constructor |]. apply HdRel_inv in Hh. constructor.
    apply HRS; [| | done].
    + apply elem_of_cons. by left.
    + apply elem_of_cons. right. apply elem_of_cons. by left.
Qed.

Lemma filter_none {A} (P : A → Prop) `{∀ x, Decision (P x)} (l : list A) :
  Forall (λ x, ¬ P x) l → filter P l = [].
Proof.
  induction 1 as [|x l Hx _ IH]; [done |].
  by rewrite filter_cons, decide_False.
Qed.

Lemma filter_all {A} (P : A → Prop) `{∀ x, Decision (P x)} (l : list A) :
  Forall P l → filter P l = l.
Proof.
  induction 1 as [|x l Hx _ IH]; [done |].
  by rewrite filter_cons, decide_True, IH.
Qed.

Lemma Forall_fmap_ex {A B} (f : A → B) (l : list B) :
  Forall (λ y, ∃ x, y = f x) l → ∃ l', l = f <$> l'.
Proof.
  induction 1 as [|y l [x ->] _ [l' ->]]; [by exists [] |].
  by exists (x :: l').
Qed.

Section sorted_tables.
Context `{Numpy}.
Hypothesis Hsorts : argsort_sorts.

(** Sorting items that all have a value. *)
Lemma nargsort_notna {A} ascending (items : list (cell * A)) :
  comparable items.*1 = true →
  Forall (λ p, notna p.1) items →
  nargsort ascending items ≡ₚ items ∧
  Sorted (λ a b, if ascending then cell_leb a.1 b.1 else cell_leb b.1 a.1)
         (nargsort ascending items).
Proof.
  intros Hcmp Hna.
  split; [by apply nargsort_Permutation |].
  unfold nargsort.
  rewrite (filter_none (λ p : cell * A, negb (notna p.1))), app_nil_r.
  2: { eapply Forall_impl; [exact Hna |]. intros p Hp. cbv beta in Hp. destruct (notna p.1); [by intros [] | by destruct Hp]. }
  destruct (sorted_part_spec Hsorts ascending items Hcmp) as [_ Hs].
  apply Sorted_fmap_inv in Hs. by destruct ascending.
Qed.


(** Ordering by a timestamp, earliest first. *)
Lemma nargsort_timeline {A} (items : list (Z * A)) :
  nargsort true (prod_map VDate id <$> items) ≡ₚ prod_map VDate id <$> items ∧
  ∃ sorted, nargsort true (prod_map VDate id <$> items)
              = prod_map VDate id <$> sorted ∧
            sorted ≡ₚ items ∧
            StronglySorted (λ a b, (a.1 ≤ b.1)%Z) sorted.
Proof.
  set (its := prod_map VDate id <$> items).
  assert (comparable its.*1 = true) as Hcmp.
  { apply comparable_timestamps, Forall_fmap, Forall_fmap, Forall_forall.
    by intros [??] _. }
  assert (Forall (λ p : cell * A, notna p.1) its) as Hna
    by (apply Forall_fmap, Forall_forall; by intros [??] _).
  destruct (nargsort_notna true its Hcmp Hna) as [Hp Hs].
  split; [done |].
  assert (∃ sorted, nargsort true its = prod_map VDate id <$> sorted)
    as [sorted E].
  { assert (Forall (λ p, ∃ q, p = prod_map VDate id q) (nargsort true its)) as Hall.
    { apply Forall_forall. intros p Hpin. rewrite Hp in Hpin.
      apply list_elem_of_fmap in Hpin as (q & -> & _). eauto. }
    by apply Forall_fmap_ex. }
  exists sorted. split; [done |].
  rewrite E in Hp, Hs.
  split.
  { pose (g := λ p : cell * A,
       match p.1 with VDate ns => Some (ns, p.2) | _ => None end).
    assert (∀ l : list (Z * A), omap g (prod_map VDate id <$> l) = l) as Hg.
    { intros l. induction l as [|[a x] l IH]; [done |]. csimpl. by rewrite IH. }
    rewrite <- (Hg sorted), <- (Hg items). by apply omap_Permutation. }
  apply Sorted_StronglySorted; [intros a b c ? ?; by eapply Z.le_trans |].
  apply Sorted_fmap_inv in Hs.
  eapply Sorted_impl_elem; [| exact Hs].
  intros [a x] [b y] _ _. simpl. by intros ?%Is_true_eq_true%Z.leb_le.
Qed.

End sorted_tables.

(** ** Tables of totals *)

Lemma rows_reset_index key col (s : Series) :
  rows (reset_index key col s)
  = imap (λ i kv, (Z.of_nat i, entry_row key col kv)) s.
Proof. done. Qed.

Lemma entry_row_key key col kv : cell_at (entry_row key col kv) key = kv.1.
Proof. unfold entry_row. apply cell_at_insert_eq. Qed.

Lemma entry_row_col key col kv :
  key ≠ col → cell_at (entry_row key col kv) col = kv.2.
Proof.
  intros Hne. unfold entry_row.
  by rewrite cell_at_insert_ne, cell_at_insert_eq.
Qed.

Lemma fmap_imap_labelled {A B C} (f : A → B) (g : Z * B → C) (h : A → C)
    (l : list A) :
  (∀ i x, g (i, f x) = h x) →
  g <$> imap (λ i x, (Z.of_nat i, f x)) l = h <$> l.
Proof.
  intros E. apply list_eq. intros i.
  rewrite !list_lookup_fmap, list_lookup_imap.
  destruct (l !! i); simpl; [| done]. by rewrite E.
Qed.

Lemma getitem_reset_index_key key col (s : Series) :
  getitem (reset_index key col s) key = Ok s.*1.
Proof.
  unfold getitem. cbn [columns].
  rewrite bool_decide_eq_true_2 by (apply elem_of_cons; by left).
  f_equal. rewrite rows_reset_index. apply fmap_imap_labelled.
  intros i kv. apply entry_row_key.
Qed.

Lemma getitem_reset_index_col key col (s : Series) :
  key ≠ col → getitem (reset_index key col s) col = Ok s.*2.
Proof.
  intros Hne. unfold getitem. cbn [columns].
  rewrite bool_decide_eq_true_2
    by (apply elem_of_cons; right; apply elem_of_cons; by left).
  f_equal. rewrite rows_reset_index. apply fmap_imap_labelled.
  intros i kv. by apply entry_row_col.
Qed.

Lemma series_sum_Permutation s s' :
  s ≡ₚ s' → (series_sum s == series_sum s')%Q.
Proof.
  intros Hp. rewrite <- (list_fmap_id s), <- (list_fmap_id s').
  rewrite !series_sum_fmap. by apply sum_by_Permutation.
Qed.

Lemma snd_zip_fmap {A B} (f : A → B) (l : list A) : (zip (f <$> l) l).*2 = l.
Proof. rewrite snd_zip; [done |]. by rewrite length_fmap. Qed.

Section sorted_frames.
Context `{Numpy}.
Hypothesis Hsorts : argsort_sorts.

Lemma sort_values_Ok df by_ ascending df' :
  sort_values df by_ ascending = Ok df' →
  by_ ∈ columns df ∧
  columns df' = columns df ∧
  rows df' = (nargsort ascending
                (zip ((λ lr, cell_at lr.2 by_) <$> rows df) (rows df))).*2 ∧
  rows df' ≡ₚ rows df.
Proof.
  unfold sort_values. intros Hs.
  apply bind_Ok in Hs as (s & [Hby ->]%getitem_Ok & Hs).
  destruct (comparable _) eqn:Hcmp; [| done]. injection Hs as <-.
  split; [done |]. split; [done |]. split; [done |]. cbn [rows].
  etrans; [apply fmap_Permutation, (nargsort_Permutation Hsorts) |].
  - by rewrite fst_zip by (by rewrite length_fmap).
  - by rewrite snd_zip_fmap.
Qed.

Lemma getitem_Permutation df df' c s :
  rows df' ≡ₚ rows df → c ∈ columns df' →
  getitem df c = Ok s → ∃ s', getitem df' c = Ok s' ∧ s' ≡ₚ s.
Proof.
  intros Hp Hc [_ ->]%getitem_Ok. unfold getitem.
  rewrite bool_decide_eq_true_2 by done. eexists. split; [done |].
  by apply fmap_Permutation.
Qed.

End sorted_frames.

(** ** The range proposed by the date widget *)

Lemma dropna_timestamps s :
  Forall is_timestamp s →
  ∃ ts, dropna s = VDate <$> ts ∧ ∀ ns, ns ∈ ts ↔ VDate ns ∈ s.
Proof.
  induction 1 as [|c s Hc _ (ts & E & Hin)].
  { exists []. split; [done |]. intros ns. by rewrite !elem_of_nil. }
  unfold dropna in *. rewrite filter_cons.
  destruct c as [| | | |ns|]; try done; simpl.
  - exists ts. split; [done |]. intros ns. rewrite Hin, elem_of_cons.
    split; [tauto | by intros [? | ?]].
  - exists (ns :: ts). split; [by rewrite E |]. intros ns'.
    rewrite !elem_of_cons, Hin. split; intros [? | ?]; try tauto.
    + left. congruence.
    + left. congruence.
Qed.

Lemma foldl_earliest x ts :
  ∃ m, foldl (λ best c, if negb (cell_leb best c) then c else best)
             (VDate x) (VDate <$> ts) = VDate m ∧
       m ∈ x :: ts ∧ ∀ ns, ns ∈ x :: ts → (m ≤ ns)%Z.
Proof.
  revert x. induction ts as [|t ts IH]; intros x.
  { exists x. split; [done |]. split; [by apply elem_of_cons; left |].
    intros ns [->|[]%elem_of_nil]%elem_of_cons. lia. }
  csimpl. destruct (Z.leb_spec x t); cbn [negb].
  - destruct (IH x) as (m & -> & Hm & Hle). exists m. split; [done |]. split.
    + apply elem_of_cons in Hm as [->|Hm]; rewrite !elem_of_cons; tauto.
    + intros ns [->|[->|Hns]%elem_of_cons]%elem_of_cons.
      * apply Hle, elem_of_cons. by left.
      * assert (m ≤ x)%Z by (apply Hle, elem_of_cons; by left). lia.
      * apply Hle, elem_of_cons. by right.
  - destruct (IH t) as (m & -> & Hm & Hle). exists m. split; [done |]. split.
    + apply elem_of_cons. by right.
    + intros ns [->|Hns]%elem_of_cons; [| by apply Hle].
      assert (m ≤ t)%Z by (apply Hle, elem_of_cons; by left). lia.
Qed.

Lemma foldl_latest x ts :
  ∃ m, foldl (λ best c, if negb (cell_leb c best) then c else best)
             (VDate x) (VDate <$> ts) = VDate m ∧
       m ∈ x :: ts ∧ ∀ ns, ns ∈ x :: ts → (ns ≤ m)%Z.
Proof.
  revert x. induction ts as [|t ts IH]; intros x.
  { exists x. split; [done |]. split; [by apply elem_of_cons; left |].
    intros ns [->|[]%elem_of_nil]%elem_of_cons. lia. }
  csimpl. destruct (Z.leb_spec t x); cbn [negb].
  - destruct (IH x) as (m & -> & Hm & Hle). exists m. split; [done |]. split.
    + apply elem_of_cons in Hm as [->|Hm]; rewrite !elem_of_cons; tauto.
    + intros ns [->|[->|Hns]%elem_of_cons]%elem_of_cons.
      * apply Hle, elem_of_cons. by left.
      * assert (x ≤ m)%Z by (apply Hle, elem_of_cons; by left). lia.
      * apply Hle, elem_of_cons. by right.
  - destruct (IH t) as (m & -> & Hm & Hle). exists m. split; [done |]. split.
    + apply elem_of_cons. by right.
    + intros ns [->|Hns]%elem_of_cons; [| by apply Hle].
      assert (t ≤ m)%Z by (apply Hle, elem_of_cons; by left). lia.
Qed.

Lemma series_min_timestamps s lo :
  Forall is_timestamp s → series_min s = Ok (VDate lo) →
  VDate lo ∈ s ∧ ∀ ns, VDate ns ∈ s → (lo ≤ ns)%Z.
Proof.
  intros Hs. unfold series_min, extremum.
  rewrite (comparable_timestamps s Hs).
  destruct (dropna_timestamps s Hs) as (ts & -> & Hin).
  destruct ts as [|x ts]; [done |]. csimpl.
  destruct (foldl_earliest x ts) as (m & -> & Hm & Hle).
  intros [= <-]. split; [by apply Hin |].
  intros ns Hns%Hin. by apply Hle.
Qed.

Lemma series_max_timestamps s hi :
  Forall is_timestamp s → series_max s = Ok (VDate hi) →
  VDate hi ∈ s ∧ ∀ ns, VDate ns ∈ s → (ns ≤ hi)%Z.
Proof.
  intros Hs. unfold series_max, extremum.
  rewrite (comparable_timestamps s Hs).
  destruct (dropna_timestamps s Hs) as (ts & -> & Hin).
  destruct ts as [|x ts]; [done |]. csimpl.
  destruct (foldl_latest x ts) as (m & -> & Hm & Hle).
  intros [= <-]. split; [by apply Hin |].
  intros ns Hns%Hin. by apply Hle.
Qed.

Lemma day_of_mono a b : (a ≤ b)%Z → (day_of a ≤ day_of b)%Z.
Proof.
  intros Hab. unfold day_of, Timedelta_days. apply Z.div_le_mono; lia.
Qed.

Lemma filter_bool_ext {A} (p q : A → bool) (l : list A) :
  (∀ x, x ∈ l → p x = q x) →
  filter (λ x, p x) l = filter (λ x, q x) l.
Proof.
  induction l as [|x l IH]; intros E; [done |].
  rewrite !filter_cons, (E x) by (apply elem_of_cons; by left).
  rewrite IH; [done |]. intros y Hy. apply E, elem_of_cons. by right.
Qed.

(** X8. With the range that the date widget proposes, from the day of the
    earliest timestamp to the day of the latest, the date filter keeps
    every row that has a date and only those, provided no timestamp
    carries a fraction of a second. *)
Theorem default_range_keeps_dated_rows df day0 day1 view :
  Sidebar.value df = Ok (Some day0, Some day1) →
  date_filter df day0 day1 = Ok view →
  Forall (λ lr : Z * row, whole_second (cell_at lr.2 "date")) (rows df) →
  (day0 ≤ day1)%Z ∧
  rows view = filter (λ lr, notna (cell_at lr.2 "date")) (rows df).
Proof.
  intros Hv Hview Hw.
  pose proof Hview as (Hd & Hts & _)%date_filter_Ok.
  rewrite (date_filter_whole_days _ _ _ _ Hview Hw).
  unfold Sidebar.value, Sidebar.min_date, Sidebar.max_date in Hv.
  apply bind_Ok in Hv as (lo & Hlo & Hv).
  apply bind_Ok in Hv as (hi & Hhi & Hv).
  apply bind_Ok in Hv as (d0 & Hd0 & Hv).
  apply bind_Ok in Hv as (d1 & Hd1 & Hv).
  injection Hv as -> ->.
  apply bind_Ok in Hlo as (s & Hs & Hlo).
  apply bind_Ok in Hhi as (s' & Hs' & Hhi).
  assert (s' = s) as -> by congruence.
  apply getitem_Ok in Hs as [_ ->].
  destruct lo as [| | | |lo|]; try done. injection Hd0 as <-.
  destruct hi as [| | | |hi|]; try done. injection Hd1 as <-.
  assert (Forall is_timestamp ((λ lr : Z * row, cell_at lr.2 "date") <$> rows df))
    as Hts' by (by apply Forall_fmap).
  destruct (series_min_timestamps _ _ Hts' Hlo) as [Hlo_in Hlo_le].
  destruct (series_max_timestamps _ _ Hts' Hhi) as [_ Hhi_le].
  split; [apply day_of_mono, (Hhi_le lo Hlo_in) |].
  apply filter_bool_ext. intros lr Hlr.
  assert (cell_at lr.2 "date"
          ∈ (λ lr : Z * row, cell_at lr.2 "date") <$> rows df) as Hin
    by (apply list_elem_of_fmap; eauto).
  rewrite Forall_forall in Hts. specialize (Hts lr Hlr).
  destruct (cell_at lr.2 "date") as [| | | |ns|]; try done. simpl.
  apply andb_true_iff. split; apply Z.leb_le, day_of_mono; auto.
Qed.

(** ** The stores of the selector *)

Lemma traverse_int_VInt zs : traverse int_ (VInt <$> zs) = Ok zs.
Proof. induction zs as [|z zs IH]; [done |]. csimpl. by rewrite IH. Qed.

Lemma Forall_is_Int64 (l : list cell) :
  Forall (λ c, is_Int64 c ∧ c ≠ NA) l → ∃ zs, l = VInt <$> zs.
Proof.
  induction 1 as [|c l [Hc Hn] _ [zs ->]]; [by exists [] |].
  destruct c as [|z| | | |]; try done. by exists (z :: zs).
Qed.

Lemma getitem_mask_fmap df (p : Z * row → bool) :
  getitem_mask df (p <$> rows df)
  = Ok {| columns := columns df; rows := filter (λ lr, p lr) (rows df) |}.
Proof.
  unfold getitem_mask. rewrite length_fmap, Nat.eqb_refl.
  by rewrite mask_select_fmap.
Qed.

Lemma stores_Int64 df_f :
  "store_nbr" ∈ columns df_f →
  Forall (λ lr : Z * row, is_Int64 (cell_at lr.2 "store_nbr")) (rows df_f) →
  ∃ l, Tab2.stores df_f = Ok l ∧
       StronglySorted Z.lt l ∧
       (∀ z, z ∈ l ↔ ∃ lr, lr ∈ rows df_f ∧ cell_at lr.2 "store_nbr" = VInt z) ∧
       Tab1.total_stores df_f = Ok (length l).
Proof.
  intros Hcol Hint.
  unfold Tab2.stores, Tab1.total_stores, getitem.
  rewrite bool_decide_eq_true_2 by done. cbn [mbind result_bind].
  set (s := (λ lr : Z * row, cell_at lr.2 "store_nbr") <$> rows df_f).
  assert (∀ c, c ∈ unique (dropna s) → is_Int64 c ∧ c ≠ NA) as HU.
  { intros c [Hc Hn]%elem_of_unique%elem_of_dropna. split; [| done].
    apply list_elem_of_fmap in Hc as (lr & -> & Hlr).
    rewrite Forall_forall in Hint. by apply Hint. }
  destruct (Forall_is_Int64 (unique (dropna s))) as [zs Hzs];
    [by apply Forall_forall |].
  rewrite Hzs, traverse_int_VInt. cbn [mbind result_bind].
  exists (merge_sort Z.le zs). split; [done |].
  assert (NoDup zs) as Hnd.
  { apply NoDup_alt. intros i j z Hi Hj.
    apply (unique_pairwise (dropna s) i j (VInt z) (VInt z)).
    - by rewrite Hzs, list_lookup_fmap, Hi.
    - by rewrite Hzs, list_lookup_fmap, Hj.
    - apply cell_eqb_refl. }
  split; [| split].
  - assert (StronglySorted Z.le (merge_sort Z.le zs)) as Hs
      by (apply StronglySorted_merge_sort; apply _).
    assert (NoDup (merge_sort Z.le zs)) as Hnd'
      by (by rewrite merge_sort_Permutation).
    revert Hs Hnd'. generalize (merge_sort Z.le zs). intros l.
    induction 1 as [|x l Hl IH Hx]; [constructor |].
    intros [Hin Hnd']%NoDup_cons; constructor.
    + by apply IH.
    + rewrite Forall_forall in Hx. apply Forall_forall. intros y Hy.
      specialize (Hx y Hy). assert (x ≠ y) by (by intros ->). lia.
  - intros z. rewrite merge_sort_Permutation. split.
    + intros Hz. assert (VInt z ∈ unique (dropna s)) as Hin
        by (rewrite Hzs; apply list_elem_of_fmap; eauto).
      apply elem_of_unique, elem_of_dropna in Hin as [Hin _].
      apply list_elem_of_fmap in Hin as (lr & E & Hlr). eauto.
    + intros (lr & Hlr & E).
      destruct (unique_covers (dropna s) (VInt z)) as (c' & Hc' & Hk).
      { apply elem_of_dropna. split; [| done].
        apply list_elem_of_fmap. exists lr. by rewrite E. }
      destruct (HU c' Hc') as [Hi Hn].
      destruct c' as [|z'| | | |]; try done. simpl in Hk.
      apply Qeq_bool_iff in Hk. unfold Qeq in Hk. simpl in Hk.
      assert (z' = z) as -> by lia.
      rewrite Hzs in Hc'. apply list_elem_of_fmap in Hc' as (z'' & [= ->] & ?).
      done.
  - unfold nunique. rewrite dropna_unique, Hzs, length_fmap.
    by rewrite (Permutation_length (merge_sort_Permutation Z.le zs)).
Qed.

Section script_tables.
Context `{Pandas}.

Lemma load_data_store_Int64 fs df :
  load_data fs = Ok df →
  "store_nbr" ∈ columns df ∧
  Forall (λ lr : Z * row, is_Int64 (cell_at lr.2 "store_nbr")) (rows df).
Proof.
  intros (df1 & df2 & R1 & R2 & (Hcols & Hc & Hrows))%load_data_rows.
  split.
  - rewrite Hc. apply elem_of_app. left.
    apply Forall_cons in Hcols as [_ Hcols].
    by apply Forall_cons in Hcols as [? _].
  - apply Forall_forall. intros lr [j Hj]%list_elem_of_lookup.
    destruct (Forall2_lookup_r _ _ _ _ _ Hrows Hj) as (lr0 & _ & _ & Hn).
    apply normalise_row_cells in Hn as (_ & (v & Hv & Hs) & _).
    rewrite (cell_at_lookup _ _ _ Hs).
    by destruct (astype_Int64_cell_Ok _ _ Hv) as [->|[z ->]].
Qed.

Lemma df_f_store_Int64 fs df df_f day0 day1 :
  load_data fs = Ok df → date_filter df day0 day1 = Ok df_f →
  "store_nbr" ∈ columns df_f ∧
  Forall (λ lr : Z * row, is_Int64 (cell_at lr.2 "store_nbr")) (rows df_f).
Proof.
  intros [Hc Hint]%load_data_store_Int64 (_ & _ & ->)%date_filter_Ok.
  split; [done |]. simpl. rewrite Forall_forall in Hint.
  apply Forall_forall. intros lr [_ Hlr]%list_elem_of_filter. by apply Hint.
Qed.

(** X9. On the filtered table of the dashboard, the list of stores
    offered by the selector is computed without error, is strictly
    increasing, holds exactly the store numbers that occur in the filtered
    rows, and has as many entries as the figure [total_stores] shows. *)
Theorem stores_of_the_selector fs df df_f day0 day1 :
  load_data fs = Ok df →
  date_filter df day0 day1 = Ok df_f →
  ∃ stores,
    Tab2.stores df_f = Ok stores ∧
    StronglySorted Z.lt stores ∧
    (∀ z, z ∈ stores ↔
          ∃ lr, lr ∈ rows df_f ∧ cell_at lr.2 "store_nbr" = VInt z) ∧
    Tab1.total_stores df_f = Ok (length stores).
Proof.
  intros Hload Hf.
  destruct (df_f_store_Int64 _ _ _ _ _ Hload Hf) as [Hc Hint].
  by apply stores_Int64.
Qed.

Lemma cell_eqb_VInt c z : is_Int64 c → cell_eqb c (VInt z) = true ↔ c = VInt z.
Proof.
  destruct c as [|z'| | | |]; try done. intros _. simpl.
  rewrite Qeq_bool_iff. unfold Qeq. simpl. split; [intros ?; f_equal; lia |].
  by intros [= ->].
Qed.

(** X10. For a store taken from the list of the selector, the table
    [dstore] is computed without error, is not empty, and holds exactly
    the filtered rows of that store. *)
Theorem dstore_of_a_listed_store fs df df_f day0 day1 stores store_sel :
  load_data fs = Ok df →
  date_filter df day0 day1 = Ok df_f →
  Tab2.stores df_f = Ok stores →
  store_sel ∈ stores →
  ∃ dstore,
    Tab2.dstore df_f store_sel = Ok dstore ∧
    rows dstore ≠ [] ∧
    ∀ lr, lr ∈ rows dstore ↔
          lr ∈ rows df_f ∧ cell_at lr.2 "store_nbr" = VInt store_sel.
Proof.
  intros Hload Hf Hst Hsel.
  destruct (df_f_store_Int64 _ _ _ _ _ Hload Hf) as [Hc Hint].
  destruct (stores_Int64 df_f Hc Hint) as (l & Hl & _ & Hin & _).
  assert (l = stores) as -> by congruence.
  unfold Tab2.dstore, select_store, getitem.
  rewrite bool_decide_eq_true_2 by done. cbn [mbind result_bind].
  rewrite <- list_fmap_compose.
  rewrite (getitem_mask_fmap df_f
             ((λ c, cell_eqb c (VInt store_sel))
              ∘ (λ lr : Z * row, cell_at lr.2 "store_nbr"))).
  cbn [mbind result_bind]. eexists. split; [reflexivity |].
  unfold copy. cbn [rows].
  assert (∀ lr, lr ∈ filter (λ lr : Z * row,
                   cell_eqb (cell_at lr.2 "store_nbr") (VInt store_sel))
                   (rows df_f)
                ↔ lr ∈ rows df_f ∧ cell_at lr.2 "store_nbr" = VInt store_sel)
    as Hrows.
  { intros lr. rewrite list_elem_of_filter. rewrite Forall_forall in Hint.
    split.
    - intros [Hk%Is_true_eq_true Hlr]. split; [done |].
      by apply cell_eqb_VInt; [apply Hint |].
    - intros [Hlr E]. split; [| done]. apply Is_true_eq_left.
      by apply cell_eqb_VInt; [apply Hint |]. }
  split; [| done].
  apply Hin in Hsel as (lr & Hlr & E).
  intros Hnil. assert (lr ∈ @nil (Z * row)) as Hno
    by (rewrite <- Hnil; by apply Hrows).
  by apply elem_of_nil in Hno.
Qed.

End script_tables.
(** ** Totals by group *)

Lemma group_keys_pairwise s i j a b :
  group_keys s !! i = Some a → group_keys s !! j = Some b →
  cell_eqb a b = true → i = j.
Proof.
  intros Ha Hb Hk.
  assert (length (filter (λ g, cell_eqb a g) (group_keys s)) = 1%nat) as Hone.
  { rewrite count_group_keys.
    - apply list_elem_of_lookup_2, elem_of_group_keys in Ha as [_ Hn].
      by destruct a.
    - by apply list_elem_of_lookup_2, elem_of_group_keys in Ha as [? _]. }
  revert i j Ha Hb Hone. generalize (group_keys s). intros l.
  induction l as [|x l IH]; intros i j Ha Hb; [done |].
  rewrite filter_cons.
  destruct i as [|i], j as [|j]; simpl in Ha, Hb; simplify_eq; [done | | |].
  - rewrite decide_True by (rewrite cell_eqb_refl ; done). simpl. intros [= Hl].
    apply list_elem_of_lookup_2 in Hb.
    assert (b ∈ filter (λ g, cell_eqb a g) l) as Hin
      by (apply list_elem_of_filter; split; [by rewrite Hk | done]).
    destruct (filter _ l); [by apply elem_of_nil in Hin | done].
  - rewrite decide_True by (by rewrite Hk). simpl. intros [= Hl].
    apply list_elem_of_lookup_2 in Ha.
    assert (a ∈ filter (λ g, cell_eqb a g) l) as Hin
      by (apply list_elem_of_filter; split; [by rewrite cell_eqb_refl | done]).
    destruct (filter _ l); [by apply elem_of_nil in Hin | done].
  - intros Hlen. f_equal. apply IH; [done | done |].
    destruct (decide (cell_eqb a x)); [| done].
    simpl in Hlen. injection Hlen as Hl.
    apply list_elem_of_lookup_2 in Ha.
    assert (a ∈ filter (λ g, cell_eqb a g) l) as Hin
      by (apply list_elem_of_filter; split; [by rewrite cell_eqb_refl | done]).
    destruct (filter _ l); [by apply elem_of_nil in Hin | done].
Qed.

Lemma group_keys_covers s c :
  c ∈ s → c ≠ NA → ∃ g, g ∈ group_keys s ∧ cell_eqb g c = true.
Proof.
  intros Hc Hn.
  destruct (unique_covers (dropna s) c) as (g & Hg & Hk);
    [by apply elem_of_dropna |].
  exists g. by rewrite group_keys_Permutation.
Qed.

Lemma groupby_distinct df key col agg s i j a b :
  groupby df key col agg = Ok s →
  s !! i = Some a → s !! j = Some b → cell_eqb a.1 b.1 = true → i = j.
Proof.
  intros (_ & _ & ->)%groupby_Ok. rewrite !list_lookup_fmap.
  destruct (group_keys _ !! i) as [x|] eqn:Hi; [| done].
  destruct (group_keys _ !! j) as [y|] eqn:Hj; [| done].
  intros [= <-] [= <-]. simpl. intros Hk. by eapply group_keys_pairwise.
Qed.

Section partition.
Context `{Numpy}.
Hypothesis Hexact : sums_exact.

(** X12. The totals of [df.groupby(key)[col].sum()] over a column of whole
    numbers whose magnitudes add up to at most 2^53, which float64 adds
    without rounding: no two entries have the same key; the key of an
    entry is not missing and occurs in the table, and its total is the
    sum of [col] over the rows of that key; every row with a key has an
    entry; and the totals add up to the sum of [col] over the rows that
    have a key, so that rows without a key are the only ones left out. *)
Theorem groupby_sum_partitions df key col totals :
  groupby df key col sum_ = Ok totals →
  Forall (λ lr : Z * row, whole (cell_at lr.2 col)) (rows df) →
  (sum_abs ((λ lr, cell_at lr.2 col) <$> rows df) <= 2 ^ 53)%Q →
  (∀ i j a b, totals !! i = Some a → totals !! j = Some b →
              cell_eqb a.1 b.1 = true → i = j) ∧
  (∀ g v, (g, v) ∈ totals →
     g ≠ NA ∧ (∃ lr, lr ∈ rows df ∧ cell_at lr.2 key = g) ∧
     (value_of v ==
      sum_by (λ lr : Z * row, value_of (cell_at lr.2 col))
             (filter (λ lr, cell_eqb (cell_at lr.2 key) g) (rows df)))%Q) ∧
  (∀ lr, lr ∈ rows df → cell_at lr.2 key ≠ NA →
     ∃ g v, (g, v) ∈ totals ∧ cell_eqb g (cell_at lr.2 key) = true) ∧
  (series_sum totals.*2 ==
   series_sum ((λ lr, cell_at lr.2 col)
                 <$> filter (λ lr, notna (cell_at lr.2 key)) (rows df)))%Q.
Proof.
  intros Hg Hwhole Hbound.
  pose proof (groupby_sum_total Hexact df key col totals Hg Hwhole Hbound)
    as Hsum.
  pose proof (λ i j a b, groupby_distinct df key col sum_ totals i j a b Hg)
    as Hdist.
  apply groupby_Ok in Hg as (_ & _ & ->).
  set (k := (λ lr : Z * row, cell_at lr.2 key) <$> rows df) in *.
  split; [| split; [| split]]; [done | | | done].
  - intros g v (g' & [= -> ->] & Hin)%list_elem_of_fmap.
    apply elem_of_group_keys in Hin as [Hin Hn].
    apply list_elem_of_fmap in Hin as (lr & -> & Hlr).
    split; [done |]. split; [eauto |].
    unfold sum_, value_of at 1. cbn [cell_number default].
    rewrite (group_sum_exact Hexact) by done.
    unfold group_values. by rewrite series_sum_fmap.
  - intros lr Hlr Hn.
    destruct (group_keys_covers k (cell_at lr.2 key)) as (g & Hg & Hk);
      [apply list_elem_of_fmap; eauto | done |].
    exists g, (sum_ (group_values df key col g)).
    split; [| done]. apply list_elem_of_fmap. eauto.
Qed.

End partition.

(** ** Rankings *)


Lemma groupby_sum_numbers `{Numpy} df key col totals :
  groupby df key col sum_ = Ok totals →
  Forall (λ kv : cell * cell, is_number kv.2) totals.
Proof.
  intros (_ & _ & ->)%groupby_Ok. apply Forall_fmap, Forall_forall.
  intros g _. simpl. by eexists.
Qed.

Section rankings.
Context `{Numpy}.
Hypothesis Hsorts : argsort_sorts.



End rankings.

(** ** Sales day by day *)

Lemma StronglySorted_le_lt (l : list Z) :
  StronglySorted Z.le l → NoDup l → StronglySorted Z.lt l.
Proof.
  induction 1 as [|x l Hl IH Hx]; [constructor |].
  intros [Hin Hnd]%NoDup_cons. constructor; [by apply IH |].
  rewrite Forall_forall in Hx. apply Forall_forall. intros y Hy.
  specialize (Hx y Hy). assert (x ≠ y) by (by intros ->). lia.
Qed.

Lemma date_filter_dated df day0 day1 df_f :
  date_filter df day0 day1 = Ok df_f →
  "date" ∈ columns df_f ∧
  Forall (λ lr : Z * row, ∃ ns, cell_at lr.2 "date" = VDate ns) (rows df_f).
Proof.
  intros (Hd & _ & ->)%date_filter_Ok. split; [done |].
  apply Forall_forall. intros lr [Hin _]%list_elem_of_filter.
  destruct (cell_at lr.2 "date"); try done. eauto.
Qed.

Lemma zip_fmap_l {A B C} (f : A → B) (l : list A) (k : list C) :
  zip (f <$> l) k = prod_map f id <$> zip l k.
Proof.
  revert k. induction l as [|x l IH]; intros [|y k]; csimpl; [done.. |].
  by rewrite IH.
Qed.

(** The keys of a column of timestamps. *)
Lemma group_keys_timestamps s :
  Forall (λ c, ∃ ns, c = VDate ns) s →
  ∃ ks, group_keys s = VDate <$> ks ∧ NoDup ks ∧
        ∀ ns, ns ∈ ks ↔ VDate ns ∈ s.
Proof.
  intros Hs. rewrite Forall_forall in Hs.
  destruct (Forall_fmap_ex VDate (group_keys s)) as [ks E].
  { apply Forall_forall. intros g [Hg _]%elem_of_group_keys. by apply Hs. }
  exists ks. split; [done |]. split.
  - apply NoDup_alt. intros i j ns Hi Hj.
    apply (group_keys_pairwise s i j (VDate ns) (VDate ns)).
    + by rewrite E, list_lookup_fmap, Hi.
    + by rewrite E, list_lookup_fmap, Hj.
    + apply cell_eqb_refl.
  - intros ns. split.
    + intros Hns. assert (VDate ns ∈ group_keys s) as Hin
        by (rewrite E; apply list_elem_of_fmap; eauto).
      by apply elem_of_group_keys in Hin as [? _].
    + intros Hin. destruct (group_keys_covers s (VDate ns) Hin) as (g & Hg & Hk);
        [done |].
      rewrite E in Hg. apply list_elem_of_fmap in Hg as (ns' & -> & Hns').
      simpl in Hk. apply Z.eqb_eq in Hk. by subst.
Qed.

Lemma getitem_setitem_ne df c v df' c' s :
  setitem df c v = Ok df' → c ≠ c' →
  getitem df c' = Ok s → getitem df' c' = Ok s.
Proof.
  intros (Hlen & Hcols & Hrows)%setitem_Ok Hne [Hc ->]%getitem_Ok.
  unfold getitem. rewrite bool_decide_eq_true_2.
  2: { rewrite Hcols. case_bool_decide; [done |]. apply elem_of_app. by left. }
  f_equal. rewrite Hrows. clear Hrows Hcols.
  revert v Hlen. induction (rows df) as [|lr l IH]; intros [|x v]; try done.
  csimpl. intros [= Hlen]. rewrite cell_at_insert_ne by done.
  by rewrite (IH v Hlen).
Qed.

Lemma getitem_setitem_eq df c v df' :
  setitem df c v = Ok df' → getitem df' c = Ok v.
Proof.
  intros (Hlen & Hcols & Hrows)%setitem_Ok.
  unfold getitem. rewrite bool_decide_eq_true_2.
  2: { rewrite Hcols. case_bool_decide; [done |].
       apply elem_of_app. right. apply elem_of_cons. by left. }
  f_equal. rewrite Hrows. clear Hrows Hcols.
  revert v Hlen. induction (rows df) as [|lr l IH]; intros [|x v]; try done.
  csimpl. intros [= Hlen]. rewrite cell_at_insert_eq.
  by rewrite (IH v Hlen).
Qed.

Section daily.
Context `{Numpy}.
Hypothesis Hsorts : argsort_sorts.

(** The steps of [daily]. *)
Lemma daily_Ok df_f daily :
  Tab4.daily df_f = Ok daily →
  ∃ totals sorted sales,
    groupby df_f "date" "sales" sum_ = Ok totals ∧
    sort_values (reset_index "date" "sales" totals) "date" true = Ok sorted ∧
    getitem sorted "sales" = Ok sales ∧
    getitem daily "sales" = Ok sales ∧
    getitem daily "rolling_14" = Ok (rolling_mean 14 sales) ∧
    getitem daily "date" = getitem sorted "date".
Proof.
  unfold Tab4.daily, groupby_table. intros Hd.
  apply bind_Ok in Hd as (g & Hg & Hd).
  apply bind_Ok in Hg as (totals & Ht & [= <-]).
  apply bind_Ok in Hd as (sorted & Hs & Hd).
  apply bind_Ok in Hd as (sales & Hsales & Hd).
  exists totals, sorted, sales. repeat (split; [done |]).
  split; [by apply (getitem_setitem_ne _ _ _ _ _ _ Hd) |].
  split; [by apply (getitem_setitem_eq _ _ _ _ Hd) |].
  destruct (sort_values_Ok Hsorts _ _ _ _ Hs) as (_ & Hc & _).
  assert ("date" ∈ columns sorted) as Hdate
    by (rewrite Hc; apply elem_of_cons; by left).
  destruct (getitem sorted "date") as [s| |] eqn:E.
  - by apply (getitem_setitem_ne _ _ _ _ _ _ Hd).
  - unfold getitem in E. by rewrite bool_decide_eq_true_2 in E.
  - unfold getitem in E. by rewrite bool_decide_eq_true_2 in E.
Qed.

End daily.

Lemma elem_of_zip_imap {A B} (f : nat → B → (Z * row)) (ks : list A)
    (l : list B) k lr :
  (k, lr) ∈ zip ks (imap f l) →
  ∃ i x, ks !! i = Some k ∧ l !! i = Some x ∧ lr = f i x.
Proof.
  intros [i Hi]%list_elem_of_lookup.
  apply lookup_zip_with_Some in Hi as (k' & lr' & [= <- <-] & Hk & Hl).
  rewrite list_lookup_imap in Hl.
  destruct (l !! i) as [x|] eqn:Hx; [| done]. injection Hl as <-. eauto.
Qed.

Section timeline.
Context `{Numpy}.
Hypothesis Hsorts : argsort_sorts.

(** X15. The table [daily] has one row for each distinct timestamp of the
    filtered table, in strictly increasing order of time. *)
Theorem daily_is_a_timeline df day0 day1 df_f daily :
  date_filter df day0 day1 = Ok df_f →
  Tab4.daily df_f = Ok daily →
  ∃ ts, getitem daily "date" = Ok (VDate <$> ts) ∧
        StronglySorted Z.lt ts ∧
        ∀ ns, ns ∈ ts ↔
              ∃ lr, lr ∈ rows df_f ∧ cell_at lr.2 "date" = VDate ns.
Proof.
  intros Hf Hd.
  destruct (daily_Ok Hsorts _ _ Hd)
    as (totals & sorted & sales & Hg & Hs & _ & _ & _ & ->).
  destruct (date_filter_dated _ _ _ _ Hf) as [_ Hdated].
  apply groupby_Ok in Hg as (_ & _ & ->).
  set (k := (λ lr : Z * row, cell_at lr.2 "date") <$> rows df_f) in *.
  destruct (group_keys_timestamps k) as (ks & Eks & Hnd & Hin).
  { apply Forall_fmap. eapply Forall_impl; [exact Hdated |]. intros lr [ns E].
    simpl. eauto. }
  rewrite Eks in Hs. rewrite <- list_fmap_compose in Hs.
  set (totals := (_ ∘ VDate) <$> ks) in Hs.
  destruct (sort_values_Ok Hsorts _ _ _ _ Hs) as (_ & Hc & Hrows & _).
  assert ((λ lr : Z * row, cell_at lr.2 "date")
            <$> rows (reset_index "date" "sales" totals) = VDate <$> ks) as Ecol.
  { pose proof (getitem_reset_index_key "date" "sales" totals) as E.
    apply getitem_Ok in E as [_ E]. rewrite <- E.
    unfold totals. by rewrite <- list_fmap_compose. }
  rewrite Ecol, zip_fmap_l in Hrows.
  destruct (nargsort_timeline Hsorts
              (zip ks (rows (reset_index "date" "sales" totals))))
    as (_ & tl & Etl & Hp & Hsorted).
  rewrite Etl in Hrows.
  assert (rows sorted = tl.*2) as Erows.
  { rewrite Hrows, <- list_fmap_compose. done. }
  assert (length (rows (reset_index "date" "sales" totals)) = length ks) as Hlen.
  { rewrite rows_reset_index, length_imap. unfold totals. by rewrite length_fmap. }
  assert (tl.*1 ≡ₚ ks) as Hpk.
  { rewrite Hp. by rewrite fst_zip by lia. }
  exists tl.*1. split; [| split].
  - unfold getitem. rewrite bool_decide_eq_true_2
      by (rewrite Hc; apply elem_of_cons; by left).
    f_equal. rewrite Erows, <- !list_fmap_compose.
    apply list_fmap_ext. intros i [t lr] Hi. simpl.
    assert ((t, lr) ∈ zip ks (rows (reset_index "date" "sales" totals))) as Hz
      by (rewrite <- Hp; by eapply list_elem_of_lookup_2).
    rewrite rows_reset_index in Hz.
    apply elem_of_zip_imap in Hz as (j & kv & Hj & Hkv & ->). simpl.
    rewrite entry_row_key. unfold totals in Hkv.
    rewrite list_lookup_fmap, Hj in Hkv. by injection Hkv as <-.
  - apply StronglySorted_le_lt; [| by rewrite Hpk].
    by apply (StronglySorted_fmap fst (λ a b : Z * (Z * row), (a.1 ≤ b.1)%Z)).
  - intros ns. rewrite Hpk, Hin. unfold k. rewrite list_elem_of_fmap.
    split; intros (lr & ? & ?); eauto.
Qed.

End timeline.

(** ** The leading product of a state *)


Section leader.
Context `{Numpy}.
Hypothesis Hsorts : argsort_sorts.


End leader.

Section by_year.
Context `{Numpy}.
Hypothesis Hsorts : argsort_sorts.
Hypothesis Hexact : sums_exact.

(** X18. When the transaction counts of the state are whole numbers whose
    magnitudes add up to at most 2^53, which float64 adds without
    rounding, [tx_year] has one row for each year, and its transactions
    add up to the transactions of the rows of [dstate_tx] that have a
    year. *)
Theorem tx_year_adds_up dstate_tx tx_year :
  Tab3.tx_year dstate_tx = Ok tx_year →
  Forall (λ lr : Z * row, whole (cell_at lr.2 "transactions"))
         (rows dstate_tx) →
  (sum_abs ((λ lr, cell_at lr.2 "transactions") <$> rows dstate_tx)
   <= 2 ^ 53)%Q →
  ∃ years totals,
    getitem tx_year "year" = Ok years ∧
    getitem tx_year "transactions" = Ok totals ∧
    (∀ i j a b, years !! i = Some a → years !! j = Some b →
                cell_eqb a b = true → i = j) ∧
    (series_sum totals ==
     series_sum ((λ lr, cell_at lr.2 "transactions")
                   <$> filter (λ lr, notna (cell_at lr.2 "year"))
                              (rows dstate_tx)))%Q.
Proof.
  unfold Tab3.tx_year, groupby_table. intros Ht Hwhole Hbound.
  apply bind_Ok in Ht as (g & Hg & Hs).
  apply bind_Ok in Hg as (series & Hg & [= <-]).
  destruct (sort_values_Ok Hsorts _ _ _ _ Hs) as (_ & Hc & _ & Hp).
  destruct (getitem_Permutation _ tx_year "year" series.*1 Hp) as (years & Hy & Hpy).
  { rewrite Hc. apply elem_of_cons. by left. }
  { apply getitem_reset_index_key. }
  destruct (getitem_Permutation _ tx_year "transactions" series.*2 Hp)
    as (totals & Htot & Hpt).
  { rewrite Hc. apply elem_of_cons. right. apply elem_of_cons. by left. }
  { by apply getitem_reset_index_col. }
  exists years, totals. split; [done |]. split; [done |]. split.
  - apply Permutation_inj in Hpy as (_ & f & Hf & Hlook).
    intros i j a b Hi Hj Hk. rewrite Hlook in Hi, Hj. apply Hf.
    rewrite list_lookup_fmap in Hi, Hj.
    destruct (series !! f i) as [x|] eqn:Ex; [| done].
    destruct (series !! f j) as [y|] eqn:Ey; [| done].
    injection Hi as <-. injection Hj as <-.
    by eapply (groupby_distinct _ _ _ _ _ _ _ _ _ Hg).
  - rewrite (series_sum_Permutation _ _ Hpt).
    by apply (groupby_sum_total Hexact).
Qed.

End by_year.

(** ** A table without product families *)

Lemma comparable_numbers s : Forall is_number s → comparable s = true.
Proof.
  intros Hs. apply comparable_spec. intros a b Ha Hb _ _.
  rewrite Forall_forall in Hs.
  pose proof (Hs a Ha) as [? Ea]. pose proof (Hs b Hb) as [? Eb].
  by destruct a, b.
Qed.

Section missing_family.
Context `{Pandas} `{Numpy}.

(** X19. On the table [load_data] returns, [top_products] returns a table
    exactly when the data has a [family] column.  Without that column it
    raises [KeyError], although the figure [total_products], computed
    before it, is guarded against the missing column and shows 0. *)
Theorem top_products_needs_family fs df :
  load_data fs = Ok df →
  ((∃ top, Tab1.top_products df = Ok top) ↔ "family" ∈ columns df) ∧
  ("family" ∉ columns df →
     Tab1.top_products df = Raise (KeyError "family") ∧
     ∀ day0 day1 df_f, date_filter df day0 day1 = Ok df_f →
                       Tab1.total_products df_f = Ok 0%nat).
Proof.
  intros Hload.
  assert ("sales" ∈ columns df) as Hsales.
  { apply load_data_rows in Hload as (df1 & df2 & _ & _ & (Hcols & Hc & _)).
    rewrite Hc. apply elem_of_app. left.
    apply Forall_cons in Hcols as [_ Hcols].
    apply Forall_cons in Hcols as [_ Hcols].
    by apply Forall_cons in Hcols as [? _]. }
  unfold Tab1.top_products.
  destruct (decide ("family" ∈ columns df)) as [Hfam|Hfam].
  - split; [| done]. split; [done |]. intros _.
    destruct (groupby df "family" "sales" sum_) as [totals| |] eqn:Hg.
    + cbn [mbind result_bind]. unfold Series_sort_values.
      rewrite comparable_numbers; [cbn [mbind result_bind]; eauto |].
      apply Forall_fmap. by apply (groupby_sum_numbers _ _ _ _ Hg).
    + exfalso. unfold groupby, getitem in Hg.
      by rewrite !bool_decide_eq_true_2 in Hg.
    + exfalso. unfold groupby, getitem in Hg.
      by rewrite !bool_decide_eq_true_2 in Hg.
  - assert (groupby df "family" "sales" sum_ = Raise (KeyError "family")) as ->.
    { unfold groupby, getitem.
      by rewrite (bool_decide_eq_false_2 ("family" ∈ columns df)). }
    cbn [mbind result_bind].
    split; [split; [by intros [top ?] | done] |].
    intros _. split; [done |].
    intros day0 day1 df_f (_ & _ & ->)%date_filter_Ok.
    unfold Tab1.total_products. cbn [columns].
    by rewrite bool_decide_eq_false_2.
Qed.

End missing_family.
(** ** The rows of one state *)

Lemma filter_keep_first_comm_elem {A} (key : A → list cell) (p : A → bool)
    seen seen' (l : list A) :
  (∀ x y, x ∈ l → y ∈ l → key_eqb (key x) (key y) = true → p x = p y) →
  (∀ y, y ∈ l → p y = true →
        existsb (key_eqb (key y)) seen = existsb (key_eqb (key y)) seen') →
  filter (λ x, p x) (keep_first key seen l)
  = keep_first key seen' (filter (λ x, p x) l).
Proof.
  revert seen seen'.
  induction l as [|x l IH]; intros seen seen' Hp Hs; [done |].
  assert (∀ a b, a ∈ l → b ∈ l → key_eqb (key a) (key b) = true → p a = p b)
    as Hp' by (intros a b Ha Hb; apply Hp; apply elem_of_cons; by right).
  simpl keep_first. rewrite (filter_cons _ x l).
  destruct (p x) eqn:Epx.
  - rewrite decide_True by done. simpl keep_first.
    rewrite <- (Hs x) by first [apply elem_of_cons; by left | done].
    destruct (existsb (key_eqb (key x)) seen).
    + apply IH; [done |]. intros y Hy. apply Hs, elem_of_cons. by right.
    + rewrite filter_cons, decide_True by (by rewrite Epx).
      f_equal. apply IH; [done |]. intros y Hy Hpy. simpl.
      by rewrite (Hs y) by first [apply elem_of_cons; by right | done].
  - rewrite decide_False by (by intros []).
    destruct (existsb (key_eqb (key x)) seen).
    + apply IH; [done |]. intros y Hy. apply Hs, elem_of_cons. by right.
    + rewrite filter_cons, decide_False by (by rewrite Epx; intros []).
      apply IH; [done |]. intros y Hy Hpy. simpl.
      destruct (key_eqb (key y) (key x)) eqn:Ek.
      * rewrite (Hp y x) in Hpy; [congruence | | | done].
        -- apply elem_of_cons. by right.
        -- apply elem_of_cons. by left.
      * apply Hs; [apply elem_of_cons; by right | done].
Qed.

Lemma select_state_Ok df state_sel view :
  Tab3.select_state df state_sel = Ok view ↔
  "state" ∈ columns df ∧
  view = {| columns := columns df;
            rows := filter (λ lr, cell_eqb (cell_at lr.2 "state")
                                           (VStr state_sel)) (rows df) |}.
Proof.
  unfold Tab3.select_state, getitem.
  destruct (decide ("state" ∈ columns df)) as [Hs|Hs].
  - rewrite bool_decide_eq_true_2 by done. cbn [mbind result_bind].
    rewrite <- list_fmap_compose.
    rewrite (getitem_mask_fmap df ((λ c, cell_eqb c (VStr state_sel))
                                   ∘ (λ lr : Z * row, cell_at lr.2 "state"))).
    cbn [mbind result_bind]. unfold copy.
    split; [by intros [= <-] | by intros [_ ->]].
  - rewrite bool_decide_eq_false_2 by done. cbn [mbind result_bind].
    split; [done | tauto].
Qed.

Section one_state.
Context `{Pandas}.

Lemma build_transactions_table_Ok df_ tx :
  build_transactions_table df_ = Ok tx ↔
  Forall (λ c, c ∈ columns df_) ["date"; "store_nbr"; "transactions"] ∧
  tx = {| columns := tx_columns (columns df_);
          rows := (λ lr, (lr.1, tx_row (columns df_) lr.2))
                    <$> keep_first tx_key [] (rows df_) |}.
Proof.
  split.
  - intros Htx. destruct (build_transactions_table_rows _ _ Htx) as (? & ? & ?).
    split; [done |]. destruct tx. simpl in *. by subst.
  - intros [Hcols ->].
    destruct (build_transactions_table_cases df_)
      as [[_ [tx Htx]] | (c & _ & Hin & Hnot)].
    + rewrite Htx. f_equal.
      destruct (build_transactions_table_rows _ _ Htx) as (? & ? & ?).
      destruct tx. simpl in *. by subst.
    + exfalso. apply Hnot. rewrite Forall_forall in Hcols. by apply Hcols.
Qed.

Lemma select_state_build df_f df_tx_f state_sel dstate :
  build_transactions_table df_f = Ok df_tx_f →
  Tab3.dstate df_f state_sel = Ok dstate →
  one_state_per_key (rows df_f) →
  ∃ dstate_tx, Tab3.dstate_tx df_tx_f state_sel = Ok dstate_tx ∧
               build_transactions_table dstate = Ok dstate_tx.
Proof.
  unfold Tab3.dstate, Tab3.dstate_tx.
  intros [Hcols ->]%build_transactions_table_Ok [Hstate ->]%select_state_Ok Hone.
  eexists. split.
  - apply select_state_Ok. split; [| reflexivity].
    cbn [columns]. apply elem_of_tx_columns. split; [done |].
    rewrite !elem_of_cons. tauto.
  - apply build_transactions_table_Ok. cbn [columns rows]. split; [done |].
    f_equal. rewrite filter_fmap_bool. f_equal.
    rewrite <- (filter_keep_first_comm_elem tx_key
                  (λ lr, cell_eqb (cell_at lr.2 "state") (VStr state_sel)) [] []).
    + apply list_filter_iff. intros lr. simpl.
      rewrite tx_row_cell_at; [done | | done].
      apply elem_of_tx_columns. split; [done |]. rewrite !elem_of_cons. tauto.
    + intros a b Ha Hb Hk. pose proof (Hone a b Ha Hb Hk) as Hab.
      apply eq_true_iff_eq. split; intros Hc.
      * eapply cell_eqb_trans; [| done]. by rewrite cell_eqb_sym.
      * by eapply cell_eqb_trans.
    + done.
Qed.


(** X20. When the rows of one date and store carry one state, the
    transactions of the selected state, [dstate_tx], are the table that
    [build_transactions_table] builds from the sales rows of that state,
    [dstate]: a date and store of the state is counted once, and no other
    is counted. *)
Theorem dstate_tx_of_dstate df df_tx df_f df_tx_f day0 day1 state_sel dstate :
  build_transactions_table df = Ok df_tx →
  date_filter df day0 day1 = Ok df_f →
  date_filter df_tx day0 day1 = Ok df_tx_f →
  Tab3.dstate df_f state_sel = Ok dstate →
  one_state_per_key (rows df_f) →
  ∃ dstate_tx, Tab3.dstate_tx df_tx_f state_sel = Ok dstate_tx ∧
               build_transactions_table dstate = Ok dstate_tx.
Proof.
  intros Htx Hf Htxf Hd Hone.
  destruct (date_filter_build _ _ _ _ _ Htx Hf) as (tx_view & E & Hb).
  assert (tx_view = df_tx_f) as -> by congruence.
  by eapply select_state_build.
Qed.

End one_state.

(** ** Sales by day of the week *)

Lemma position_Some x l i : position x l = Some i → l !! i = Some x.
Proof.
  revert i. induction l as [|y l IH]; intros i; simpl; [done |].
  destruct (String.eqb_spec x y) as [->|Hne].
  - by intros [= <-].
  - destruct (position x l) as [j|]; [| done]. simpl. intros [= <-].
    simpl. by apply IH.
Qed.

Lemma position_elem x l : x ∈ l → is_Some (position x l).
Proof.
  induction l as [|y l IH]; [by intros ?%elem_of_nil |]. simpl.
  destruct (String.eqb_spec x y) as [->|Hne]; [by eexists |].
  intros [->|Hx]%elem_of_cons; [done |].
  destruct (IH Hx) as [j ->]. by eexists.
Qed.

(** Values listed by increasing position are listed in the order of the
    list. *)
Lemma sublist_of_positions (l : list string) days ps :
  Forall2 (λ d p, position d l = Some p) days ps →
  StronglySorted le ps → NoDup days →
  days `sublist_of` l.
Proof.
  revert days ps. induction l as [|y l IH]; intros days ps Hpos Hs Hnd.
  { destruct Hpos as [|d p days ps Hd _]; [done | done]. }
  destruct Hpos as [|d p days ps Hd Hpos]; [apply sublist_nil_l |].
  apply StronglySorted_inv in Hs as [Hs Hle].
  apply NoDup_cons in Hnd as [Hnin Hnd].
  simpl in Hd. destruct (String.eqb_spec d y) as [->|Hne].
  - apply sublist_skip.
    assert (Forall2 (λ d p, position d l = Some (pred p)) days ps) as Hpos'.
    { clear Hs Hle IH Hd p Hnd.
      induction Hpos as [|d p days ps Hd _ IH']; [constructor |].
      constructor.
      - simpl in Hd. destruct (String.eqb_spec d y) as [->|Hne].
        + destruct Hnin. apply elem_of_cons. by left.
        + destruct (position d l); [| done]. by injection Hd as <-.
      - apply IH'. intros Hin. apply Hnin, elem_of_cons. by right. }
    apply (IH days (pred <$> ps)); [| | done].
    + apply Forall2_fmap_r. done.
    + apply (StronglySorted_fmap pred le le); [lia | done].
  - destruct (position d l) as [j|] eqn:Ej; [| done]. injection Hd as <-.
    apply sublist_cons.
    assert (Forall (λ q, 1 ≤ q)%nat ps) as Hge.
    { eapply Forall_impl; [exact Hle |]. intros q. simpl. lia. }
    assert (Forall2 (λ d p, position d l = Some (pred p)) days ps) as Hpos'.
    { clear Hs Hle IH Hnd Hnin.
      induction Hpos as [|d' p days ps Hd _ IH']; [constructor |].
      apply Forall_cons in Hge as [Hp Hge].
      constructor; [| by apply IH'].
      simpl in Hd. destruct (String.eqb d' y); [injection Hd as <-; lia |].
      destruct (position d' l); [| done]. by injection Hd as <-. }
    apply (IH (d :: days) (j :: (pred <$> ps))).
    + constructor; [done |]. by apply Forall2_fmap_r.
    + constructor.
      * apply (StronglySorted_fmap pred le le); [lia | done].
      * apply Forall_fmap. eapply Forall_impl; [exact Hle |].
        intros q. simpl. lia.
    + by apply NoDup_cons.
Qed.

Lemma is_category_VStr cats c :
  is_category cats c = true → ∃ d, c = VStr d ∧ d ∈ cats.
Proof.
  destruct c as [| | |d| |]; simpl; try done.
  intros Hd%bool_decide_eq_true. eauto.
Qed.

Lemma is_category_eqb cats a b :
  cell_eqb a b = true → is_category cats a = is_category cats b.
Proof.
  destruct a as [| | |s| |], b as [| | |t| |]; simpl; try done.
  by intros ->%String.eqb_eq.
Qed.

Section categories.
Context `{Numpy}.
Hypothesis Hsorts : argsort_sorts.

Lemma sorted_by_category (cats : list string) (means : Series) :
  (∀ i j a b, means !! i = Some a → means !! j = Some b →
              cell_eqb a.1 b.1 = true → i = j) →
  Forall (λ kv, is_category cats kv.1 = true) means →
  let chart := (nargsort true
                  (zip (category_code cats <$> means.*1)
                       (rows (reset_index "day_of_week" "sales" means)))).*2 in
  chart ≡ₚ rows (reset_index "day_of_week" "sales" means) ∧
  ∃ days, (λ lr : Z * row, cell_at lr.2 "day_of_week") <$> chart = VStr <$> days ∧
          days `sublist_of` cats ∧
          VStr <$> days ≡ₚ means.*1.
Proof.
  intros Hdist Hcat chart.
  set (table := rows (reset_index "day_of_week" "sales" means)) in *.
  set (codes := category_code cats <$> means.*1) in *.
  assert (length codes = length table) as Hlen.
  { unfold codes, table. rewrite rows_reset_index.
    by rewrite !length_fmap, length_imap. }
  (* what an item of the sort is *)
  assert (∀ p, p ∈ zip codes table →
            ∃ d i, p.1 = VInt (Z.of_nat i) ∧ position d cats = Some i ∧
                   cell_at p.2.2 "day_of_week" = VStr d) as Hitem.
  { intros [k lr] Hp. unfold table in Hp. rewrite rows_reset_index in Hp.
    apply elem_of_zip_imap in Hp as (i & kv & Hk & Hkv & ->).
    unfold codes in Hk. rewrite !list_lookup_fmap, Hkv in Hk.
    injection Hk as <-.
    rewrite Forall_forall in Hcat.
    destruct (is_category_VStr _ _ (Hcat kv ltac:(by eapply list_elem_of_lookup_2)))
      as (d & Hd & Hin).
    destruct (position_elem _ _ Hin) as [n Hn].
    exists d, n. simpl. rewrite entry_row_key, Hd. simpl. by rewrite Hn. }
  assert (Forall (λ p : cell * (Z * row), is_number p.1) (zip codes table)) as Hnum.
  { apply Forall_forall. intros p (d & i & -> & _)%Hitem. by eexists. }
  destruct (nargsort_notna Hsorts true (zip codes table)) as [Hperm Hsorted].
  { apply comparable_numbers. apply Forall_fmap.
    eapply Forall_impl; [exact Hnum | done]. }
  { eapply Forall_impl; [exact Hnum |]. intros p [q Hq]. by destruct p.1. }
  split.
  { unfold chart. rewrite Hperm. by rewrite snd_zip by lia. }
  set (sorted := nargsort true (zip codes table)) in *.
  assert (Forall (λ p : cell * (Z * row),
            ∃ d i, p.1 = VInt (Z.of_nat i) ∧
                   position d cats = Some i ∧
                   cell_at p.2.2 "day_of_week" = VStr d) sorted) as Hall.
  { apply Forall_forall. intros p Hp. apply Hitem. by rewrite <- Hperm. }
  clearbody sorted.
  assert (∃ days ps,
            (λ lr : Z * row, cell_at lr.2 "day_of_week") <$> sorted.*2
              = VStr <$> days ∧
            sorted.*1 = (λ i, VInt (Z.of_nat i)) <$> ps ∧
            Forall2 (λ d p, position d cats = Some p) days ps)
    as (days & ps & Hdays & Hps & Hpos).
  { clear -Hall. induction Hall as [|p l (d & i & Hp & Hi & Hd) _ IH].
    - exists [], []. by repeat split.
    - destruct IH as (days & ps & E1 & E2 & E3).
      exists (d :: days), (i :: ps). rewrite !fmap_cons, E1, E2, Hp, Hd.
      repeat split; by constructor. }
  exists days. split; [done |].
  assert (VStr <$> days ≡ₚ means.*1) as Hkeys.
  { rewrite <- Hdays. fold chart. 
    transitivity ((λ lr : Z * row, cell_at lr.2 "day_of_week") <$> table).
    - apply fmap_Permutation. unfold chart.
      rewrite Hperm. by rewrite snd_zip by lia.
    - unfold table. rewrite rows_reset_index.
      rewrite (fmap_imap_labelled (entry_row "day_of_week" "sales")
                 (λ lr, cell_at lr.2 "day_of_week") fst); [done |].
      intros i x. simpl. apply entry_row_key. }
  split; [| done].
  apply (sublist_of_positions _ _ ps Hpos).
  - apply Sorted_StronglySorted; [intros ???; lia |].
    apply (Sorted_fmap (λ p : cell * (Z * row), p.1) _
             (λ a b : cell, cell_leb a b : Prop)) in Hsorted; [| done].
    change ((λ p : cell * (Z * row), p.1) <$> sorted) with sorted.*1 in Hsorted.
    rewrite Hps in Hsorted. apply Sorted_fmap_inv in Hsorted.
    eapply Sorted_impl_elem; [| exact Hsorted].
    intros x y _ _. simpl. unfold Qle_bool. simpl.
    rewrite !Z.mul_1_r. intros Hxy%Is_true_true%Z.leb_le. lia.
  - apply (NoDup_fmap_1 VStr). rewrite Hkeys.
    apply NoDup_ListNoDup, NoDup_nth with (d := NA).
    intros i j Hi Hj E.
    destruct (nth_lookup_or_length means.*1 i NA) as [Ei|]; [| lia].
    destruct (nth_lookup_or_length means.*1 j NA) as [Ej|]; [| lia].
    rewrite E in Ei.
    rewrite list_lookup_fmap in Ei, Ej.
    destruct (means !! i) as [a|] eqn:Ea; [| done].
    destruct (means !! j) as [b|] eqn:Eb; [| done].
    simpl in Ei, Ej. apply (Hdist i j a b Ea Eb).
    injection Ei as Ei. injection Ej as Ej. rewrite Ei, Ej.
    rewrite Forall_forall in Hcat.
    destruct (is_category_VStr _ _ (Hcat b ltac:(by eapply list_elem_of_lookup_2)))
      as (d & Hd & _).
    rewrite <- Ej, Hd. simpl. apply String.eqb_refl.
Qed.

End categories.

Section week.
Context `{Pandas} `{Numpy}.
Hypothesis Hsorts : argsort_sorts.

Lemma load_data_sales fs df : load_data fs = Ok df → "sales" ∈ columns df.
Proof.
  intros (df1 & df2 & _ & _ & (Hcols & Hc & _))%load_data_rows.
  rewrite Hc. apply elem_of_app. left.
  rewrite Forall_forall in Hcols. apply Hcols.
  repeat first [apply elem_of_cons; by left | apply list_elem_of_further].
Qed.

(** X21. On the filtered table of the dashboard with a column
    [day_of_week], the chart of mean sales by day of the week is computed
    without error and holds the rows of the means by day.  Either its days
    are names of [day_order], each day of the filtered rows once, in the
    order of the week from Monday to Sunday; or some row names a day that
    is not in [day_order], and the chart is left in the order of the
    groups. *)
Theorem dow_mean_in_the_order_of_the_week fs df day0 day1 df_f :
  load_data fs = Ok df →
  date_filter df day0 day1 = Ok df_f →
  "day_of_week" ∈ columns df_f →
  ∃ chart means,
    Tab1.dow_mean df_f = Ok (Some chart) ∧
    groupby df_f "day_of_week" "sales" series_mean = Ok means ∧
    columns chart = ["day_of_week"; "sales"] ∧
    rows chart ≡ₚ rows (reset_index "day_of_week" "sales" means) ∧
    ((∃ days,
        getitem chart "day_of_week" = Ok (VStr <$> days) ∧
        days `sublist_of` Tab1.day_order ∧
        ∀ d, d ∈ days ↔
             ∃ lr, lr ∈ rows df_f ∧ cell_at lr.2 "day_of_week" = VStr d) ∨
     (chart = reset_index "day_of_week" "sales" means ∧
      ∃ lr, lr ∈ rows df_f ∧ cell_at lr.2 "day_of_week" ≠ NA ∧
            ∀ d, d ∈ Tab1.day_order → cell_at lr.2 "day_of_week" ≠ VStr d)).
Proof.
  intros Hload Hf Hday.
  assert ("sales" ∈ columns df_f) as Hsales.
  { pose proof Hf as (_ & _ & Edf)%date_filter_Ok. rewrite Edf.
    cbn [columns]. by eapply load_data_sales. }
  set (s := (λ lr : Z * row, cell_at lr.2 "day_of_week") <$> rows df_f).
  set (means := (λ g, (g, series_mean (group_values df_f "day_of_week" "sales" g)))
                  <$> group_keys s).
  assert (groupby df_f "day_of_week" "sales" series_mean = Ok means) as Hg
    by (by apply groupby_Ok).
  assert (means.*1 = group_keys s) as Hkeys.
  { unfold means. rewrite <- list_fmap_compose. apply list_fmap_id. }
  assert (∀ c, c ∈ s ↔ ∃ lr, lr ∈ rows df_f ∧ cell_at lr.2 "day_of_week" = c)
    as Hs.
  { intros c. unfold s. rewrite list_elem_of_fmap.
    split; intros (lr & ? & ?); by exists lr. }
  unfold Tab1.dow_mean. rewrite (bool_decide_eq_true_2 _ Hday).
  unfold groupby_table. rewrite Hg. cbn [mbind result_bind].
  rewrite getitem_reset_index_key. cbn [mbind result_bind].
  destruct (forallb _ (unique means.*1)) eqn:Eall.
  - assert (Forall (λ kv : cell * cell, is_category Tab1.day_order kv.1 = true)
              means) as Hcat.
    { apply Forall_forall. intros kv Hkv.
      destruct (unique_covers means.*1 kv.1) as (c' & Hc' & E);
        [by apply list_elem_of_fmap_2 |].
      rewrite forallb_forall in Eall.
      rewrite <- (is_category_eqb _ _ _ E). apply Eall.
      by apply list_elem_of_In. }
    destruct (sorted_by_category Hsorts Tab1.day_order means) as (Hperm & days & Hd & Hsub & Hp).
    { intros i j a b. by apply groupby_distinct with (1 := Hg). }
    { done. }
    eexists _, means. split; [done |]. split; [done |].
    split; [done |]. split; [exact Hperm |]. left. exists days.
    split; [| split; [done |]].
    + unfold getitem. cbn [columns rows].
      rewrite bool_decide_eq_true_2 by (apply elem_of_cons; by left).
      by rewrite Hd.
    + intros d. rewrite <- Hs.
      transitivity (VStr d ∈ means.*1).
      * rewrite <- Hp. rewrite list_elem_of_fmap. split; [by eauto |].
        by intros (d' & [= ->] & ?).
      * rewrite Hkeys. split; [by intros [? _]%elem_of_group_keys |].
        intros Hin. destruct (group_keys_covers s (VStr d) Hin ltac:(done))
          as (g & Hgin & E).
        destruct g; try done. simpl in E. by apply String.eqb_eq in E as ->.
  - exists (reset_index "day_of_week" "sales" means), means.
    split; [done |]. split; [done |]. split; [done |]. split; [done |].
    right. split; [done |].
    assert (∃ c, c ∈ means.*1 ∧ is_category Tab1.day_order c = false)
      as (c & Hc & Hno).
    { destruct (decide (Forall (λ c, is_category Tab1.day_order c = true)
                                 (unique means.*1))) as [Hall|Hex].
      - pose proof (proj1 (Forall_forall _ _) Hall) as Hall'.
        assert (forallb (is_category Tab1.day_order) (unique means.*1) = true)
          as E'; [| congruence].
        apply forallb_forall. intros c Hc. by apply Hall', list_elem_of_In.
      - apply not_Forall_Exists in Hex; [| apply _].
        apply Exists_exists in Hex as (c & Hc & Hno).
        exists c. split; [by apply elem_of_unique |].
        simpl in Hno. by destruct (is_category _ c). }
    rewrite Hkeys in Hc. apply elem_of_group_keys in Hc as [Hc Hna].
    apply Hs in Hc as (lr & Hlr & <-). exists lr. split; [done |].
    split; [done |]. intros d Hd E. rewrite E in Hno. simpl in Hno.
    by rewrite bool_decide_eq_true_2 in Hno.
Qed.

End week.

(** ** The reference sort *)

Lemma Qle_bool_total x y : Qle_bool x y = true ∨ Qle_bool y x = true.
Proof.
  destruct (Qlt_le_dec y x) as [Hlt|Hle].
  - right. apply Qle_bool_iff. lra.
  - left. by apply Qle_bool_iff.
Qed.

Lemma cell_leb_total a b : cell_leb a b = true ∨ cell_leb b a = true.
Proof.
  destruct a as [|x|x|x|x|[]], b as [|y|y|y|y|[]]; simpl;
    try (by left); try (by right); try apply Qle_bool_total.
  - apply String.leb_total.
  - destruct (Z.leb_spec x y); [by left | right]. apply Z.leb_le. lia.
Qed.

Lemma positions_spec s :
  (RefNumpy.positions s).*2 = seq 0 (length s) ∧
  ∀ p, p ∈ RefNumpy.positions s → s !! p.2 = Some p.1.
Proof.
  unfold RefNumpy.positions. split.
  - apply list_eq. intros i. rewrite list_lookup_fmap, list_lookup_imap.
    destruct (s !! i) as [c|] eqn:E; simpl.
    + by rewrite lookup_seq_lt by (by eapply lookup_lt_Some).
    + by rewrite lookup_seq_ge by (by apply lookup_ge_None).
  - intros p [i Hi]%list_elem_of_lookup. rewrite list_lookup_imap in Hi.
    destruct (s !! i) as [c|] eqn:E; [| done]. by injection Hi as <-.
Qed.

Lemma RefNumpy_sorts : @argsort_sorts RefNumpy.numpy.
Proof.
  intros s _ _. cbn [argsort RefNumpy.numpy].
  destruct (positions_spec s) as [Hseq Hpos].
  set (sorted := merge_sort RefNumpy.by_value (RefNumpy.positions s)).
  assert (sorted ≡ₚ RefNumpy.positions s) as Hp by apply merge_sort_Permutation.
  split; [by rewrite Hp, Hseq |].
  assert (omap (λ i, s !! i) sorted.*2 = sorted.*1) as ->.
  { assert (∀ p, p ∈ sorted → s !! p.2 = Some p.1) as Hall
      by (intros p Hin; apply Hpos; by rewrite <- Hp).
    clear Hp. induction sorted as [|p l IH]; [done |]. csimpl.
    rewrite (Hall p) by (apply elem_of_cons; by left). csimpl.
    rewrite IH; [done |]. intros q Hq. apply Hall, elem_of_cons. by right. }
  apply (Sorted_fmap fst RefNumpy.by_value); [by intros x y ? |].
  apply Sorted_merge_sort.
  intros p q. unfold RefNumpy.by_value.
  destruct (cell_leb_total p.1 q.1) as [-> | ->]; [by left | by right].
Qed.

(** The reference sums round nothing. *)
Lemma RefNumpy_sums_exact : @sums_exact RefNumpy.numpy.
Proof. intros s _ _. reflexivity. Qed.
(** ** The further properties at work on the scenario *)

Lemma whole_secondsb_sound l :
  whole_secondsb l = true →
  Forall (λ lr : Z * row, whole_second (cell_at lr.2 "date")) l.
Proof.
  unfold whole_secondsb. rewrite forallb_forall. intros Hall.
  apply Forall_forall. intros lr Hlr%list_elem_of_In ns E.
  specialize (Hall lr Hlr). rewrite E in Hall. by apply Z.eqb_eq.
Qed.

Lemma one_state_per_keyb_sound l :
  one_state_per_keyb l = true → one_state_per_key l.
Proof.
  unfold one_state_per_keyb. rewrite forallb_forall.
  intros Hall a b Ha%list_elem_of_In Hb%list_elem_of_In Hk.
  specialize (Hall a Ha). rewrite forallb_forall in Hall.
  specialize (Hall b Hb). by rewrite Hk in Hall.
Qed.

Lemma returned_value {A} (d : A) (r : result A) :
  returned r = true → r = Ok (value_or d r).
Proof. by destruct r. Qed.

Section views.
Import RefPandas RefNumpy Scenario Views.

Lemma filter_unified : date_filter unified jan1 jan2 = Ok df_f.
Proof. apply is_ok_table. vm_compute. reflexivity. Defined.

Lemma filter_transactions : date_filter transactions jan1 jan2 = Ok df_tx_f.
Proof. apply is_ok_table. vm_compute. reflexivity. Defined.

Lemma daily_df_f : Tab4.daily df_f = Ok daily.
Proof. apply is_ok_table. vm_compute. reflexivity. Defined.

Lemma date_filter_of_transactions_witness :
  build_transactions_table unified = Ok transactions ∧
  date_filter unified jan1 jan2 = Ok df_f ∧
  date_filter transactions jan1 jan2 = Ok df_tx_f ∧
  build_transactions_table df_f = Ok df_tx_f.
Proof.
  split; [exact build_unified |]. split; [exact filter_unified |].
  split; [exact filter_transactions |].
  exact (date_filter_of_transactions unified transactions df_f df_tx_f
           jan1 jan2 build_unified filter_unified filter_transactions).
Defined.

Lemma date_filter_keeps_whole_days_witness :
  date_filter unified jan1 jan1 = Ok df_jan1 ∧
  Forall (λ lr : Z * row, whole_second (cell_at lr.2 "date")) (rows unified) ∧
  columns df_jan1 = columns unified ∧
  rows df_jan1
  = filter (λ lr, on_days jan1 jan1 (cell_at lr.2 "date")) (rows unified).
Proof.
  assert (date_filter unified jan1 jan1 = Ok df_jan1) as E
    by (apply is_ok_table; vm_compute; reflexivity).
  assert (Forall (λ lr : Z * row, whole_second (cell_at lr.2 "date"))
            (rows unified)) as Hw
    by (apply whole_secondsb_sound; vm_compute; reflexivity).
  split; [exact E |]. split; [exact Hw |].
  exact (date_filter_keeps_whole_days unified jan1 jan1 df_jan1 E Hw).
Defined.

Lemma read_csv_from_zip_first_of_largest_witness :
  fs_ties !! "parte_1.zip"
  = Some (ZipArchive (entries_before ++ largest :: entries_after)) ∧
  is_csv largest = true ∧
  file_size largest ≠ 0%N ∧
  read_csv_from_zip fs_ties "parte_1.zip" =
    match read_csv (payload largest) with
    | Some df => Ok df
    | None => Raise ParserError
    end.
Proof.
  assert (fs_ties !! "parte_1.zip"
          = Some (ZipArchive (entries_before ++ largest :: entries_after))) as E
    by (vm_compute; reflexivity).
  assert (is_csv largest = true) as Hcsv by (vm_compute; reflexivity).
  assert (file_size largest ≠ 0%N) as Hsize by (vm_compute; discriminate).
  split; [exact E |]. split; [exact Hcsv |]. split; [exact Hsize |].
  apply (read_csv_from_zip_first_of_largest fs_ties "parte_1.zip"
           entries_before largest entries_after E Hcsv Hsize).
  - intros i Hi Hc. unfold entries_before in Hi.
    apply elem_of_cons in Hi as [->|Hi]; [discriminate Hc |].
    apply list_elem_of_singleton in Hi as ->. vm_compute. reflexivity.
  - intros i Hi Hc. unfold entries_after in Hi.
    apply list_elem_of_singleton in Hi as ->. vm_compute. discriminate.
Defined.

Lemma load_data_schema_witness :
  load_data fs = Ok unified ∧
  ∃ df1 df2,
    read_csv_from_zip fs "parte_1.zip" = Ok df1 ∧
    read_csv_from_zip fs "parte_2.zip" = Ok df2 ∧
    (∀ c, c ∈ columns unified ↔
          c ≠ "Unnamed: 0" ∧ (c ∈ columns df1 ∨ c ∈ columns df2) ∨
          c ∈ ["year"; "month"; "week"]) ∧
    Forall (λ c, c ∈ columns unified)
           ["date"; "store_nbr"; "sales"; "onpromotion"] ∧
    Forall (λ lr : Z * row,
              (lr.2 !! "date" = Some NA ∨ ∃ ns, lr.2 !! "date" = Some (VDate ns)) ∧
              (lr.2 !! "store_nbr" = Some NA ∨
               ∃ z, lr.2 !! "store_nbr" = Some (VInt z)))
           (rows unified).
Proof.
  split; [exact load_fs |]. exact (load_data_schema fs unified load_fs).
Defined.

Lemma load_data_calendar_witness :
  load_data fs = Ok unified ∧
  ∃ df1 df2,
    read_csv_from_zip fs "parte_1.zip" = Ok df1 ∧
    read_csv_from_zip fs "parte_2.zip" = Ok df2 ∧
    ∀ lr, lr ∈ rows unified →
      ("year" ∉ columns (unified_base df1 df2) →
         lr.2 !! "year" = Some (calendar_cell year_of (cell_at lr.2 "date"))) ∧
      ("month" ∉ columns (unified_base df1 df2) →
         lr.2 !! "month" = Some (calendar_cell month_of (cell_at lr.2 "date")) ∧
         ∀ m, lr.2 !! "month" = Some (VInt m) → (1 ≤ m ≤ 12)%Z) ∧
      ("week" ∉ columns (unified_base df1 df2) →
         ∃ ns, lr.2 !! "date" = Some (VDate ns) ∧
               lr.2 !! "week" = Some (VInt (iso_week_of ns)) ∧
               (1 ≤ iso_week_of ns ≤ 53)%Z).
Proof.
  split; [exact load_fs |]. exact (load_data_calendar fs unified load_fs).
Defined.

Lemma default_range_keeps_dated_rows_witness :
  Sidebar.value unified = Ok (Some jan1, Some jan2) ∧
  date_filter unified jan1 jan2 = Ok df_f ∧
  Forall (λ lr : Z * row, whole_second (cell_at lr.2 "date")) (rows unified) ∧
  (jan1 ≤ jan2)%Z ∧
  rows df_f = filter (λ lr, notna (cell_at lr.2 "date")) (rows unified).
Proof.
  assert (Sidebar.value unified = Ok (Some jan1, Some jan2)) as E
    by (vm_compute; reflexivity).
  assert (Forall (λ lr : Z * row, whole_second (cell_at lr.2 "date"))
            (rows unified)) as Hw
    by (apply whole_secondsb_sound; vm_compute; reflexivity).
  split; [exact E |]. split; [exact filter_unified |]. split; [exact Hw |].
  exact (default_range_keeps_dated_rows unified jan1 jan2 df_f
           E filter_unified Hw).
Defined.

Lemma stores_of_the_selector_witness :
  load_data fs = Ok unified ∧
  date_filter unified jan1 jan2 = Ok df_f ∧
  ∃ stores,
    Tab2.stores df_f = Ok stores ∧
    StronglySorted Z.lt stores ∧
    (∀ z, z ∈ stores ↔
          ∃ lr, lr ∈ rows df_f ∧ cell_at lr.2 "store_nbr" = VInt z) ∧
    Tab1.total_stores df_f = Ok (length stores).
Proof.
  split; [exact load_fs |]. split; [exact filter_unified |].
  exact (stores_of_the_selector fs unified df_f jan1 jan2 load_fs filter_unified).
Defined.

Lemma dstore_of_a_listed_store_witness :
  load_data fs = Ok unified ∧
  date_filter unified jan1 jan2 = Ok df_f ∧
  Tab2.stores df_f = Ok stores ∧
  1%Z ∈ stores ∧
  ∃ dstore,
    Tab2.dstore df_f 1 = Ok dstore ∧
    rows dstore ≠ [] ∧
    ∀ lr, lr ∈ rows dstore ↔
          lr ∈ rows df_f ∧ cell_at lr.2 "store_nbr" = VInt 1.
Proof.
  assert (Tab2.stores df_f = Ok stores) as E
    by (apply returned_value; vm_compute; reflexivity).
  assert (1%Z ∈ stores) as Hin.
  { replace stores with [1%Z; 2%Z] by (vm_compute; reflexivity).
    apply elem_of_cons. by left. }
  split; [exact load_fs |]. split; [exact filter_unified |].
  split; [exact E |]. split; [exact Hin |].
  exact (dstore_of_a_listed_store fs unified df_f jan1 jan2 stores 1
           load_fs filter_unified E Hin).
Defined.

Lemma groupby_sum_partitions_witness :
  sums_exact ∧
  groupby unified "store_nbr" "transactions" sum_ = Ok totals_by_store ∧
  Forall (λ lr : Z * row, whole (cell_at lr.2 "transactions")) (rows unified) ∧
  (sum_abs ((λ lr, cell_at lr.2 "transactions") <$> rows unified)
   <= 2 ^ 53)%Q ∧
  (series_sum totals_by_store.*2 ==
   series_sum ((λ lr, cell_at lr.2 "transactions")
                 <$> filter (λ lr, notna (cell_at lr.2 "store_nbr"))
                            (rows unified)))%Q.
Proof.
  assert (groupby unified "store_nbr" "transactions" sum_ = Ok totals_by_store)
    as E by (apply returned_value; vm_compute; reflexivity).
  assert (Forall (λ lr : Z * row, whole (cell_at lr.2 "transactions"))
            (rows unified)) as Hwhole
    by (apply forallb_True; vm_compute; exact I).
  assert (sum_abs ((λ lr, cell_at lr.2 "transactions") <$> rows unified)
          <= 2 ^ 53)%Q as Hbound
    by (apply Qle_bool_iff; vm_compute; reflexivity).
  split; [exact RefNumpy_sums_exact |]. split; [exact E |].
  split; [exact Hwhole |]. split; [exact Hbound |].
  exact (proj2 (proj2 (proj2 (groupby_sum_partitions RefNumpy_sums_exact
                                unified "store_nbr" "transactions"
                                totals_by_store E Hwhole Hbound)))).
Defined.

Lemma daily_is_a_timeline_witness :
  argsort_sorts ∧
  date_filter unified jan1 jan2 = Ok df_f ∧
  Tab4.daily df_f = Ok daily ∧
  ∃ ts, getitem daily "date" = Ok (VDate <$> ts) ∧
        StronglySorted Z.lt ts ∧
        ∀ ns, ns ∈ ts ↔
              ∃ lr, lr ∈ rows df_f ∧ cell_at lr.2 "date" = VDate ns.
Proof.
  split; [exact RefNumpy_sorts |]. split; [exact filter_unified |].
  split; [exact daily_df_f |].
  exact (daily_is_a_timeline RefNumpy_sorts unified jan1 jan2 df_f daily
           filter_unified daily_df_f).
Defined.



Lemma tx_year_adds_up_witness :
  argsort_sorts ∧
  sums_exact ∧
  Tab3.tx_year dstate_tx = Ok tx_year ∧
  Forall (λ lr : Z * row, whole (cell_at lr.2 "transactions"))
         (rows dstate_tx) ∧
  (sum_abs ((λ lr, cell_at lr.2 "transactions") <$> rows dstate_tx)
   <= 2 ^ 53)%Q ∧
  ∃ years totals,
    getitem tx_year "year" = Ok years ∧
    getitem tx_year "transactions" = Ok totals ∧
    (∀ i j a b, years !! i = Some a → years !! j = Some b →
                cell_eqb a b = true → i = j) ∧
    (series_sum totals ==
     series_sum ((λ lr, cell_at lr.2 "transactions")
                   <$> filter (λ lr, notna (cell_at lr.2 "year"))
                              (rows dstate_tx)))%Q.
Proof.
  assert (Tab3.tx_year dstate_tx = Ok tx_year) as E
    by (apply is_ok_table; vm_compute; reflexivity).
  assert (Forall (λ lr : Z * row, whole (cell_at lr.2 "transactions"))
            (rows dstate_tx)) as Hwhole
    by (apply forallb_True; vm_compute; exact I).
  assert (sum_abs ((λ lr, cell_at lr.2 "transactions") <$> rows dstate_tx)
          <= 2 ^ 53)%Q as Hbound
    by (apply Qle_bool_iff; vm_compute; reflexivity).
  split; [exact RefNumpy_sorts |]. split; [exact RefNumpy_sums_exact |].
  split; [exact E |]. split; [exact Hwhole |]. split; [exact Hbound |].
  exact (tx_year_adds_up RefNumpy_sorts RefNumpy_sums_exact dstate_tx tx_year
           E Hwhole Hbound).
Defined.

Lemma top_products_needs_family_witness :
  load_data fs = Ok unified ∧
  ((∃ top, Tab1.top_products unified = Ok top) ↔ "family" ∈ columns unified).
Proof.
  split; [exact load_fs |].
  exact (proj1 (top_products_needs_family fs unified load_fs)).
Defined.

Lemma dstate_tx_of_dstate_witness :
  build_transactions_table unified = Ok transactions ∧
  date_filter unified jan1 jan2 = Ok df_f ∧
  date_filter transactions jan1 jan2 = Ok df_tx_f ∧
  Tab3.dstate df_f "Pichincha" = Ok dstate ∧
  one_state_per_key (rows df_f) ∧
  ∃ dstate_tx, Tab3.dstate_tx df_tx_f "Pichincha" = Ok dstate_tx ∧
               build_transactions_table dstate = Ok dstate_tx.
Proof.
  assert (Tab3.dstate df_f "Pichincha" = Ok dstate) as E
    by (apply is_ok_table; vm_compute; reflexivity).
  assert (one_state_per_key (rows df_f)) as Hone
    by (apply one_state_per_keyb_sound; vm_compute; reflexivity).
  split; [exact build_unified |]. split; [exact filter_unified |].
  split; [exact filter_transactions |]. split; [exact E |].
  split; [exact Hone |].
  exact (dstate_tx_of_dstate unified transactions df_f df_tx_f jan1 jan2
           "Pichincha" dstate build_unified filter_unified filter_transactions
           E Hone).
Defined.

Lemma dow_mean_in_the_order_of_the_week_witness :
  argsort_sorts ∧
  load_data fs_week = Ok df_week ∧
  date_filter df_week jan1 jan4 = Ok df_week_f ∧
  "day_of_week" ∈ columns df_week_f ∧
  ∃ chart means,
    Tab1.dow_mean df_week_f = Ok (Some chart) ∧
    groupby df_week_f "day_of_week" "sales" series_mean = Ok means ∧
    columns chart = ["day_of_week"; "sales"] ∧
    rows chart ≡ₚ rows (reset_index "day_of_week" "sales" means) ∧
    ((∃ days,
        getitem chart "day_of_week" = Ok (VStr <$> days) ∧
        days `sublist_of` Tab1.day_order ∧
        ∀ d, d ∈ days ↔
             ∃ lr, lr ∈ rows df_week_f ∧ cell_at lr.2 "day_of_week" = VStr d) ∨
     (chart = reset_index "day_of_week" "sales" means ∧
      ∃ lr, lr ∈ rows df_week_f ∧ cell_at lr.2 "day_of_week" ≠ NA ∧
            ∀ d, d ∈ Tab1.day_order → cell_at lr.2 "day_of_week" ≠ VStr d)).
Proof.
  assert (load_data fs_week = Ok df_week) as Hload
    by (apply is_ok_table; vm_compute; reflexivity).
  assert (date_filter df_week jan1 jan4 = Ok df_week_f) as Hf
    by (apply is_ok_table; vm_compute; reflexivity).
  assert ("day_of_week" ∈ columns df_week_f) as Hday
    by (apply list_elem_of_In; vm_compute; tauto).
  split; [exact RefNumpy_sorts |].
  split; [exact Hload |]. split; [exact Hf |]. split; [exact Hday |].
  exact (dow_mean_in_the_order_of_the_week RefNumpy_sorts fs_week df_week
           jan1 jan4 df_week_f Hload Hf Hday).
Defined.

End views.
